(** * Agentic AI system: service router, agent lifecycle, scenario coordinator

    A shallow embedding of [main.py] and [main_enhanced.py].

    Python objects that the code mutates in place ([APIIntegration.stats],
    an agent's attributes, a scenario session) are explicit states; a raised
    exception leaves the mutations done so far in place, so every effectful
    function maps a state to a new state together with either a returned
    value or a raised exception. Network replies and clock readings are
    inputs supplied by the environment. *)

From stdpp Require Import base decidable option list strings pretty gmap.

Set Warnings "-register-all".
Local Open Scope string_scope.
Local Open Scope Z_scope.

(** ** Python values *)

(** The values the program passes around as [Any]: decoded JSON payloads,
    stored memory entries, response contents. A dict has string keys. *)
Inductive value : Type :=
| VNone
| VBool (b : bool)
| VInt (n : Z)
| VFloat (repr : string)
| VStr (s : string)
| VList (items : list value)
| VDict (entries : gmap string value)
| VDatetime (t : Z).

(** [type(v).__name__] *)
Definition type_name (v : value) : string :=
  match v with
  | VNone => "NoneType"
  | VBool _ => "bool"
  | VInt _ => "int"
  | VFloat _ => "float"
  | VStr _ => "str"
  | VList _ => "list"
  | VDict _ => "dict"
  | VDatetime _ => "datetime"
  end.

(** [len(s)] of a [str]: the number of code points. A string is held as
    its UTF-8 bytes, of which the continuation bytes (10xxxxxx) do not
    start a code point. *)
Fixpoint py_len (s : string) : nat :=
  match s with
  | EmptyString => 0%nat
  | String c rest =>
      if bool_decide (128 <= Ascii.nat_of_ascii c < 192)%nat
      then py_len rest
      else S (py_len rest)
  end.

(** ** Exceptions *)

Inductive exn : Type :=
| KeyError (key_repr : string)
| IndexError (msg : string)
| TypeError (msg : string)
| AttributeError (msg : string)
| ClientError (msg : string)
| Exception (msg : string).

(** [str(e)]: a [KeyError] prints the repr of the missing key, every other
    exception prints its message. *)
Definition str_exn (e : exn) : string :=
  match e with
  | KeyError k => k
  | IndexError m | TypeError m | AttributeError m | ClientError m
  | Exception m => m
  end.

(** Outcome of a computation: a returned value or a raised exception. *)
Inductive res (A : Type) : Type :=
| Ok (a : A)
| Raise (e : exn).
Arguments Ok {A} a.
Arguments Raise {A} e.

Definition not_subscriptable (v : value) : exn :=
  TypeError ("'" +:+ type_name v +:+ "' object is not subscriptable").

(** [v[k]] with a string key [k]. *)
Definition getitem (v : value) (k : string) : res value :=
  match v with
  | VDict d =>
      match d !! k with
      | Some x => Ok x
      | None => Raise (KeyError ("'" +:+ k +:+ "'"))
      end
  | VList _ => Raise (TypeError "list indices must be integers or slices, not str")
  | VStr _ => Raise (TypeError "string indices must be integers, not 'str'")
  | _ => Raise (not_subscriptable v)
  end.

(** [v[0]] *)
Definition getitem0 (v : value) : res value :=
  match v with
  | VList (x :: _) => Ok x
  | VList [] => Raise (IndexError "list index out of range")
  | VStr (String c _) => Ok (VStr (String c ""))
  | VStr "" => Raise (IndexError "string index out of range")
  | VDict _ => Raise (KeyError "0")
  | _ => Raise (not_subscriptable v)
  end.

(** [v[:n]]: only sequences can be sliced; slicing a dict raises as well. *)
Definition slice_to (n : nat) (v : value) : res value :=
  match v with
  | VStr s => Ok (VStr (String.substring 0 n s))
  | VList l => Ok (VList (take n l))
  | VDict _ => Raise (TypeError "unhashable type: 'slice'")
  | _ => Raise (not_subscriptable v)
  end.

(** [v.get(k, default)] *)
Definition dict_get (v : value) (k : string) (dflt : value) : res value :=
  match v with
  | VDict d => Ok (default dflt (d !! k))
  | _ => Raise (AttributeError
                  ("'" +:+ type_name v +:+ "' object has no attribute 'get'"))
  end.

(** ** Stateful computations that may raise *)

(** A computation over a mutable object of type [S]: it always yields the
    object as mutated so far, also when it raises. *)
Definition M (S A : Type) : Type := S -> S * res A.

Definition ret {S A} (a : A) : M S A := fun s => (s, Ok a).

Definition raise {S A} (e : exn) : M S A := fun s => (s, Raise e).

Definition bind {S A B} (m : M S A) (k : A -> M S B) : M S B :=
  fun s =>
    match m s with
    | (s', Ok a) => k a s'
    | (s', Raise e) => (s', Raise e)
    end.

Definition modify {S} (f : S -> S) : M S unit := fun s => (f s, Ok tt).

Definition gets {S A} (f : S -> A) : M S A := fun s => (s, Ok (f s)).

(** A pure step that may raise (a subscript, a slice). *)
Definition lift {S A} (r : res A) : M S A := fun s => (s, r).

(** [try: body except Exception as e: handler(e)] *)
Definition try_except {S A} (body : M S A) (handler : exn -> M S A) : M S A :=
  fun s =>
    match body s with
    | (s', Ok a) => (s', Ok a)
    | (s', Raise e) => handler e s'
    end.

(** Run a computation written against a component of the state. *)
Definition zoom {S T A} (proj : S -> T) (inj : T -> S -> S) (m : M T A) : M S A :=
  fun s => let '(t', r) := m (proj s) in (inj t' s, r).

Declare Scope comp_scope.
Delimit Scope comp_scope with comp.
Notation "x <- m ;; k" := (bind m (fun x => k))
  (at level 100, m at next level, right associativity) : comp_scope.
Notation "m ;; k" := (bind m (fun _ => k))
  (at level 100, right associativity) : comp_scope.
Local Open Scope comp_scope.

(** The readings of [datetime.now()] during one call, in call order. *)
Definition clock : Type := nat -> Z.

(** ** Agent configuration ([AgentConfig], main_enhanced.py) *)

Record AgentConfig : Type := mkAgentConfig {
  name : string;
  type : string;
  capabilities : list string;
  enabled : bool;
  auto_start : bool;
  max_retries : Z;
  api_preference : string
}.

(** The dataclass defaults: [AgentConfig(name, type, capabilities,
    api_preference=...)]. *)
Definition agent_config (n ty : string) (caps : list string) (pref : string)
  : AgentConfig :=
  mkAgentConfig n ty caps true true 3 pref.

(** [", ".join(items)] *)
Fixpoint join (sep : string) (items : list string) : string :=
  match items with
  | [] => ""
  | [x] => x
  | x :: rest => x +:+ sep +:+ join sep rest
  end.

(** ** The replies of a remote generation service *)

(** What one [session.post(...)] does: the transport raises (network error,
    timeout), or a response arrives with a status code and a body whose
    decoding by [response.json()] returns a value or raises. *)
Inductive remote_outcome : Type :=
| TransportFailure (e : exn)
| Response (status : Z) (json : res value).

(** ** The service router ([APIIntegration], main_enhanced.py) *)

Module APIIntegration.

Record TierStats : Type := mkTierStats {
  requests : nat;
  success : nat;
  errors : nat
}.

(** The keys of [self.stats]. *)
Inductive tier : Type := camel_ai | llm7 | local.

#[global] Instance tier_eq_dec : EqDecision tier.
Proof. solve_decision. Defined.

Definition tier_name (k : tier) : string :=
  match k with
  | camel_ai => "camel_ai"
  | llm7 => "llm7"
  | local => "local"
  end.

(** [self]: the two reachability flags and the per-tier counters. The
    credentials and URLs of [self.config] only shape the request that is
    sent; the reply is an input here. *)
Record t : Type := mkAPI {
  camel_ai_enabled : bool;
  llm7_enabled : bool;
  stats_camel_ai : TierStats;
  stats_llm7 : TierStats;
  stats_local : TierStats
}.

(** [self.stats[k]] *)
Definition stats (k : tier) (self : t) : TierStats :=
  match k with
  | camel_ai => stats_camel_ai self
  | llm7 => stats_llm7 self
  | local => stats_local self
  end.

Definition set_stats (k : tier) (f : TierStats -> TierStats) (self : t) : t :=
  match k with
  | camel_ai => mkAPI (camel_ai_enabled self) (llm7_enabled self)
                  (f (stats_camel_ai self)) (stats_llm7 self) (stats_local self)
  | llm7 => mkAPI (camel_ai_enabled self) (llm7_enabled self)
              (stats_camel_ai self) (f (stats_llm7 self)) (stats_local self)
  | local => mkAPI (camel_ai_enabled self) (llm7_enabled self)
               (stats_camel_ai self) (stats_llm7 self) (f (stats_local self))
  end.

(** [self.stats[k]['requests'] += 1] and its two siblings. *)
Definition count_request (k : tier) : M t unit :=
  modify (set_stats k (fun c => mkTierStats (S (requests c)) (success c) (errors c))).
Definition count_success (k : tier) : M t unit :=
  modify (set_stats k (fun c => mkTierStats (requests c) (S (success c)) (errors c))).
Definition count_error (k : tier) : M t unit :=
  modify (set_stats k (fun c => mkTierStats (requests c) (success c) (S (errors c)))).

(** [__init__] *)
Definition init : t :=
  mkAPI false false (mkTierStats 0 0 0) (mkTierStats 0 0 0) (mkTierStats 0 0 0).

(** The dict a tier returns. *)
Record response : Type := mkResponse {
  r_success : bool;
  content : value;
  api_used : string;
  model : string;
  usage : value
}.

Definition select_api (self : t) (preference : string) : string :=
  if bool_decide (preference = "camel") && camel_ai_enabled self then "camel_ai"
  else if bool_decide (preference = "llm7") && llm7_enabled self then "llm7"
  else if bool_decide (preference = "auto") then
    if camel_ai_enabled self then "camel_ai"
    else if llm7_enabled self then "llm7"
    else "local"
  else "local".

Definition use_camel_ai (prompt : string) (agent_config : AgentConfig)
    (reply : remote_outcome) : M t response :=
  count_request camel_ai ;;
  try_except
    (match reply with
     | TransportFailure e => raise e
     | Response status json =>
         if bool_decide (status = 200) then
           data <- lift json ;;
           count_success camel_ai ;;
           choices <- lift (getitem data "choices") ;;
           choice <- lift (getitem0 choices) ;;
           message <- lift (getitem choice "message") ;;
           text <- lift (getitem message "content") ;;
           used <- lift (dict_get data "usage" (VDict ∅)) ;;
           ret (mkResponse true text "camel_ai" "gpt-3.5-turbo" used)
         else raise (Exception ("HTTP " +:+ pretty status))
     end)
    (fun e =>
       count_error camel_ai ;;
       raise (Exception ("Camel AI request failed: " +:+ str_exn e))).

Definition use_llm7 (prompt : string) (agent_config : AgentConfig)
    (reply : remote_outcome) : M t response :=
  count_request llm7 ;;
  try_except
    (match reply with
     | TransportFailure e => raise e
     | Response status json =>
         if bool_decide (status = 200) then
           data <- lift json ;;
           count_success llm7 ;;
           choices <- lift (getitem data "choices") ;;
           choice <- lift (getitem0 choices) ;;
           text <- lift (getitem choice "text") ;;
           used <- lift (dict_get data "usage" (VDict ∅)) ;;
           ret (mkResponse true text "llm7" "llm7-medium" used)
         else raise (Exception ("HTTP " +:+ pretty status))
     end)
    (fun e =>
       count_error llm7 ;;
       raise (Exception ("LLM7 request failed: " +:+ str_exn e))).

Definition generate_code_response (prompt : string) : string :=
"I can help with coding tasks. Based on your request, here's my approach:

1. Analyze the requirements
2. Design the solution architecture
3. Implement with best practices
4. Add error handling and testing
5. Provide documentation

For Next.js projects, I can create:
- Component structures
- API routes
- State management
- Styling solutions
- Deployment configurations

Would you like me to proceed with a specific implementation?".

Definition generate_design_response (prompt : string) : string :=
"I can assist with UI/UX design tasks:

Design Approach:
- User-centered design principles
- Modern, responsive layouts
- Accessibility considerations
- Performance optimization
- Cross-platform compatibility

Design Systems:
- Material Design
- Tailwind CSS
- Custom design tokens
- Component libraries

I can create wireframes, prototypes, and design specifications. What specific design challenge can I help with?".

Definition generate_security_response (prompt : string) : string :=
"Security analysis and recommendations:

Security Framework:
- Authentication & Authorization (JWT, OAuth)
- Data encryption (AES-256, TLS)
- Input validation and sanitization
- CSRF and XSS protection
- Rate limiting and DDoS protection

Best Practices:
- Zero-trust architecture
- Least privilege principle
- Regular security audits
- Secure coding practices
- Incident response planning

Would you like me to perform a security assessment or implement specific security measures?".

Definition generate_agent_response (prompt : string) : string :=
"Agent Creation and Management:

I can create specialized agents with:
- Custom capabilities and skills
- Specific roles and responsibilities
- Autonomous operation modes
- Learning and adaptation features
- Collaboration protocols

Agent Types Available:
- Development agents (Frontend, Backend, DevOps)
- Design agents (UI/UX, Graphics, Content)
- Security agents (Monitoring, Testing, Compliance)
- Data agents (Analysis, Processing, Visualization)
- Business agents (Strategy, Marketing, Finance)

What type of agent would you like me to create?".

Definition generate_general_response (prompt : string) : string :=
"I'm here to help with a wide range of tasks using local AI processing:

Capabilities:
- Problem analysis and solution design
- Information processing and synthesis
- Task planning and execution
- Quality control and optimization
- Communication and collaboration

I can adapt my responses based on your specific needs while maintaining high standards of accuracy and helpfulness. How can I assist you further?".

Definition newline : string := String (Ascii.ascii_of_nat 10) "".

(** The text [use_local] builds inside its [try]. *)
Definition local_text (prompt : string) (agent_config : AgentConfig) : string :=
  let response :=
    "[" +:+ name agent_config +:+ "] Processing: " +:+ prompt
        +:+ newline +:+ newline in
  let caps := capabilities agent_config in
  if bool_decide ("coding" ∈ caps) || bool_decide ("nextjs" ∈ caps)
  then response +:+ generate_code_response prompt
  else if bool_decide ("ui_design" ∈ caps)
  then response +:+ generate_design_response prompt
  else if bool_decide ("security" ∈ caps)
  then response +:+ generate_security_response prompt
  else if bool_decide ("agent_creation" ∈ caps)
  then response +:+ generate_agent_response prompt
  else response +:+ generate_general_response prompt.

(** No operation of the [try] block raises on a string prompt and a list
    of string capabilities, so its handler is never entered. *)
Definition use_local (prompt : string) (agent_config : AgentConfig)
    : M t response :=
  count_request local ;;
  try_except
    (let response := local_text prompt agent_config in
     count_success local ;;
     ret (mkResponse true (VStr response) "local" "local-ai"
            (VDict {[ "tokens" := VInt (Z.of_nat (py_len response)) ]})))
    (fun e =>
       count_error local ;;
       raise (Exception ("Local processing failed: " +:+ str_exn e))).

(** [reply] is the outcome of the one request a remote tier sends; the
    local tier does not look at it. *)
Definition generate_response (prompt : string) (agent_config : AgentConfig)
    (reply : remote_outcome) : M t response :=
  api_to_use <- gets (fun self => select_api self (api_preference agent_config)) ;;
  try_except
    (if bool_decide (api_to_use = "camel_ai")
     then use_camel_ai prompt agent_config reply
     else if bool_decide (api_to_use = "llm7")
     then use_llm7 prompt agent_config reply
     else use_local prompt agent_config)
    (fun e => use_local prompt agent_config).

(** *** Multi-agent scenarios *)

(** The [scenario] dict: [title] and [description] are read with
    [scenario[...]], [rounds] with [scenario.get('rounds', 3)]. *)
Record Scenario : Type := mkScenario {
  title : string;
  description : string;
  rounds : option Z
}.

(** A participant dict that has its name and its role: [name] and [role]
    are read with [agent[...]], [type] and [capabilities] with
    [agent.get(...)]. Dicts that may lack a key are in [Dicts], below. *)
Record Participant : Type := mkParticipant {
  agent_name : string;
  agent_role : string;
  agent_type : option string;
  agent_capabilities : option (list string)
}.

Module Message.
Record t : Type := mk {
  round : nat;
  agent : string;
  role : string;
  content : value;
  api_used : string;
  timestamp : Z
}.
End Message.

Module Session.
Record t : Type := mk {
  id : string;
  scenario : Scenario;
  agents : list Participant;
  messages : list Message.t;
  status : string;
  start_time : Z;
  end_time : option Z;
  error : option string
}.

(** [session['messages'].append(m)] *)
Definition append (m : Message.t) (s : t) : t :=
  mk (id s) (scenario s) (agents s) (messages s ++ [m]) (status s)
     (start_time s) (end_time s) (error s).

(** [session['status'] = 'completed'; session['end_time'] = now] *)
Definition complete (now : Z) (s : t) : t :=
  mk (id s) (scenario s) (agents s) (messages s) "completed"
     (start_time s) (Some now) (error s).

(** [session['status'] = 'error'; session['error'] = str(e)] *)
Definition fail (e : exn) (s : t) : t :=
  mk (id s) (scenario s) (agents s) (messages s) "error"
     (start_time s) (end_time s) (Some (str_exn e)).
End Session.

(** The session dict both scenario functions start from: the first clock
    reading gives the id, the second the start time. *)
Definition new_session (scenario : Scenario) (agents : list Participant)
    (clk : clock) : Session.t :=
  Session.mk (pretty (clk 0%nat)) scenario agents [] "active" (clk 1%nat) None None.

(** [range(scenario.get('rounds', 3))] *)
Definition round_range (scenario : Scenario) : list nat :=
  seq 0 (Z.to_nat (default 3 (rounds scenario))).

(** [for x in xs: body(x)] *)
Fixpoint for_each {S A} (xs : list A) (body : A -> M S unit) : M S unit :=
  match xs with
  | [] => ret tt
  | x :: rest => body x ;; for_each rest body
  end.

(** [xs[-n:]] for [n > 0] *)
Definition last_n {A} (n : nat) (xs : list A) : list A :=
  drop (length xs - n) xs.

Section Scenarios.

(** [json.dumps(messages, default=str)], the library serializer. *)
Variable json_dumps : list Message.t -> string.

Definition indent : string := "                    ".

Definition scenario_prompt (scenario : Scenario) (agent : Participant)
    (round_num : nat) (messages : list Message.t) : string :=
  "Multi-agent scenario: " +:+ description scenario +:+ newline
  +:+ indent +:+ "Your role: " +:+ agent_role agent +:+ newline
  +:+ indent +:+ "Round: " +:+ pretty (round_num + 1)%nat +:+ newline
  +:+ indent +:+ "Previous messages: " +:+ json_dumps (last_n 3 messages)
  +:+ newline
  +:+ indent +:+ newline
  +:+ indent +:+ "Respond as " +:+ agent_name agent
  +:+ " would in this scenario.".

(** One participant's turn in the remote path. The state is the router
    together with the session dict; [net i] is the reply to the [i]-th
    request of the scenario and [clk] the clock. The last step is the
    [logger.info] line, which slices the content. *)
Definition remote_turn (scenario : Scenario) (net : nat -> remote_outcome)
    (clk : clock) (round_num : nat) (agent : Participant)
    : M (t * Session.t) unit :=
  messages <- gets (fun st => Session.messages (snd st)) ;;
  let prompt := scenario_prompt scenario agent round_num messages in
  let agent_config :=
    agent_config (agent_name agent)
      (default "collaborator" (agent_type agent))
      (default [] (agent_capabilities agent))
      "camel" in
  response <- zoom fst (fun self st => (self, snd st))
                (generate_response prompt agent_config (net (length messages))) ;;
  modify (fun st =>
            (fst st,
             Session.append
               (Message.mk (round_num + 1) (agent_name agent) (agent_role agent)
                  (content response) (api_used response)
                  (clk (2 + length messages)%nat))
               (snd st))) ;;
  lift (slice_to 100 (content response)) ;;
  ret tt.

Definition responses : list string := [
  "I believe we should take a systematic approach to this challenge...";
  "From my analysis, the key factors to consider are...";
  "I propose we divide the problem into manageable components...";
  "Building on the previous points, I would add...";
  "Let me offer an alternative perspective on this issue..."
].

Definition local_turn (clk : clock) (round_num : nat) (agent : Participant)
    : M Session.t unit :=
  messages <- gets Session.messages ;;
  let response :=
    default "" (responses !! (round_num mod length responses)%nat)
    +:+ " (Local simulation by " +:+ agent_name agent +:+ ")" in
  modify (Session.append
            (Message.mk (round_num + 1) (agent_name agent) (agent_role agent)
               (VStr response) "local_simulation"
               (clk (2 + length messages)%nat))).

(** The two nested [for] loops of [simulate_local_scenario]. *)
Definition local_rounds (scenario : Scenario) (agents : list Participant)
    (clk : clock) : M Session.t unit :=
  for_each (round_range scenario)
    (fun round_num => for_each agents (local_turn clk round_num)).

(** No handler surrounds the loop: an exception would leave the function. *)
Definition simulate_local_scenario (scenario : Scenario)
    (agents : list Participant) (clk : clock) : M t Session.t :=
  fun self =>
    let session := new_session scenario agents clk in
    match local_rounds scenario agents clk session with
    | (session', Ok _) =>
        (self, Ok (Session.complete
                     (clk (2 + length (Session.messages session'))%nat) session'))
    | (_, Raise e) => (self, Raise e)
    end.

(** The two nested [for] loops inside the [try] of
    [create_multi_agent_scenario]. *)
Definition remote_rounds (scenario : Scenario) (agents : list Participant)
    (net : nat -> remote_outcome) (clk : clock) : M (t * Session.t) unit :=
  for_each (round_range scenario)
    (fun round_num => for_each agents (remote_turn scenario net clk round_num)).

Definition create_multi_agent_scenario (scenario : Scenario)
    (agents : list Participant) (net : nat -> remote_outcome) (clk : clock)
    : M t Session.t :=
  fun self =>
    if negb (camel_ai_enabled self)
    then simulate_local_scenario scenario agents clk self
    else
      let session := new_session scenario agents clk in
      match remote_rounds scenario agents net clk (self, session) with
      | ((self', session'), Ok _) =>
          (self', Ok (Session.complete
                        (clk (2 + length (Session.messages session'))%nat)
                        session'))
      | ((self', session'), Raise e) =>
          (self', Ok (Session.fail e session'))
      end.

End Scenarios.

(** *** Scenarios on participant dicts that may lack a key *)

(** The same two functions on participants as a caller may pass them: a
    dict in which any of the four keys the code reads can be absent. The
    keys [name] and [role] are read with [agent[...]], which raises
    [KeyError] on a missing key. *)
Module Dicts.

Record ParticipantDict : Type := mkParticipantDict {
  pd_name : option string;
  pd_role : option string;
  pd_type : option string;
  pd_capabilities : option (list string)
}.

(** The dict of a participant that has its name and its role. *)
Definition of_participant (a : Participant) : ParticipantDict :=
  mkParticipantDict (Some (agent_name a)) (Some (agent_role a))
    (agent_type a) (agent_capabilities a).

(** [agent[key]] *)
Definition subscript (key : string) (field : option string) : res string :=
  match field with
  | Some v => Ok v
  | None => Raise (KeyError ("'" +:+ key +:+ "'"))
  end.

(** The session dict, with the participant dicts as passed. *)
Record session : Type := mkSession {
  id : string;
  scenario : Scenario;
  agents : list ParticipantDict;
  messages : list Message.t;
  status : string;
  start_time : Z;
  end_time : option Z;
  error : option string
}.

(** [session['messages'].append(m)] *)
Definition append (m : Message.t) (s : session) : session :=
  mkSession (id s) (scenario s) (agents s) (messages s ++ [m]) (status s)
    (start_time s) (end_time s) (error s).

(** [session['status'] = 'completed'; session['end_time'] = now] *)
Definition complete (now : Z) (s : session) : session :=
  mkSession (id s) (scenario s) (agents s) (messages s) "completed"
    (start_time s) (Some now) (error s).

(** [session['status'] = 'error'; session['error'] = str(e)] *)
Definition fail (e : exn) (s : session) : session :=
  mkSession (id s) (scenario s) (agents s) (messages s) "error"
    (start_time s) (end_time s) (Some (str_exn e)).

Definition new_session (scenario : Scenario) (agents : list ParticipantDict)
    (clk : clock) : session :=
  mkSession (pretty (clk 0%nat)) scenario agents [] "active" (clk 1%nat) None None.

(** The session dict of a run on participants that have name and role. *)
Definition of_session (s : Session.t) : session :=
  mkSession (Session.id s) (Session.scenario s)
    (map of_participant (Session.agents s)) (Session.messages s)
    (Session.status s) (Session.start_time s) (Session.end_time s)
    (Session.error s).

(** One turn of [simulate_local_scenario]: the f-string reads
    [agent['name']], then the message dict reads [agent['name']] and
    [agent['role']]; the message is appended after that. *)
Definition local_turn (clk : clock) (round_num : nat) (agent : ParticipantDict)
    : M session unit :=
  previous <- gets messages ;;
  name <- lift (subscript "name" (pd_name agent)) ;;
  let response :=
    default "" (responses !! (round_num mod length responses)%nat)
    +:+ " (Local simulation by " +:+ name +:+ ")" in
  role <- lift (subscript "role" (pd_role agent)) ;;
  modify (append
            (Message.mk (round_num + 1) name role (VStr response)
               "local_simulation" (clk (2 + length previous)%nat))).

Definition local_rounds (scenario : Scenario) (agents : list ParticipantDict)
    (clk : clock) : M session unit :=
  for_each (round_range scenario)
    (fun round_num => for_each agents (local_turn clk round_num)).

(** [simulate_local_scenario]: no handler surrounds the loop, an exception
    leaves the function and the session dict is lost with it. *)
Definition simulate_local_scenario (scenario : Scenario)
    (agents : list ParticipantDict) (clk : clock) : M t session :=
  fun self =>
    let session := new_session scenario agents clk in
    match local_rounds scenario agents clk session with
    | (session', Ok _) =>
        (self, Ok (complete (clk (2 + length (messages session'))%nat) session'))
    | (_, Raise e) => (self, Raise e)
    end.

Section Remote.

(** [json.dumps(messages, default=str)], the library serializer. *)
Variable json_dumps : list Message.t -> string.

(** One turn of the remote path: the prompt's f-string reads
    [agent['role']], then [agent['name']]; the rest is as on participants
    that have both. *)
Definition remote_turn (scenario : Scenario) (net : nat -> remote_outcome)
    (clk : clock) (round_num : nat) (agent : ParticipantDict)
    : M (t * session) unit :=
  previous <- gets (fun st => messages (snd st)) ;;
  role <- lift (subscript "role" (pd_role agent)) ;;
  name <- lift (subscript "name" (pd_name agent)) ;;
  let prompt :=
    scenario_prompt json_dumps scenario
      (mkParticipant name role (pd_type agent) (pd_capabilities agent))
      round_num previous in
  let agent_config :=
    agent_config name
      (default "collaborator" (pd_type agent))
      (default [] (pd_capabilities agent))
      "camel" in
  response <- zoom fst (fun self st => (self, snd st))
                (generate_response prompt agent_config (net (length previous))) ;;
  modify (fun st =>
            (fst st,
             append
               (Message.mk (round_num + 1) name role
                  (content response) (api_used response)
                  (clk (2 + length previous)%nat))
               (snd st))) ;;
  lift (slice_to 100 (content response)) ;;
  ret tt.

Definition remote_rounds (scenario : Scenario) (agents : list ParticipantDict)
    (net : nat -> remote_outcome) (clk : clock) : M (t * session) unit :=
  for_each (round_range scenario)
    (fun round_num => for_each agents (remote_turn scenario net clk round_num)).

(** [create_multi_agent_scenario]: the local simulation is returned before
    the [try] is entered. *)
Definition create_multi_agent_scenario (scenario : Scenario)
    (agents : list ParticipantDict) (net : nat -> remote_outcome) (clk : clock)
    : M t session :=
  fun self =>
    if negb (camel_ai_enabled self)
    then simulate_local_scenario scenario agents clk self
    else
      let session := new_session scenario agents clk in
      match remote_rounds scenario agents net clk (self, session) with
      | ((self', session'), Ok _) =>
          (self', Ok (complete (clk (2 + length (messages session'))%nat) session'))
      | ((self', session'), Raise e) =>
          (self', Ok (fail e session'))
      end.

End Remote.

End Dicts.

(** [get_stats]: the totals over the three tiers. *)
Definition total_requests (self : t) : nat :=
  (requests (stats_camel_ai self) + requests (stats_llm7 self)
   + requests (stats_local self))%nat.
Definition total_success (self : t) : nat :=
  (success (stats_camel_ai self) + success (stats_llm7 self)
   + success (stats_local self))%nat.
Definition total_errors (self : t) : nat :=
  (errors (stats_camel_ai self) + errors (stats_llm7 self)
   + errors (stats_local self))%nat.

(** *** Startup probe *)

(** [APIConfig], with the defaults of the dataclass. *)
Record APIConfig : Type := mkAPIConfig {
  camel_ai_key : string;
  camel_ai_url : string;
  llm7_key : string;
  llm7_url : string;
  cfg_timeout : Z;
  cfg_max_retries : Z
}.

Definition default_config : APIConfig :=
  mkAPIConfig "demo_key" "https://api.camel-ai.org/v1"
    "demo_key" "https://api.llm7.ai/v1" 30 3.

(** [self.camel_ai_enabled = True] and [self.llm7_enabled = True] *)
Definition enable_camel_ai (self : t) : t :=
  mkAPI true (llm7_enabled self)
    (stats_camel_ai self) (stats_llm7 self) (stats_local self).

Definition enable_llm7 (self : t) : t :=
  mkAPI (camel_ai_enabled self) true
    (stats_camel_ai self) (stats_llm7 self) (stats_local self).

(** [test_camel_ai]: [reply] is the outcome of the [GET /models] request,
    which is only sent when the key is not the placeholder. The body of
    the response is never read. *)
Definition test_camel_ai (config : APIConfig) (reply : remote_outcome)
    : M t unit :=
  if bool_decide (camel_ai_key config = "demo_key") then ret tt
  else
    try_except
      (match reply with
       | TransportFailure e => raise e
       | Response status _ =>
           if bool_decide (status = 200) then modify enable_camel_ai
           else ret tt
       end)
      (fun e => ret tt).

Definition test_llm7 (config : APIConfig) (reply : remote_outcome)
    : M t unit :=
  if bool_decide (llm7_key config = "demo_key") then ret tt
  else
    try_except
      (match reply with
       | TransportFailure e => raise e
       | Response status _ =>
           if bool_decide (status = 200) then modify enable_llm7
           else ret tt
       end)
      (fun e => ret tt).

(** [initialize]: the two probes, one after the other. *)
Definition initialize (config : APIConfig)
    (reply_camel_ai reply_llm7 : remote_outcome) : M t unit :=
  test_camel_ai config reply_camel_ai ;;
  test_llm7 config reply_llm7.

(** *** Vocabulary of the statements *)

(** A probe succeeds: the key is not the placeholder and the answer has
    status 200. *)
Definition probe_ok (key : string) (reply : remote_outcome) : bool :=
  negb (bool_decide (key = "demo_key"))
  && match reply with
     | Response status _ => bool_decide (status = 200)
     | TransportFailure _ => false
     end.

(** The call [generate_response] makes for the tier key [k]. *)
Definition tier_call (k : tier) (prompt : string) (agent_config : AgentConfig)
    (reply : remote_outcome) : M t response :=
  match k with
  | camel_ai => use_camel_ai prompt agent_config reply
  | llm7 => use_llm7 prompt agent_config reply
  | local => use_local prompt agent_config
  end.

(** A computation raises from a given state. *)
Definition raises {S A} (m : M S A) (s : S) : Prop :=
  exists e, snd (m s) = Raise e.

(** A response whose status code is not a 2xx code. *)
Definition non_2xx (reply : remote_outcome) : Prop :=
  exists status json, reply = Response status json /\ ~ (200 <= status <= 299).

(** The counters of one tier add up. *)
Definition balanced (c : TierStats) : Prop :=
  requests c = (success c + errors c)%nat.

(** Counter-wise order on the counters of one tier. *)
Definition stats_le (c d : TierStats) : Prop :=
  (requests c <= requests d /\ success c <= success d /\ errors c <= errors d)%nat.

(** The counters of a tier after one request: [ok] tells whether the
    success counter was bumped, [err] whether the error counter was. *)
Definition counted (ok err : bool) (c : TierStats) : TierStats :=
  mkTierStats (S (requests c))
    (if ok then S (success c) else success c)
    (if err then S (errors c) else errors c).

(** A sequence of [generate_response] calls, each with the reply its
    remote request gets; the router is what the calls share. *)
Fixpoint run_calls (calls : list (string * AgentConfig * remote_outcome))
    (self : t) : t :=
  match calls with
  | [] => self
  | (prompt, agent_config, reply) :: rest =>
      run_calls rest (fst (generate_response prompt agent_config reply self))
  end.

(** A call is clean when its reply is not a 200 response whose decoded
    body then makes the selected tier raise. *)
Definition clean_call (prompt : string) (agent_config : AgentConfig)
    (reply : remote_outcome) (self : t) : Prop :=
  forall k data,
    select_api self (api_preference agent_config) = tier_name k ->
    reply = Response 200 (Ok data) ->
    ~ raises (tier_call k prompt agent_config reply) self.

Fixpoint clean_calls (calls : list (string * AgentConfig * remote_outcome))
    (self : t) : Prop :=
  match calls with
  | [] => True
  | (prompt, agent_config, reply) :: rest =>
      clean_call prompt agent_config reply self
      /\ clean_calls rest (fst (generate_response prompt agent_config reply self))
  end.

(** The turns of a scenario in the order the loops take them. *)
Definition turn_order (scenario : Scenario) (agents : list Participant)
    : list (nat * Participant) :=
  flat_map (fun round_num => map (pair round_num) agents) (round_range scenario).

(** What a message says about its turn. *)
Definition message_turn (m : Message.t) : nat * string * string :=
  (Message.round m, Message.agent m, Message.role m).

(** What the message of a turn must say about it. *)
Definition turn_label (turn : nat * Participant) : nat * string * string :=
  ((fst turn + 1)%nat, agent_name (snd turn), agent_role (snd turn)).

(** The message the local simulation writes for a turn, as the [i]-th
    message of the transcript. *)
Definition local_message (clk : clock) (i : nat) (turn : nat * Participant)
    : Message.t :=
  Message.mk (fst turn + 1) (agent_name (snd turn)) (agent_role (snd turn))
    (VStr (default "" (responses !! (fst turn mod length responses)%nat)
           +:+ " (Local simulation by " +:+ agent_name (snd turn) +:+ ")"))
    "local_simulation" (clk (2 + i)%nat).

(** [session['messages']] replaced. *)
Definition with_messages (messages : list Message.t) (s : Session.t) : Session.t :=
  Session.mk (Session.id s) (Session.scenario s) (Session.agents s) messages
    (Session.status s) (Session.start_time s) (Session.end_time s)
    (Session.error s).

End APIIntegration.

(** ** The shared memory store ([MemoryBus], same in main.py and
    main_enhanced.py) *)

Module MemoryBus.

(** The dict stored under a key: [{'value': .., 'timestamp': .., 'type': ..}]. *)
Record Entry : Type := mkEntry {
  entry_value : value;
  entry_timestamp : Z;
  entry_type : string
}.

(** [self.data]; the lock only serialises callers and holds no data. *)
Record t : Type := mk {
  data : gmap string Entry
}.

(** [__init__] *)
Definition init : t := mk ∅.

(** [store(key, value)], with [now] the reading of [datetime.now()]. *)
Definition store (now : Z) (key : string) (v : value) (self : t) : t :=
  mk (<[key := mkEntry v now (type_name v)]> (data self)).

(** [retrieve(key)]: [self.data.get(key, {}).get('value')]. *)
Definition retrieve (key : string) (self : t) : value :=
  match data self !! key with
  | Some e => entry_value e
  | None => VNone
  end.

(** [publish(topic, message)] of main.py. A subscriber is a callable with
    effects on some world [S]; [subscribers] maps a topic to its callables
    in registration order. A failing callable is logged and skipped. *)
Definition publish {S} (subscribers : gmap string (list (value -> M S unit)))
    (topic : string) (message : value) : M S unit :=
  match subscribers !! topic with
  | Some callbacks =>
      APIIntegration.for_each callbacks
        (fun callback => try_except (callback message) (fun e => ret tt))
  | None => ret tt
  end.

(** A sequence of [store] calls, each with its clock reading. *)
Definition store_all (writes : list (Z * string * value)) (self : t) : t :=
  foldl (fun bus w => store (fst (fst w)) (snd (fst w)) (snd w) bus) self writes.

(** The value of the last write under [key], if there is one. *)
Definition last_write (key : string) (writes : list (Z * string * value))
    : option value :=
  snd <$> last (filter (fun w => snd (fst w) = key) writes).

End MemoryBus.

(** ** Agents ([BaseAgent] and its subclasses, main_enhanced.py) *)

Module BaseAgent.

(** A task dict. *)
Definition Task : Type := gmap string value.

(** One entry of [self.conversations]. *)
Record Conversation : Type := mkConversation {
  c_task : Task;
  c_prompt : string;
  c_result : APIIntegration.response;
  c_processed : value;
  c_timestamp : Z
}.

(** The attributes [__init__] sets, and [attrs] for those a subclass adds. *)
Record t : Type := mk {
  config : AgentConfig;
  status : string;
  tasks_completed : nat;
  last_activity : Z;
  errors : list string;
  conversations : list Conversation;
  attrs : gmap string value
}.

(** The two methods a subclass overrides. [_setup] works on the attributes
    of the subclass and may raise; [_process_task_result] computes a value
    from the task and the router's result, or raises. *)
Record AgentClass : Type := mkClass {
  _setup : M (gmap string value) unit;
  _process_task_result : Task -> APIIntegration.response -> res value
}.

(** [__init__], with [now] the reading of [datetime.now()]. *)
Definition init (cfg : AgentConfig) (now : Z) : t :=
  mk cfg "initialized" 0 now [] [] ∅.

Definition set_status (s : string) (self : t) : t :=
  mk (config self) s (tasks_completed self) (last_activity self)
     (errors self) (conversations self) (attrs self).

Definition set_last_activity (now : Z) (self : t) : t :=
  mk (config self) (status self) (tasks_completed self) now
     (errors self) (conversations self) (attrs self).

Definition set_attrs (a : gmap string value) (self : t) : t :=
  mk (config self) (status self) (tasks_completed self) (last_activity self)
     (errors self) (conversations self) a.

(** [self.errors.append(msg)] *)
Definition append_error (msg : string) (self : t) : t :=
  mk (config self) (status self) (tasks_completed self) (last_activity self)
     (errors self ++ [msg]) (conversations self) (attrs self).

(** [self.tasks_completed += 1] *)
Definition count_task (self : t) : t :=
  mk (config self) (status self) (S (tasks_completed self)) (last_activity self)
     (errors self) (conversations self) (attrs self).

(** [self.conversations.append(c)] *)
Definition append_conversation (c : Conversation) (self : t) : t :=
  mk (config self) (status self) (tasks_completed self) (last_activity self)
     (errors self) (conversations self ++ [c]) (attrs self).

Definition initialize (cls : AgentClass) : M t bool :=
  try_except
    (modify (set_status "initializing") ;;
     zoom attrs set_attrs (_setup cls) ;;
     modify (set_status "active") ;;
     ret true)
    (fun e =>
       modify (set_status "error") ;;
       modify (append_error (str_exn e)) ;;
       ret false).

(** [BaseAgent._setup]: only sleeps. *)
Definition base_setup : M (gmap string value) unit := ret tt.

(** [BaseAgent._process_task_result]: [result['content']]. *)
Definition base_process_task_result (task : Task)
    (result : APIIntegration.response) : res value :=
  Ok (APIIntegration.content result).

Definition BaseAgent : AgentClass := mkClass base_setup base_process_task_result.

(** [DevEngineAgent._setup] *)
Definition dev_engine_setup : M (gmap string value) unit :=
  modify (fun a =>
    <["projects" := VList []]>
      (<["dev_tools" :=
           VDict (<["package_manager" := VStr "npm"]>
                 (<["framework" := VStr "nextjs"]>
                 (<["build_tools" := VList [VStr "webpack"; VStr "vite"]]>
                 (<["testing" := VList [VStr "jest"; VStr "cypress"]]> ∅))))]> a)).

Definition DevEngineAgent : AgentClass :=
  mkClass dev_engine_setup base_process_task_result.

(** Two subclasses with a failing hook, to exercise the handlers: one
    whose [_setup] raises, one whose [_process_task_result] reads a key the
    result does not have. *)
Definition BrokenSetupAgent : AgentClass :=
  mkClass (raise (Exception "setup failed")) base_process_task_result.

Definition BrokenResultAgent : AgentClass :=
  mkClass base_setup (fun _ _ => Raise (KeyError "'summary'")).

(** What [execute_task] returns: the dict with key [status] and, by case,
    [result] and [api_used], or [error]. *)
Record TaskResult : Type := mkTaskResult {
  tr_status : string;
  tr_result : option value;
  tr_api_used : option string;
  tr_error : option string
}.

Section ExecuteTask.

(** [str(v)] as an f-string prints a value. *)
Variable py_str : value -> string.

Definition create_task_prompt (self : t) (task : Task) : string :=
  APIIntegration.newline
  +:+ "Task: " +:+ py_str (default (VStr "general") (task !! "type"))
  +:+ APIIntegration.newline
  +:+ "Description: "
  +:+ py_str (default (VStr "No description provided") (task !! "description"))
  +:+ APIIntegration.newline
  +:+ "Context: " +:+ py_str (default (VDict ∅) (task !! "context"))
  +:+ APIIntegration.newline
  +:+ "Agent: " +:+ name (config self) +:+ APIIntegration.newline
  +:+ "Capabilities: " +:+ join ", " (capabilities (config self))
  +:+ APIIntegration.newline +:+ APIIntegration.newline
  +:+ "Please process this task and provide a detailed response."
  +:+ APIIntegration.newline.

(** The state is the shared router together with the agent; [reply] is the
    outcome of the remote request the router may send. *)
Definition execute_task (cls : AgentClass) (task : Task)
    (reply : remote_outcome) (clk : clock)
    : M (APIIntegration.t * t) TaskResult :=
  let on_agent (f : t -> t) := modify (fun st => (fst st, f (snd st))) in
  try_except
    (on_agent (set_last_activity (clk 0%nat)) ;;
     self <- gets snd ;;
     let prompt := create_task_prompt self task in
     result <- zoom fst (fun api st => (api, snd st))
                 (APIIntegration.generate_response prompt (config self) reply) ;;
     processed_result <- lift (_process_task_result cls task result) ;;
     on_agent count_task ;;
     on_agent (append_conversation
                 (mkConversation task prompt result processed_result (clk 1%nat))) ;;
     ret (mkTaskResult "success" (Some processed_result)
            (Some (APIIntegration.api_used result)) None))
    (fun e =>
       on_agent (append_error (str_exn e)) ;;
       ret (mkTaskResult "error" None None (Some (str_exn e)))).

End ExecuteTask.

(** A sequence of [execute_task] calls on one agent: each with its task,
    the reply its remote request gets and its clock. *)
Fixpoint run_tasks (py_str : value -> string) (cls : AgentClass)
    (calls : list (Task * remote_outcome * clock))
    (st : APIIntegration.t * t) : APIIntegration.t * t :=
  match calls with
  | [] => st
  | (task, reply, clk) :: rest =>
      run_tasks py_str cls rest (fst (execute_task py_str cls task reply clk st))
  end.

(** *** [DevEngineAgent]: projects *)

(** [_get_nextjs_package_json] *)
Definition _get_nextjs_package_json : gmap string value :=
  {[ "name" := VStr "agi-nextjs-app";
     "version" := VStr "1.0.0";
     "private" := VBool true;
     "scripts" :=
       VDict {[ "dev" := VStr "next dev"; "build" := VStr "next build";
                "start" := VStr "next start"; "lint" := VStr "next lint" ]};
     "dependencies" :=
       VDict {[ "next" := VStr "^14.0.0"; "react" := VStr "^18.0.0";
                "react-dom" := VStr "^18.0.0" ]};
     "devDependencies" :=
       VDict {[ "@types/node" := VStr "^20.0.0"; "@types/react" := VStr "^18.0.0";
                "@types/react-dom" := VStr "^18.0.0";
                "typescript" := VStr "^5.0.0" ]} ]}.

(** The [structure] entry of a project. *)
Definition project_structure : value :=
  VDict {[ "pages" := VList [VStr "index.tsx"; VStr "_app.tsx"; VStr "_document.tsx"];
           "components" := VList [VStr "Layout.tsx"; VStr "Header.tsx";
                                  VStr "Footer.tsx"];
           "styles" := VList [VStr "globals.css"; VStr "Home.module.css"];
           "config" := VList [VStr "next.config.js"; VStr "tsconfig.json"] ]}.

(** The [project] dict [create_nextjs_project] builds. *)
Definition project_dict (project_name : string)
    (result : APIIntegration.response) (now : Z) : value :=
  VDict {[ "status" := VStr "success";
           "project_name" := VStr project_name;
           "package_json" :=
             VDict (<["name" := VStr project_name]> _get_nextjs_package_json);
           "structure" := project_structure;
           "ai_recommendations" := APIIntegration.content result;
           "api_used" := VStr (APIIntegration.api_used result);
           "created_at" := VDatetime now ]}.

(** [self.projects.append(project)]: the attribute exists once [_setup]
    has run. *)
Definition append_project (project : value) : M (gmap string value) unit :=
  fun a =>
    match a !! "projects" with
    | Some (VList projects) =>
        (<["projects" := VList (projects ++ [project])]> a, Ok tt)
    | Some v =>
        (a, Raise (AttributeError
                     ("'" +:+ type_name v +:+ "' object has no attribute 'append'")))
    | None =>
        (a, Raise (AttributeError
                     "'DevEngineAgent' object has no attribute 'projects'"))
    end.

(** [DevEngineAgent.create_nextjs_project] *)
Definition create_nextjs_project (project_name : string)
    (reply : remote_outcome) (clk : clock)
    : M (APIIntegration.t * t) value :=
  try_except
    (let prompt :=
       "Create a comprehensive Next.js project structure for '" +:+ project_name
       +:+ "' with modern best practices, TypeScript, and responsive design." in
     self <- gets snd ;;
     result <- zoom fst (fun api st => (api, snd st))
                 (APIIntegration.generate_response prompt (config self) reply) ;;
     let project := project_dict project_name result (clk 0%nat) in
     zoom (fun st => attrs (snd st))
       (fun a st => (fst st, set_attrs a (snd st)))
       (append_project project) ;;
     ret project)
    (fun e =>
       ret (VDict {[ "status" := VStr "error"; "error" := VStr (str_exn e) ]})).

End BaseAgent.

(** ** The enhanced system ([EnhancedAgenticAISystem], main_enhanced.py) *)

Module EnhancedAgenticAISystem.

(** What [system_maintenance] does to one agent. *)
Definition maintain (agent : BaseAgent.t) : BaseAgent.t :=
  if bool_decide (20 < length (BaseAgent.conversations agent))%nat
  then BaseAgent.mk (BaseAgent.config agent) (BaseAgent.status agent)
         (BaseAgent.tasks_completed agent) (BaseAgent.last_activity agent)
         (BaseAgent.errors agent)
         (APIIntegration.last_n 10 (BaseAgent.conversations agent))
         (BaseAgent.attrs agent)
  else agent.

(** [system_maintenance] over [self.agents], a dict from name to agent. *)
Definition system_maintenance (agents : gmap string BaseAgent.t)
    : gmap string BaseAgent.t :=
  maintain <$> agents.

(** *** The system object *)

(** An agent object together with its class. *)
Record Managed : Type := mkManaged {
  managed_class : BaseAgent.AgentClass;
  managed_agent : BaseAgent.t
}.

(** [self]. The dict [agents] is kept in insertion order, which is the
    order [self.agents.values()] iterates in. *)
Record t : Type := mk {
  memory_bus : MemoryBus.t;
  api_integration : APIIntegration.t;
  agents : list (string * Managed);
  system_status : string;
  multi_agent_sessions : list APIIntegration.Session.t
}.

(** [__init__] *)
Definition init : t := mk MemoryBus.init APIIntegration.init [] "initializing" [].

Definition set_memory_bus (bus : MemoryBus.t) (self : t) : t :=
  mk bus (api_integration self) (agents self) (system_status self)
     (multi_agent_sessions self).

Definition set_api_integration (api : APIIntegration.t) (self : t) : t :=
  mk (memory_bus self) api (agents self) (system_status self)
     (multi_agent_sessions self).

Definition set_agents (ags : list (string * Managed)) (self : t) : t :=
  mk (memory_bus self) (api_integration self) ags (system_status self)
     (multi_agent_sessions self).

Definition add_session (session : APIIntegration.Session.t) (self : t) : t :=
  mk (memory_bus self) (api_integration self) (agents self) (system_status self)
     (multi_agent_sessions self ++ [session]).

(** [d[key] = v] on a dict in insertion order: an existing key keeps its
    place, a new key goes last. *)
Fixpoint dict_set {A} (key : string) (v : A) (d : list (string * A))
    : list (string * A) :=
  match d with
  | [] => [(key, v)]
  | (k, x) :: rest =>
      if decide (k = key) then (key, v) :: rest
      else (k, x) :: dict_set key v rest
  end.

(** [initialize_components]: the router's startup probe, then the start
    time goes into the memory store. The first clock reading is the value
    stored, the second the one [store] stamps the entry with. *)
Definition initialize_components (config : APIIntegration.APIConfig)
    (reply_camel_ai reply_llm7 : remote_outcome) (clk : clock) : M t unit :=
  zoom api_integration set_api_integration
    (APIIntegration.initialize config reply_camel_ai reply_llm7) ;;
  modify (fun self =>
            set_memory_bus
              (MemoryBus.store (clk 1%nat) "system_start_time"
                 (VDatetime (clk 0%nat)) (memory_bus self))
              self).

(** The configurations [initialize_agents] goes through. *)
Definition agent_configs : list AgentConfig := [
  agent_config "cybershell" "dev_engine" ["shell"; "automation"] "auto";
  agent_config "agent_maker" "agent_creator" ["agent_creation"; "management"] "camel";
  agent_config "ui_designer" "designer" ["ui_design"; "ux"] "llm7";
  agent_config "dev_engine" "developer" ["coding"; "nextjs"; "react"] "auto";
  agent_config "data_sync" "data_manager" ["sync"; "storage"] "local";
  agent_config "fullstack_dev" "developer" ["frontend"; "backend"] "camel";
  agent_config "commander_agi" "commander" ["coordination"; "leadership"] "auto";
  agent_config "quality_control" "tester" ["testing"; "quality"] "llm7";
  agent_config "bug_hunter" "debugger" ["debugging"; "fixing"] "auto";
  agent_config "money_maker" "financial" ["monetization"; "optimization"] "camel";
  agent_config "backup_colony" "backup" ["backup"; "recovery"] "local";
  agent_config "authentication" "security" ["auth"; "security"] "llm7";
  agent_config "knowledge_manager" "knowledge" ["learning"; "documentation"] "auto";
  agent_config "marketing" "marketing" ["promotion"; "growth"] "camel"
].

(** The class the loop picks for a configuration. *)
Definition agent_class (config : AgentConfig) : BaseAgent.AgentClass :=
  if bool_decide (type config = "dev_engine")
     || bool_decide (type config = "developer")
  then BaseAgent.DevEngineAgent
  else BaseAgent.BaseAgent.

(** The agent object the loop builds for a configuration and what its
    [initialize] returns; [now] is the clock reading of the constructor. *)
Definition new_agent (now : Z) (config : AgentConfig) : Managed * res bool :=
  let cls := agent_class config in
  let out := BaseAgent.initialize cls (BaseAgent.init config now) in
  (mkManaged cls (fst out), snd out).

(** The body of the loop of [initialize_agents] for one configuration.
    Only an agent whose [initialize] returned [True] is put into the dict. *)
Definition register_agent (now : Z) (config : AgentConfig) : M t unit :=
  try_except
    (success <- lift (snd (new_agent now config)) ;;
     if success : bool then
       modify (fun self =>
                 set_agents
                   (dict_set (name config) (fst (new_agent now config))
                      (agents self))
                   self)
     else ret tt)
    (fun e => ret tt).

(** [initialize_agents] over a list of configurations; the [i]-th
    constructor reads [clk i]. *)
Definition initialize_agents_from (configs : list AgentConfig) (clk : clock)
    : M t unit :=
  APIIntegration.for_each (imap (fun i config => (clk i, config)) configs)
    (fun entry => register_agent (fst entry) (snd entry)).

Definition initialize_agents (clk : clock) : M t unit :=
  initialize_agents_from agent_configs clk.

(** The task dict of [execute_enhanced_autonomous_tasks]. *)
Definition autonomous_task (agent : BaseAgent.t) (now : Z) : BaseAgent.Task :=
  {[ "type" := VStr "autonomous_operation";
     "description" := VStr ("Autonomous task for " +:+ name (BaseAgent.config agent));
     "timestamp" := VDatetime now;
     "context" := VDict {[ "api_enabled" := VBool true ]} ]}.

Section Operations.

(** [str(v)], as in [BaseAgent.create_task_prompt]. *)
Variable py_str : value -> string.

(** [execute_enhanced_autonomous_tasks]. The name [loop_count] is not a
    local of this function, so ['loop_count' in locals()] is false and the
    agent taken is [active_agents[0]]: the first active agent of the dict.
    The first clock reading stamps the task, the next ones are those of
    [execute_task]. *)
Definition execute_enhanced_autonomous_tasks (reply : remote_outcome)
    (clk : clock) : M t unit :=
  fun self =>
    match list_find
            (fun entry => BaseAgent.status (managed_agent (snd entry)) = "active")
            (agents self) with
    | None => (self, Ok tt)
    | Some (i, (key, m)) =>
        let task := autonomous_task (managed_agent m) (clk 0%nat) in
        let '((api', agent'), r) :=
          BaseAgent.execute_task py_str (managed_class m) task reply
            (fun n => clk (S n)) (api_integration self, managed_agent m) in
        let self' :=
          set_agents (<[i := (key, mkManaged (managed_class m) agent')]> (agents self))
            (set_api_integration api' self) in
        match r with
        | Ok _ => (self', Ok tt)
        | Raise e => (self', Raise e)
        end
    end.

(** [system_maintenance] on the system object: the trimming of [maintain]
    for every agent of the dict. *)
Definition maintain_agents (ags : list (string * Managed))
    : list (string * Managed) :=
  map (fun entry =>
         (fst entry,
          mkManaged (managed_class (snd entry)) (maintain (managed_agent (snd entry)))))
    ags.

Definition system_maintenance_step : M t unit :=
  modify (fun self => set_agents (maintain_agents (agents self)) self).

(** One cycle of the body of [run_system_loop]: tasks, then maintenance.
    The status display only prints. *)
Definition cycle (reply : remote_outcome) (clk : clock) : M t unit :=
  execute_enhanced_autonomous_tasks reply clk ;;
  system_maintenance_step.

(** The [while loop_count < 10] of [run_system_loop]. A cycle that raises
    is logged and tried again without counting, so the number of attempts
    is not bounded by the code: [fuel] bounds it here, and [None] is
    returned when it runs out. [net] and [clks] give each attempt its reply
    and its clock. *)
Fixpoint system_loop (fuel attempt loop_count : nat)
    (net : nat -> remote_outcome) (clks : nat -> clock) : M t (option nat) :=
  if bool_decide (loop_count < 10)%nat then
    match fuel with
    | O => ret None
    | S fuel' =>
        count <- try_except
                   (cycle (net attempt) (clks attempt) ;; ret (S loop_count))
                   (fun e => ret loop_count) ;;
        system_loop fuel' (S attempt) count net clks
    end
  else ret (Some loop_count).

End Operations.

(** [shutdown]: the router's [cleanup] closes the HTTP session, which is
    not part of the router's state here; then every agent is marked
    terminated. *)
Definition shutdown (self : t) : t :=
  set_agents
    (map (fun entry =>
            (fst entry,
             mkManaged (managed_class (snd entry))
               (BaseAgent.set_status "terminated" (managed_agent (snd entry)))))
       (agents self))
    self.

(** What [get_enhanced_system_status] returns. *)
Record Status : Type := mkStatus {
  st_timestamp : Z;
  total_agents : nat;
  active_agents : nat;
  total_tasks_completed : nat;
  st_total_requests : nat;
  st_total_success : nat;
  st_total_errors : nat;
  st_sessions : nat;
  system_uptime : Z;
  agent_statuses : list (string * string)
}.

(** [datetime.now() - v]: defined for a datetime only. *)
Definition since (now : Z) (v : value) : res Z :=
  match v with
  | VDatetime start => Ok (now - start)
  | _ => Raise (TypeError
                  ("unsupported operand type(s) for -: 'datetime.datetime' and '"
                   +:+ type_name v +:+ "'"))
  end.

Definition count_active (ags : list (string * Managed)) : nat :=
  length (filter (fun entry => BaseAgent.status (managed_agent (snd entry)) = "active")
            ags).

Definition sum_tasks (ags : list (string * Managed)) : nat :=
  foldr (fun entry n =>
           (BaseAgent.tasks_completed (managed_agent (snd entry)) + n)%nat) 0%nat ags.

(** [get_enhanced_system_status]: the first clock reading is the
    timestamp, the second the time the uptime is measured at. *)
Definition get_enhanced_system_status (clk : clock) (self : t) : res Status :=
  match since (clk 1%nat)
          (MemoryBus.retrieve "system_start_time" (memory_bus self)) with
  | Ok uptime =>
      Ok (mkStatus (clk 0%nat) (length (agents self)) (count_active (agents self))
            (sum_tasks (agents self))
            (APIIntegration.total_requests (api_integration self))
            (APIIntegration.total_success (api_integration self))
            (APIIntegration.total_errors (api_integration self))
            (length (multi_agent_sessions self)) uptime
            (map (fun entry => (fst entry,
                                BaseAgent.status (managed_agent (snd entry))))
               (agents self)))
  | Raise e => Raise e
  end.

(** The scenario and the participants of [run_enhanced_demo]; the
    participant dicts have no [type] key. *)
Definition demo_scenario : APIIntegration.Scenario :=
  APIIntegration.mkScenario "AI Development Team Collaboration"
    "Collaborate to design and implement a new AI application" (Some 3).

Definition demo_agents : list APIIntegration.Participant := [
  APIIntegration.mkParticipant "Lead Developer" "Technical Leadership" None
    (Some ["architecture"; "coding"]);
  APIIntegration.mkParticipant "UI Designer" "User Experience" None
    (Some ["design"; "user_research"]);
  APIIntegration.mkParticipant "Security Expert" "Security Review" None
    (Some ["security"; "testing"])
].

(** [run_enhanced_demo]: the scenario runs on the system's router and its
    session is appended to [multi_agent_sessions]. *)
Definition run_enhanced_demo (json_dumps : list APIIntegration.Message.t -> string)
    (net : nat -> remote_outcome) (clk : clock) : M t unit :=
  session <- zoom api_integration set_api_integration
               (APIIntegration.create_multi_agent_scenario json_dumps
                  demo_scenario demo_agents net clk) ;;
  modify (add_session session).

End EnhancedAgenticAISystem.

(** ** The base system (main.py) *)

Module Main.

(** [BaseAgent] of main.py: no conversation history. *)
Record Agent : Type := mkAgent {
  agent_name : string;
  status : string;
  tasks_completed : nat;
  last_activity : Z;
  errors : list string
}.

(** What [AgenticAISystem.system_maintenance] does to one agent. *)
Definition maintain (agent : Agent) : Agent :=
  if bool_decide (10 < length (errors agent))%nat
  then mkAgent (agent_name agent) (status agent) (tasks_completed agent)
         (last_activity agent) (APIIntegration.last_n 5 (errors agent))
  else agent.

Definition system_maintenance (agents : gmap string Agent) : gmap string Agent :=
  maintain <$> agents.

(** *** [AISelector] *)

(** One entry of [self.models]. *)
Record Model : Type := mkModel {
  priority : Z;
  available : bool
}.

(** The table [AISelector.__init__] builds, in insertion order. *)
Definition models : list (string * Model) := [
  ("gpt-4", mkModel 10 false);
  ("gpt-3.5-turbo", mkModel 8 false);
  ("claude-3", mkModel 9 false);
  ("local-llm", mkModel 5 true)
].

(** [max(xs, key=key)] on a non-empty sequence [best :: rest]: a later
    element replaces the current one only when its key is greater. *)
Fixpoint py_max {A} (key : A -> Z) (best : A) (rest : list A) : A :=
  match rest with
  | [] => best
  | x :: rest' =>
      py_max key (if bool_decide (key best < key x) then x else best) rest'
  end.

(** [select_best_model] over a table of models; the task type is not
    looked at. *)
Definition select_best_model (models : list (string * Model)) : string :=
  match filter (fun entry => available (snd entry) = true) models with
  | [] => "local-llm"
  | first :: rest => fst (py_max (fun entry => priority (snd entry)) first rest)
  end.

(** *** Tasks *)

Definition set_last_activity (now : Z) (self : Agent) : Agent :=
  mkAgent (agent_name self) (status self) (tasks_completed self) now (errors self).

(** [self.errors.append(msg)] *)
Definition append_error (msg : string) (self : Agent) : Agent :=
  mkAgent (agent_name self) (status self) (tasks_completed self)
    (last_activity self) (errors self ++ [msg]).

(** [self.tasks_completed += 1] *)
Definition count_task (self : Agent) : Agent :=
  mkAgent (agent_name self) (status self) (S (tasks_completed self))
    (last_activity self) (errors self).

(** [BaseAgent._process_task] *)
Definition base_process_task (self : Agent) (task : gmap string value)
    : res value :=
  Ok (VStr ("Task processed by " +:+ agent_name self)).

(** [BaseAgent.execute_task]: [process_task] is the hook [_process_task]
    of the agent's class, [now] the clock reading. *)
Definition execute_task
    (process_task : Agent -> gmap string value -> res value)
    (task : gmap string value) (now : Z) (self : Agent)
    : Agent * BaseAgent.TaskResult :=
  let self1 := set_last_activity now self in
  match process_task self1 task with
  | Ok result =>
      (count_task self1, BaseAgent.mkTaskResult "success" (Some result) None None)
  | Raise e =>
      (append_error (str_exn e) self1,
       BaseAgent.mkTaskResult "error" None None (Some (str_exn e)))
  end.

(** *** The system object *)

(** An agent object together with the [_process_task] of its class. *)
Record Managed : Type := mkManaged {
  process_task : Agent -> gmap string value -> res value;
  managed_agent : Agent
}.

(** [self.memory_bus] and [self.agents], the dict in insertion order. *)
Record System : Type := mkSystem {
  memory_bus : MemoryBus.t;
  agents : list (string * Managed)
}.

Definition count_active (ags : list (string * Managed)) : nat :=
  length (filter (fun entry => status (managed_agent (snd entry)) = "active") ags).

Definition sum_tasks (ags : list (string * Managed)) : nat :=
  foldr (fun entry n => (tasks_completed (managed_agent (snd entry)) + n)%nat)
    0%nat ags.

(** [monitor_agents]: both numbers are taken first, then stored; each
    [store] reads the clock once. *)
Definition monitor_agents (clk : clock) (self : System) : System :=
  let active_agents := count_active (agents self) in
  let total_tasks := sum_tasks (agents self) in
  mkSystem
    (MemoryBus.store (clk 1%nat) "total_tasks_completed"
       (VInt (Z.of_nat total_tasks))
       (MemoryBus.store (clk 0%nat) "active_agents"
          (VInt (Z.of_nat active_agents)) (memory_bus self)))
    (agents self).

(** The task dict of [execute_autonomous_tasks]. *)
Definition autonomous_task (agent : Agent) (now : Z) : gmap string value :=
  {[ "type" := VStr "autonomous_operation";
     "timestamp" := VDatetime now;
     "agent" := VStr (agent_name agent) ]}.

(** [execute_autonomous_tasks]: every active agent of the dict gets one
    task. The agent at position [i] reads the clock [clks i]: once for the
    task, once in [execute_task]. A hook sees its own agent and the task. *)
Definition execute_autonomous_tasks (clks : nat -> clock)
    (ags : list (string * Managed)) : list (string * Managed) :=
  imap (fun i entry =>
          let m := snd entry in
          if bool_decide (status (managed_agent m) = "active") then
            (fst entry,
             mkManaged (process_task m)
               (fst (execute_task (process_task m)
                       (autonomous_task (managed_agent m) (clks i 0%nat))
                       (clks i 1%nat) (managed_agent m))))
          else entry)
    ags.

(** [system_maintenance] on the dict in insertion order. *)
Definition maintain_agents (ags : list (string * Managed))
    : list (string * Managed) :=
  map (fun entry =>
         (fst entry, mkManaged (process_task (snd entry))
                       (maintain (managed_agent (snd entry)))))
    ags.

(** One pass of the body of [run_system_loop]: monitoring, tasks,
    maintenance. None of the three raises. *)
Definition cycle (clk : clock) (clks : nat -> clock) (self : System) : System :=
  let self1 := monitor_agents clk self in
  mkSystem (memory_bus self1)
    (maintain_agents (execute_autonomous_tasks clks (agents self1))).

(** [n] passes of the loop; pass [k] reads the clocks [clk k] and
    [clks k]. *)
Fixpoint run_cycles (n : nat) (clk : nat -> clock) (clks : nat -> nat -> clock)
    (self : System) : System :=
  match n with
  | O => self
  | S n' =>
      run_cycles n' (fun k => clk (S k)) (fun k => clks (S k))
        (cycle (clk 0%nat) (clks 0%nat) self)
  end.

End Main.

(** * Properties *)

Import APIIntegration.

(** ** The router: selection *)

Lemma select_api_unreachable (self : t) (preference : string) :
  camel_ai_enabled self = false -> llm7_enabled self = false ->
  select_api self preference = "local".
Proof.
  intros Hc Hl. unfold select_api. rewrite Hc, Hl, !andb_false_r.
  by destruct (bool_decide (preference = "auto")).
Qed.

(** C2. [select_api] resolves a preference as specified, whatever the two
    reachability flags are: [camel] and [llm7] select their own tier exactly
    when its flag is set and the local tier otherwise, [auto] prefers
    camel_ai, then llm7, then local, and [local] is always local. *)
Theorem select_api_resolution (self : t) :
  select_api self "camel"
    = (if camel_ai_enabled self then "camel_ai" else "local")
  /\ select_api self "llm7"
    = (if llm7_enabled self then "llm7" else "local")
  /\ select_api self "auto"
    = (if camel_ai_enabled self then "camel_ai"
       else if llm7_enabled self then "llm7" else "local")
  /\ select_api self "local" = "local"
  /\ (select_api self "camel" = "camel_ai" <-> camel_ai_enabled self = true)
  /\ (select_api self "llm7" = "llm7" <-> llm7_enabled self = true)
  /\ select_api self "camel" <> "llm7"
  /\ select_api self "llm7" <> "camel_ai".
Proof.
  unfold select_api.
  destruct (camel_ai_enabled self), (llm7_enabled self); vm_compute;
    repeat split; intros; congruence.
Qed.

(** ** The router: the local tier *)

Lemma use_local_returns (prompt : string) (cfg : AgentConfig) (self : t) :
  use_local prompt cfg self
  = (set_stats local (counted true false) self,
     Ok (mkResponse true (VStr (local_text prompt cfg)) "local" "local-ai"
           (VDict {[ "tokens" :=
                       VInt (Z.of_nat (py_len (local_text prompt cfg))) ]}))).
Proof. reflexivity. Qed.

(** C1. With both remote tiers unreachable, [generate_response] returns a
    successful result produced by the local tier, for every prompt, every
    agent configuration and so every preference value. *)
Theorem generate_response_unreachable (prompt : string) (cfg : AgentConfig)
    (reply : remote_outcome) (self : t) :
  camel_ai_enabled self = false -> llm7_enabled self = false ->
  exists self' r,
    generate_response prompt cfg reply self = (self', Ok r)
    /\ r_success r = true /\ api_used r = "local".
Proof.
  intros Hc Hl. unfold generate_response, bind, gets, try_except.
  rewrite (select_api_unreachable _ _ Hc Hl).
  rewrite !bool_decide_eq_false_2 by discriminate.
  rewrite use_local_returns. eauto.
Qed.

Lemma generate_response_unreachable_witness :
  exists self' r,
    generate_response "status report"
      (agent_config "ui_designer" "designer" ["ui_design"; "ux"] "llm7")
      (TransportFailure (ClientError "unreachable")) init = (self', Ok r)
    /\ r_success r = true /\ api_used r = "local".
Proof.
  apply (generate_response_unreachable "status report"
           (agent_config "ui_designer" "designer" ["ui_design"; "ux"] "llm7")
           (TransportFailure (ClientError "unreachable")) init);
    reflexivity.
Defined.

(** ** The router: the remote tiers *)

Ltac run_tier :=
  unfold use_camel_ai, use_llm7, bind, try_except, count_request,
    count_success, count_error, modify, lift, raise, ret;
  repeat (case_match; simplify_eq/=).

(** A remote call either returns a successful result of its own tier,
    having counted one request and one success, or raises, having counted
    one request and one error, and in one case a success as well. *)
Lemma tier_call_cases (k : tier) (prompt : string) (cfg : AgentConfig)
    (reply : remote_outcome) (self : t) :
  k <> local ->
  (exists r,
      tier_call k prompt cfg reply self
      = (set_stats k (counted true false) self, Ok r)
      /\ r_success r = true /\ api_used r = tier_name k)
  \/ (exists e ok,
      tier_call k prompt cfg reply self
      = (set_stats k (counted ok true) self, Raise e)).
Proof.
  intros Hk. destruct k; [| |done]; cbn [tier_call].
  - destruct reply as [e|status [data|e]].
    + right. exists (Exception ("Camel AI request failed: " +:+ str_exn e)), false.
      reflexivity.
    + destruct (decide (status = 200)) as [->|Hne].
      * destruct (use_camel_ai prompt cfg (Response 200 (Ok data)) self)
          as [self' [r|e]] eqn:E.
        -- left. exists r. revert E. run_tier; intros; simplify_eq/=; done.
        -- right. exists e, true. revert E. run_tier; intros; simplify_eq/=; done.
      * right. exists (Exception ("Camel AI request failed: "
                                  +:+ ("HTTP " +:+ pretty status))), false.
        unfold use_camel_ai, bind, try_except. cbn.
        rewrite bool_decide_eq_false_2 by done. reflexivity.
    + right.
      destruct (decide (status = 200)) as [->|Hne].
      * exists (Exception ("Camel AI request failed: " +:+ str_exn e)), false.
        reflexivity.
      * exists (Exception ("Camel AI request failed: "
                           +:+ ("HTTP " +:+ pretty status))), false.
        unfold use_camel_ai, bind, try_except. cbn.
        rewrite bool_decide_eq_false_2 by done. reflexivity.
  - destruct reply as [e|status [data|e]].
    + right. exists (Exception ("LLM7 request failed: " +:+ str_exn e)), false.
      reflexivity.
    + destruct (decide (status = 200)) as [->|Hne].
      * destruct (use_llm7 prompt cfg (Response 200 (Ok data)) self)
          as [self' [r|e]] eqn:E.
        -- left. exists r. revert E. run_tier; intros; simplify_eq/=; done.
        -- right. exists e, true. revert E. run_tier; intros; simplify_eq/=; done.
      * right. exists (Exception ("LLM7 request failed: "
                                  +:+ ("HTTP " +:+ pretty status))), false.
        unfold use_llm7, bind, try_except. cbn.
        rewrite bool_decide_eq_false_2 by done. reflexivity.
    + right.
      destruct (decide (status = 200)) as [->|Hne].
      * exists (Exception ("LLM7 request failed: " +:+ str_exn e)), false.
        reflexivity.
      * exists (Exception ("LLM7 request failed: "
                           +:+ ("HTTP " +:+ pretty status))), false.
        unfold use_llm7, bind, try_except. cbn.
        rewrite bool_decide_eq_false_2 by done. reflexivity.
Qed.

Lemma stats_set_stats (k : tier) (f : TierStats -> TierStats) (self : t) :
  stats k (set_stats k f self) = f (stats k self).
Proof. by destruct k. Qed.

Lemma stats_set_stats_ne (k j : tier) (f : TierStats -> TierStats) (self : t) :
  k <> j -> stats j (set_stats k f self) = stats j self.
Proof. by destruct k, j. Qed.

Lemma select_api_tier (self : t) (preference : string) :
  exists k, select_api self preference = tier_name k.
Proof.
  unfold select_api.
  repeat case_match; first [by exists camel_ai | by exists llm7 | by exists local].
Qed.

(** [generate_response] is its dispatch on the selected tier inside the
    handler that retries on the local tier. *)
Lemma generate_response_dispatch (k : tier) (prompt : string)
    (cfg : AgentConfig) (reply : remote_outcome) (self : t) :
  select_api self (api_preference cfg) = tier_name k ->
  generate_response prompt cfg reply self
  = try_except (tier_call k prompt cfg reply)
      (fun _ => use_local prompt cfg) self.
Proof.
  intros Hsel. unfold generate_response, bind, gets. rewrite Hsel.
  by destruct k.
Qed.

(** What one call does to the router, by the selected tier [k]: the local
    tier answers; or the remote tier answers; or the remote tier raises and
    the local tier answers in its place. *)
Lemma generate_response_cases (k : tier) (prompt : string)
    (cfg : AgentConfig) (reply : remote_outcome) (self : t) :
  select_api self (api_preference cfg) = tier_name k ->
  exists r,
    r_success r = true
    /\ ((k = local
         /\ generate_response prompt cfg reply self
            = (set_stats local (counted true false) self, Ok r)
         /\ api_used r = "local")
        \/ (k <> local
            /\ generate_response prompt cfg reply self
               = (set_stats k (counted true false) self, Ok r)
            /\ api_used r = tier_name k
            /\ ~ raises (tier_call k prompt cfg reply) self)
        \/ (k <> local
            /\ (exists ok,
                  generate_response prompt cfg reply self
                  = (set_stats local (counted true false)
                       (set_stats k (counted ok true) self), Ok r))
            /\ api_used r = "local"
            /\ raises (tier_call k prompt cfg reply) self)).
Proof.
  intros Hsel. rewrite (generate_response_dispatch k) by done.
  destruct (decide (k = local)) as [->|Hk].
  - eexists. split; [|left; split; [done|]].
    2:{ unfold try_except. cbn [tier_call]. rewrite use_local_returns.
        split; reflexivity. }
    done.
  - destruct (tier_call_cases k prompt cfg reply self Hk)
      as [(r & E & Hs & Hu)|(e & ok & E)].
    + exists r. split; [done|]. right; left. unfold try_except. rewrite E.
      repeat split; try done. intros [e He]. rewrite E in He. done.
    + eexists. split; [|right; right; split; [done|]].
      2:{ unfold try_except. rewrite E, use_local_returns.
          split; [by exists ok|]. split; [reflexivity|].
          exists e. by rewrite E. }
      done.
Qed.

Lemma non_2xx_raises (k : tier) (prompt : string) (cfg : AgentConfig)
    (reply : remote_outcome) (self : t) :
  k <> local -> non_2xx reply -> raises (tier_call k prompt cfg reply) self.
Proof.
  intros Hk (status & json & -> & Hst).
  assert (status <> 200) as Hne by lia.
  destruct k; [| |done]; cbn [tier_call];
    unfold raises, use_camel_ai, use_llm7, bind, try_except; cbn;
    rewrite bool_decide_eq_false_2 by done; cbn; eauto.
Qed.

(** C4. When the selected tier is a remote one and its call fails, by a
    response that is not 2xx or by any raised exception, [generate_response]
    counts one error for that tier, calls the local tier once, and returns
    the local tier's successful result instead of raising. *)
Theorem remote_failure_falls_back (k : tier) (prompt : string)
    (cfg : AgentConfig) (reply : remote_outcome) (self : t) :
  k <> local ->
  select_api self (api_preference cfg) = tier_name k ->
  non_2xx reply \/ raises (tier_call k prompt cfg reply) self ->
  exists self' r,
    generate_response prompt cfg reply self = (self', Ok r)
    /\ r_success r = true /\ api_used r = "local"
    /\ errors (stats k self') = S (errors (stats k self))
    /\ requests (stats k self') = S (requests (stats k self))
    /\ stats local self' = counted true false (stats local self).
Proof.
  intros Hk Hsel Hfail.
  assert (raises (tier_call k prompt cfg reply) self) as Hr.
  { destruct Hfail; [by apply non_2xx_raises|done]. }
  destruct (generate_response_cases k prompt cfg reply self Hsel)
    as (r & Hs & [(-> & _)|[(_ & _ & _ & Hn)|(_ & (ok & E) & Hu & _)]]);
    [done|done|].
  eexists _, r. split; [exact E|]. split; [done|]. split; [done|].
  rewrite stats_set_stats, !(stats_set_stats_ne local k) by done.
  rewrite !stats_set_stats, (stats_set_stats_ne k local) by done.
  by destruct ok.
Qed.

Lemma remote_failure_falls_back_witness :
  let self := mkAPI true false (mkTierStats 4 3 1) (mkTierStats 0 0 0)
                (mkTierStats 1 1 0) in
  let cfg := agent_config "agent_maker" "agent_creator"
               ["agent_creation"; "management"] "camel" in
  exists self' r,
    generate_response "make an agent" cfg (Response 503 (Raise (ClientError "no body")))
      self = (self', Ok r)
    /\ r_success r = true /\ api_used r = "local"
    /\ errors (stats camel_ai self') = S (errors (stats camel_ai self))
    /\ requests (stats camel_ai self') = S (requests (stats camel_ai self))
    /\ stats local self' = counted true false (stats local self).
Proof.
  intros self cfg.
  apply (remote_failure_falls_back camel_ai "make an agent" cfg
           (Response 503 (Raise (ClientError "no body"))) self).
  - discriminate.
  - reflexivity.
  - left. exists 503, (Raise (ClientError "no body")). split; [reflexivity|lia].
Defined.

(** ** The router: the counters *)

Lemma stats_le_refl (c : TierStats) : stats_le c c.
Proof. unfold stats_le. lia. Qed.

Lemma stats_le_trans (c d e : TierStats) :
  stats_le c d -> stats_le d e -> stats_le c e.
Proof. unfold stats_le. lia. Qed.

Lemma stats_le_counted (ok err : bool) (c : TierStats) : stats_le c (counted ok err c).
Proof. unfold stats_le. destruct ok, err; cbn; lia. Qed.

Lemma stats_le_set_stats (k j : tier) (ok err : bool) (self : t) :
  stats_le (stats j self) (stats j (set_stats k (counted ok err) self)).
Proof.
  destruct (decide (k = j)) as [->|Hne].
  - rewrite stats_set_stats. apply stats_le_counted.
  - rewrite stats_set_stats_ne by done. apply stats_le_refl.
Qed.

(** No call ever lowers a counter. *)
Lemma generate_response_monotone (prompt : string) (cfg : AgentConfig)
    (reply : remote_outcome) (self : t) (j : tier) :
  stats_le (stats j self)
    (stats j (fst (generate_response prompt cfg reply self))).
Proof.
  destruct (select_api_tier self (api_preference cfg)) as [k Hsel].
  destruct (generate_response_cases k prompt cfg reply self Hsel)
    as (r & _ & [(_ & -> & _)|[(_ & -> & _)|(_ & (ok & ->) & _)]]); cbn [fst].
  - apply stats_le_set_stats.
  - apply stats_le_set_stats.
  - eapply stats_le_trans; apply stats_le_set_stats.
Qed.

Lemma run_calls_monotone (calls : list (string * AgentConfig * remote_outcome))
    (self : t) (j : tier) :
  stats_le (stats j self) (stats j (run_calls calls self)).
Proof.
  revert self. induction calls as [|[[prompt cfg] reply] rest IH]; intros self.
  - apply stats_le_refl.
  - cbn [run_calls]. eapply stats_le_trans; [|apply IH].
    apply generate_response_monotone.
Qed.

Lemma balanced_counted (ok : bool) (c : TierStats) :
  balanced c -> balanced (counted ok (negb ok) c).
Proof. unfold balanced. destruct ok; cbn; lia. Qed.

(** A remote call that raises on anything but a decoded 200 body has not
    counted a success. *)
Lemma tier_call_raise_uncounted (k : tier) (prompt : string)
    (cfg : AgentConfig) (reply : remote_outcome) (self self' : t) (e : exn) :
  k <> local ->
  (forall data, reply <> Response 200 (Ok data)) ->
  tier_call k prompt cfg reply self = (self', Raise e) ->
  self' = set_stats k (counted false true) self.
Proof.
  intros Hk Hreply.
  destruct k; [| |done]; cbn [tier_call];
    (destruct reply as [e'|status [data|e']];
     [ cbv; congruence
     | destruct (decide (status = 200)) as [->|Hne];
       [ by destruct (Hreply data)
       | unfold use_camel_ai, use_llm7, bind, try_except; cbn;
         rewrite bool_decide_eq_false_2 by done; cbv; congruence ]
     | destruct (decide (status = 200)) as [->|Hne];
       [ cbv; congruence
       | unfold use_camel_ai, use_llm7, bind, try_except; cbn;
         rewrite bool_decide_eq_false_2 by done; cbv; congruence ] ]).
Qed.

(** A clean call keeps every tier's counters adding up. *)
Lemma generate_response_balanced (prompt : string) (cfg : AgentConfig)
    (reply : remote_outcome) (self : t) :
  clean_call prompt cfg reply self ->
  (forall j, balanced (stats j self)) ->
  forall j, balanced (stats j (fst (generate_response prompt cfg reply self))).
Proof.
  intros Hclean Hbal j.
  destruct (select_api_tier self (api_preference cfg)) as [k Hsel].
  assert (forall i ok, balanced (stats j (set_stats i (counted ok (negb ok)) self)))
    as Hstep.
  { intros i ok. destruct (decide (i = j)) as [->|Hne].
    - rewrite stats_set_stats. by apply balanced_counted.
    - by rewrite stats_set_stats_ne. }
  destruct (generate_response_cases k prompt cfg reply self Hsel)
    as (r & _ & [(_ & -> & _)|[(_ & -> & _)|(Hk & (ok & E) & _ & [e He])]]);
    cbn [fst].
  - apply (Hstep local true).
  - apply (Hstep k true).
  - destruct (tier_call k prompt cfg reply self) as [self1 r1] eqn:Ecall.
    cbn in He. subst r1.
    assert (self1 = set_stats k (counted false true) self) as ->.
    { eapply tier_call_raise_uncounted; [done| |exact Ecall].
      intros data ->. eapply Hclean; [done..|]. exists e. by rewrite Ecall. }
    rewrite (generate_response_dispatch k) by done.
    unfold try_except. rewrite Ecall, use_local_returns. cbn [fst].
    destruct (decide (local = j)) as [<-|Hne].
    + rewrite stats_set_stats, stats_set_stats_ne by done.
      by apply (balanced_counted true).
    + rewrite stats_set_stats_ne by done. apply (Hstep k false).
Qed.

Lemma run_calls_balanced (calls : list (string * AgentConfig * remote_outcome))
    (self : t) :
  clean_calls calls self ->
  (forall j, balanced (stats j self)) ->
  forall j, balanced (stats j (run_calls calls self)).
Proof.
  revert self. induction calls as [|[[prompt cfg] reply] rest IH];
    intros self Hclean Hbal; [done|].
  destruct Hclean as [Hc Hrest]. cbn [run_calls].
  apply IH; [done|]. by apply generate_response_balanced.
Qed.

(** [get_stats]: the totals add up whenever every tier's counters do. *)
Lemma totals_balanced (self : t) :
  (forall j, balanced (stats j self)) ->
  total_requests self = (total_success self + total_errors self)%nat.
Proof.
  intros H. pose proof (H camel_ai). pose proof (H llm7). pose proof (H local).
  unfold balanced, total_requests, total_success, total_errors in *. cbn in *. lia.
Qed.

(** The reachability flags are set by the startup probe only: no call
    changes them. *)
Lemma generate_response_flags (prompt : string) (cfg : AgentConfig)
    (reply : remote_outcome) (self : t) :
  camel_ai_enabled (fst (generate_response prompt cfg reply self))
  = camel_ai_enabled self
  /\ llm7_enabled (fst (generate_response prompt cfg reply self))
     = llm7_enabled self.
Proof.
  destruct (select_api_tier self (api_preference cfg)) as [k Hsel].
  destruct (generate_response_cases k prompt cfg reply self Hsel)
    as (r & _ & [(_ & -> & _)|[(_ & -> & _)|(_ & (ok & ->) & _)]]);
    by destruct k.
Qed.

(** C3, at the input where it fails. The primary tier is reachable and
    answers 200 with a body that has no [choices] key: [use_camel_ai] has
    counted the success before it reads the body, the subscript raises, and
    the handler counts an error for the same request. The call itself still
    returns the local tier's result. *)
Theorem malformed_body_counted_twice :
  let self := mkAPI true false (mkTierStats 0 0 0) (mkTierStats 0 0 0)
                (mkTierStats 0 0 0) in
  let cfg := agent_config "agent_maker" "agent_creator"
               ["agent_creation"; "management"] "camel" in
  let out := generate_response "make an agent" cfg (Response 200 (Ok (VDict ∅))) self in
  stats camel_ai (fst out) = mkTierStats 1 1 1
  /\ ~ balanced (stats camel_ai (fst out))
  /\ stats local (fst out) = mkTierStats 1 1 0
  /\ (exists r, snd out = Ok r /\ api_used r = "local")
  /\ stats camel_ai (run_calls [("make an agent", cfg, Response 200 (Ok (VDict ∅)))] self)
     = mkTierStats 1 1 1.
Proof.
  cbv zeta. split; [reflexivity|]. split; [|split; [reflexivity|split]].
  - vm_compute. discriminate.
  - eexists. split; reflexivity.
  - reflexivity.
Qed.

(** ** The memory store *)

(** C8. Whatever the key and the value, [retrieve] after [store] gives the
    value back, and the entry [store] recorded carries the name of the
    value's runtime type (with the time of the call). *)
Theorem retrieve_store (now : Z) (k : string) (v : value) (bus : MemoryBus.t) :
  MemoryBus.retrieve k (MemoryBus.store now k v bus) = v
  /\ MemoryBus.data (MemoryBus.store now k v bus) !! k
     = Some (MemoryBus.mkEntry v now (type_name v))
  /\ (MemoryBus.entry_type <$> MemoryBus.data (MemoryBus.store now k v bus) !! k)
     = Some (type_name v).
Proof.
  unfold MemoryBus.retrieve, MemoryBus.store. cbn.
  by rewrite lookup_insert_eq.
Qed.

(** [store] overwrites, and leaves the other keys alone. *)
Lemma store_store (now now' : Z) (k : string) (v v' : value) (bus : MemoryBus.t) :
  MemoryBus.store now' k v' (MemoryBus.store now k v bus)
  = MemoryBus.store now' k v' bus.
Proof. unfold MemoryBus.store. cbn. by rewrite insert_insert_eq. Qed.

Lemma retrieve_store_ne (now : Z) (k k' : string) (v : value) (bus : MemoryBus.t) :
  k <> k' ->
  MemoryBus.retrieve k' (MemoryBus.store now k v bus) = MemoryBus.retrieve k' bus.
Proof.
  intros Hne. unfold MemoryBus.retrieve, MemoryBus.store. cbn.
  by rewrite lookup_insert_ne.
Qed.

Lemma retrieve_unset (k : string) : MemoryBus.retrieve k MemoryBus.init = VNone.
Proof. reflexivity. Qed.

(** ** Maintenance *)

Lemma last_n_length {A} (n : nat) (xs : list A) :
  (n <= length xs)%nat -> length (last_n n xs) = n.
Proof. intros H. unfold last_n. rewrite length_drop. lia. Qed.

Lemma last_n_suffix {A} (n : nat) (xs : list A) :
  exists front, xs = (front ++ last_n n xs)%list.
Proof. exists (take (length xs - n) xs). unfold last_n. by rewrite take_drop. Qed.

(** The base system trims an error log of more than 10 entries to its
    last 5, and leaves a shorter one alone. *)
Lemma main_maintain_errors (agent : Main.Agent) :
  Main.errors (Main.maintain agent)
  = if bool_decide (10 < length (Main.errors agent))%nat
    then last_n 5 (Main.errors agent) else Main.errors agent.
Proof. unfold Main.maintain. by case_bool_decide. Qed.

Lemma main_maintain_trims (agent : Main.Agent) :
  (10 < length (Main.errors agent))%nat ->
  length (Main.errors (Main.maintain agent)) = 5%nat
  /\ exists front,
       Main.errors agent = (front ++ Main.errors (Main.maintain agent))%list.
Proof.
  intros H. rewrite main_maintain_errors, bool_decide_eq_true_2 by done.
  split; [apply last_n_length; lia|apply last_n_suffix].
Qed.

Lemma main_system_maintenance_trims (agents : gmap string Main.Agent)
    (name : string) (agent : Main.Agent) :
  agents !! name = Some agent ->
  (10 < length (Main.errors agent))%nat ->
  exists agent',
    Main.system_maintenance agents !! name = Some agent'
    /\ Main.errors agent' = last_n 5 (Main.errors agent)
    /\ length (Main.errors agent') = 5%nat.
Proof.
  intros Hin Hlen. exists (Main.maintain agent).
  unfold Main.system_maintenance. rewrite lookup_fmap, Hin. split; [done|].
  rewrite main_maintain_errors, bool_decide_eq_true_2 by done.
  split; [done|]. apply last_n_length. lia.
Qed.

(** The enhanced system trims a conversation history of more than 20
    entries to its last 10. *)
Lemma enhanced_maintain_trims (agent : BaseAgent.t) :
  (20 < length (BaseAgent.conversations agent))%nat ->
  length (BaseAgent.conversations (EnhancedAgenticAISystem.maintain agent)) = 10%nat
  /\ exists front,
       BaseAgent.conversations agent
       = (front ++ BaseAgent.conversations (EnhancedAgenticAISystem.maintain agent))%list.
Proof.
  intros H. unfold EnhancedAgenticAISystem.maintain.
  rewrite bool_decide_eq_true_2 by done. cbn.
  split; [apply last_n_length; lia|apply last_n_suffix].
Qed.

(** The enhanced system never touches an error log. *)
Lemma enhanced_maintain_errors (agent : BaseAgent.t) :
  BaseAgent.errors (EnhancedAgenticAISystem.maintain agent) = BaseAgent.errors agent.
Proof. unfold EnhancedAgenticAISystem.maintain. by case_bool_decide. Qed.

Lemma enhanced_system_maintenance_errors (agents : gmap string BaseAgent.t)
    (name : string) :
  (BaseAgent.errors <$> EnhancedAgenticAISystem.system_maintenance agents !! name)
  = (BaseAgent.errors <$> agents !! name).
Proof.
  unfold EnhancedAgenticAISystem.system_maintenance. rewrite lookup_fmap.
  destruct (agents !! name) as [agent|]; [|done]. cbn.
  by rewrite enhanced_maintain_errors.
Qed.

(** C5, at the input where it fails. An agent of the enhanced system whose
    error log holds 11 entries still holds all 11 after a maintenance pass;
    the base system's pass trims the same log to its last 5. *)
Theorem enhanced_maintenance_keeps_eleven_errors :
  let log := ["e1"; "e2"; "e3"; "e4"; "e5"; "e6"; "e7"; "e8"; "e9"; "e10"; "e11"] in
  let agent :=
    BaseAgent.mk (agent_config "bug_hunter" "debugger" ["debugging"; "fixing"] "auto")
      "active" 0 0 log [] ∅ in
  (BaseAgent.errors
     <$> EnhancedAgenticAISystem.system_maintenance {[ "bug_hunter" := agent ]}
         !! "bug_hunter")
  = Some log
  /\ Main.errors (Main.maintain (Main.mkAgent "bug_hunter" "active" 0 0 log))
     = ["e7"; "e8"; "e9"; "e10"; "e11"].
Proof. cbv zeta. split; [|reflexivity]. by vm_compute. Qed.

(** ** Agents *)

(** C9. [initialize] of an agent whose setup hook raises returns [False],
    sets the status to [error], appends the exception text as one entry to
    the error log and leaves [tasks_completed] as it was (0 for a fresh
    agent); when the hook returns, the status is [active] and [initialize]
    returns [True]. *)
Theorem initialize_outcome (cls : BaseAgent.AgentClass) (agent : BaseAgent.t) :
  (forall attrs' e,
      BaseAgent._setup cls (BaseAgent.attrs agent) = (attrs', Raise e) ->
      exists agent',
        BaseAgent.initialize cls agent = (agent', Ok false)
        /\ BaseAgent.status agent' = "error"
        /\ BaseAgent.errors agent' = (BaseAgent.errors agent ++ [str_exn e])%list
        /\ BaseAgent.tasks_completed agent' = BaseAgent.tasks_completed agent
        /\ (forall cfg now,
              agent = BaseAgent.init cfg now ->
              BaseAgent.tasks_completed agent' = 0%nat
              /\ BaseAgent.errors agent' = [str_exn e]))
  /\ (forall attrs',
        BaseAgent._setup cls (BaseAgent.attrs agent) = (attrs', Ok tt) ->
        exists agent',
          BaseAgent.initialize cls agent = (agent', Ok true)
          /\ BaseAgent.status agent' = "active"
          /\ BaseAgent.errors agent' = BaseAgent.errors agent
          /\ BaseAgent.tasks_completed agent' = BaseAgent.tasks_completed agent).
Proof.
  split.
  - intros attrs' e Hsetup. eexists. split.
    + unfold BaseAgent.initialize, try_except, bind, zoom, modify. cbn.
      rewrite Hsetup. reflexivity.
    + cbn. do 3 (split; [done|]). by intros ? ? ->.
  - intros attrs' Hsetup. eexists. split.
    + unfold BaseAgent.initialize, try_except, bind, zoom, modify. cbn.
      rewrite Hsetup. reflexivity.
    + done.
Qed.

(** The hooks of the two classes of the enhanced system never raise, so
    their agents always come up active. *)
Lemma initialize_base_agent (agent : BaseAgent.t) :
  BaseAgent.initialize BaseAgent.BaseAgent agent
  = (BaseAgent.set_status "active" agent, Ok true).
Proof. by destruct agent. Qed.

Lemma initialize_dev_engine_agent (agent : BaseAgent.t) :
  exists agent',
    BaseAgent.initialize BaseAgent.DevEngineAgent agent = (agent', Ok true)
    /\ BaseAgent.status agent' = "active"
    /\ is_Some (BaseAgent.attrs agent' !! "dev_tools").
Proof.
  eexists. split; [reflexivity|]. split; [done|]. cbn.
  rewrite lookup_insert_ne by done. rewrite lookup_insert_eq. eauto.
Qed.

Lemma initialize_outcome_witness :
  let cfg := agent_config "data_sync" "data_manager" ["sync"; "storage"] "local" in
  (exists agent',
      BaseAgent.initialize BaseAgent.BrokenSetupAgent (BaseAgent.init cfg 7)
      = (agent', Ok false)
      /\ BaseAgent.status agent' = "error"
      /\ BaseAgent.tasks_completed agent' = 0%nat
      /\ BaseAgent.errors agent' = ["setup failed"])
  /\ (exists agent',
        BaseAgent.initialize BaseAgent.BaseAgent (BaseAgent.init cfg 7)
        = (agent', Ok true)
        /\ BaseAgent.status agent' = "active").
Proof.
  intros cfg. split.
  - destruct (proj1 (initialize_outcome BaseAgent.BrokenSetupAgent
                       (BaseAgent.init cfg 7))
                ∅ (Exception "setup failed") eq_refl)
      as (agent' & E & Hs & _ & _ & Hfresh).
    destruct (Hfresh cfg 7 eq_refl) as [Ht He].
    exists agent'. repeat split; assumption.
  - destruct (proj2 (initialize_outcome BaseAgent.BaseAgent
                       (BaseAgent.init cfg 7)) ∅ eq_refl)
      as (agent' & E & Hs & _).
    exists agent'. split; assumption.
Defined.

(** Every call of the router returns. *)
Lemma generate_response_returns (prompt : string) (cfg : AgentConfig)
    (reply : remote_outcome) (self : t) :
  exists self' r,
    generate_response prompt cfg reply self = (self', Ok r) /\ r_success r = true.
Proof.
  destruct (select_api_tier self (api_preference cfg)) as [k Hsel].
  destruct (generate_response_cases k prompt cfg reply self Hsel)
    as (r & Hs & [(_ & E & _)|[(_ & E & _)|(_ & (ok & E) & _)]]); eauto.
Qed.

(** What [execute_task] does, by the outcome of the result hook. *)
Lemma execute_task_cases (py_str : value -> string) (cls : BaseAgent.AgentClass)
    (task : BaseAgent.Task) (reply : remote_outcome) (clk : clock)
    (api : t) (agent : BaseAgent.t) :
  let agent1 := BaseAgent.set_last_activity (clk 0%nat) agent in
  let prompt := BaseAgent.create_task_prompt py_str agent1 task in
  exists api' result,
    generate_response prompt (BaseAgent.config agent) reply api = (api', Ok result)
    /\ BaseAgent.execute_task py_str cls task reply clk (api, agent)
       = match BaseAgent._process_task_result cls task result with
         | Ok processed =>
             ((api',
               BaseAgent.append_conversation
                 (BaseAgent.mkConversation task prompt result processed (clk 1%nat))
                 (BaseAgent.count_task agent1)),
              Ok (BaseAgent.mkTaskResult "success" (Some processed)
                    (Some (api_used result)) None))
         | Raise e =>
             ((api', BaseAgent.append_error (str_exn e) agent1),
              Ok (BaseAgent.mkTaskResult "error" None None (Some (str_exn e))))
         end.
Proof.
  intros agent1 prompt.
  destruct (generate_response_returns prompt (BaseAgent.config agent) reply api)
    as (api' & result & E & _).
  exists api', result. split; [done|].
  unfold BaseAgent.execute_task, try_except, bind, zoom, modify, gets, lift, ret.
  cbn [fst snd].
  change (BaseAgent.config (BaseAgent.set_last_activity (clk 0%nat) agent))
    with (BaseAgent.config agent).
  fold agent1. fold prompt. rewrite E. cbn [fst snd].
  by destruct (BaseAgent._process_task_result cls task result).
Qed.

(** C10. If [execute_task] returns a result whose status is [error], the
    agent is what it was before the call except for the last-activity
    timestamp and one more entry, the exception text, at the end of the
    error log: [tasks_completed] and the conversation history are
    unchanged. *)
Theorem execute_task_error_atomic (py_str : value -> string)
    (cls : BaseAgent.AgentClass) (task : BaseAgent.Task) (reply : remote_outcome)
    (clk : clock) (api api' : t) (agent agent' : BaseAgent.t)
    (r : BaseAgent.TaskResult) :
  BaseAgent.execute_task py_str cls task reply clk (api, agent)
  = ((api', agent'), Ok r) ->
  BaseAgent.tr_status r = "error" ->
  exists msg,
    BaseAgent.tr_error r = Some msg
    /\ agent' = BaseAgent.append_error msg
                  (BaseAgent.set_last_activity (clk 0%nat) agent)
    /\ BaseAgent.tasks_completed agent' = BaseAgent.tasks_completed agent
    /\ BaseAgent.conversations agent' = BaseAgent.conversations agent
    /\ BaseAgent.errors agent' = (BaseAgent.errors agent ++ [msg])%list
    /\ BaseAgent.status agent' = BaseAgent.status agent
    /\ BaseAgent.config agent' = BaseAgent.config agent.
Proof.
  intros Hrun Hstatus.
  destruct (execute_task_cases py_str cls task reply clk api agent)
    as (api1 & result & _ & E).
  rewrite Hrun in E.
  destruct (BaseAgent._process_task_result cls task result) as [v|e];
    simplify_eq/=.
  exists (str_exn e). done.
Qed.

Lemma execute_task_error_atomic_witness :
  let cfg := agent_config "data_sync" "data_manager" ["sync"; "storage"] "local" in
  let agent := BaseAgent.mk cfg "active" 2 5 ["old"] [] ∅ in
  let out := BaseAgent.execute_task type_name BaseAgent.BrokenResultAgent
               {[ "type" := VStr "autonomous_operation" ]}
               (TransportFailure (ClientError "unreachable")) (fun n => 10 + Z.of_nat n)
               (init, agent) in
  exists msg,
    BaseAgent.tr_error (BaseAgent.mkTaskResult "error" None None (Some "'summary'"))
    = Some msg
    /\ snd (fst out) = BaseAgent.append_error msg (BaseAgent.set_last_activity 10 agent)
    /\ BaseAgent.tasks_completed (snd (fst out)) = 2%nat
    /\ BaseAgent.conversations (snd (fst out)) = []
    /\ BaseAgent.errors (snd (fst out)) = ["old"; msg]
    /\ BaseAgent.status (snd (fst out)) = "active"
    /\ BaseAgent.config (snd (fst out)) = cfg.
Proof.
  intros cfg agent out.
  apply (execute_task_error_atomic type_name BaseAgent.BrokenResultAgent
           {[ "type" := VStr "autonomous_operation" ]}
           (TransportFailure (ClientError "unreachable")) (fun n => 10 + Z.of_nat n)
           init (fst (fst out)) agent (snd (fst out))
           (BaseAgent.mkTaskResult "error" None None (Some "'summary'")));
    reflexivity.
Defined.

(** ** Scenarios: the loops *)

Lemma for_each_app {S A} (xs ys : list A) (body : A -> M S unit) (s : S) :
  for_each (xs ++ ys) body s
  = bind (for_each xs body) (fun _ => for_each ys body) s.
Proof.
  revert s. induction xs as [|x xs IH]; intros s; [reflexivity|].
  cbn [app for_each]. unfold bind in *.
  destruct (body x s) as [s1 [[]|e]]; [apply IH|reflexivity].
Qed.

Lemma for_each_map {S A B} (g : A -> B) (xs : list A) (body : B -> M S unit)
    (s : S) :
  for_each (map g xs) body s = for_each xs (fun x => body (g x)) s.
Proof.
  revert s. induction xs as [|x xs IH]; intros s; [reflexivity|].
  cbn [map for_each]. unfold bind.
  destruct (body (g x) s) as [s1 [[]|e]]; [apply IH|reflexivity].
Qed.

(** The nested loops take the turns in round-major order. *)
Lemma nested_loops_flatten {S} (scenario : Scenario) (agents : list Participant)
    (turn : nat -> Participant -> M S unit) (s : S) :
  for_each (round_range scenario)
    (fun round_num => for_each agents (turn round_num)) s
  = for_each (turn_order scenario agents) (fun t => turn (fst t) (snd t)) s.
Proof.
  unfold turn_order. generalize (round_range scenario) as rounds.
  intros rounds. revert s.
  induction rounds as [|r rounds IH]; intros s; [reflexivity|].
  cbn [flat_map for_each]. rewrite for_each_app. unfold bind.
  rewrite for_each_map. cbn [fst snd].
  destruct (for_each agents _ s) as [s1 [[]|e]]; [apply IH|reflexivity].
Qed.


Lemma with_messages_id (s : Session.t) : with_messages (Session.messages s) s = s.
Proof. by destruct s. Qed.

(** The local loop never raises, and writes the messages of its turns in
    order, numbering the clock readings from the length of the transcript. *)
Lemma local_loop_run (clk : clock) (turns : list (nat * Participant))
    (s : Session.t) :
  for_each turns (fun t => local_turn clk (fst t) (snd t)) s
  = (with_messages
       (Session.messages s
        ++ imap (fun i => local_message clk (length (Session.messages s) + i)) turns)
       s,
     Ok tt).
Proof.
  revert s. induction turns as [|[r a] turns IH]; intros s.
  - cbn. by rewrite app_nil_r, with_messages_id.
  - cbn [for_each fst snd]. unfold bind.
    assert (local_turn clk r a s
            = (Session.append (local_message clk (length (Session.messages s)) (r, a)) s,
               Ok tt)) as -> by reflexivity.
    rewrite IH. f_equal. unfold with_messages, Session.append. cbn.
    rewrite length_app, <- app_assoc. cbn.
    do 2 f_equal. rewrite Nat.add_0_r. f_equal.
    apply imap_ext. intros i t _. cbn. f_equal. lia.
Qed.

(** One remote turn always appends the message of its turn; it raises
    afterwards exactly when the content cannot be sliced for the log line. *)
Lemma remote_turn_step (json_dumps : list Message.t -> string)
    (scenario : Scenario) (net : nat -> remote_outcome) (clk : clock)
    (r : nat) (a : Participant) (api : t) (s : Session.t) :
  exists api' m,
    remote_turn json_dumps scenario net clk r a (api, s)
    = ((api', Session.append m s),
       match slice_to 100 (Message.content m) with
       | Ok _ => Ok tt
       | Raise e => Raise e
       end)
    /\ message_turn m = turn_label (r, a)
    /\ Message.timestamp m = clk (2 + length (Session.messages s))%nat.
Proof.
  unfold remote_turn, bind, gets, zoom, modify, lift, ret. cbn [fst snd].
  destruct (generate_response_returns
              (scenario_prompt json_dumps scenario a r (Session.messages s))
              (agent_config (agent_name a) (default "collaborator" (agent_type a))
                 (default [] (agent_capabilities a)) "camel")
              (net (length (Session.messages s))) api)
    as (api' & response & -> & _).
  exists api', (Message.mk (r + 1) (agent_name a) (agent_role a)
                  (content response) (api_used response)
                  (clk (2 + length (Session.messages s))%nat)).
  split; [|split; reflexivity].
  cbn [fst snd Message.content].
  by destruct (slice_to 100 (content response)).
Qed.

Lemma with_messages_append (ms : list Message.t) (m : Message.t) (s : Session.t) :
  with_messages ms (Session.append m s) = with_messages ms s.
Proof. reflexivity. Qed.

(** The remote loop leaves the transcript extended by the messages of the
    first [k] turns: all of them when it returns, and when it raises those
    up to and including the turn that raised. *)
Lemma remote_loop_run (json_dumps : list Message.t -> string)
    (scenario : Scenario) (net : nat -> remote_outcome) (clk : clock)
    (turns : list (nat * Participant)) (api api' : t) (s s' : Session.t)
    (res : res unit) :
  for_each turns (fun t => remote_turn json_dumps scenario net clk (fst t) (snd t))
    (api, s) = ((api', s'), res) ->
  exists k new,
    s' = with_messages (Session.messages s ++ new) s
    /\ map message_turn new = map turn_label (take k turns)
    /\ match res with
       | Ok _ => k = length turns
       | Raise _ => (1 <= k <= length turns)%nat
       end.
Proof.
  revert api s. induction turns as [|[r a] turns IH]; intros api s Hrun.
  - cbn in Hrun. unfold ret in Hrun. simplify_eq. exists 0%nat, []. cbn.
    by rewrite app_nil_r, with_messages_id.
  - cbn [for_each fst snd] in Hrun. unfold bind in Hrun.
    destruct (remote_turn_step json_dumps scenario net clk r a api s)
      as (api1 & m & E & Hm & _).
    rewrite E in Hrun.
    destruct (slice_to 100 (Message.content m)) as [v|e].
    + apply IH in Hrun as (k & new & -> & Hnew & Hres).
      exists (S k), (m :: new). split; [|split].
      * rewrite with_messages_append. cbn. by rewrite <- app_assoc.
      * cbn. by rewrite Hm, Hnew.
      * destruct res; cbn; lia.
    + simplify_eq. exists 1%nat, [m]. split; [done|]. split.
      * cbn. by rewrite Hm, take_0.
      * cbn. lia.
Qed.

Lemma messages_with_messages (ms : list Message.t) (s : Session.t) :
  Session.messages (with_messages ms s) = ms.
Proof. reflexivity. Qed.

Lemma local_messages_turns (clk : clock) (n : nat) (turns : list (nat * Participant)) :
  map message_turn (imap (fun i => local_message clk (n + i)) turns)
  = map turn_label turns.
Proof.
  revert n. induction turns as [|t turns IH]; intros n; [done|].
  cbn. f_equal.
  rewrite <- (IH (S n)). f_equal. apply imap_ext. intros i x _. cbn.
  f_equal. lia.
Qed.

(** The three ways a scenario ends: simulated locally to completion; run
    against the router to completion; or stopped by an exception of the
    remote loop, with the transcript as the loop left it. *)
Lemma scenario_run (json_dumps : list Message.t -> string) (scenario : Scenario)
    (agents : list Participant) (net : nat -> remote_outcome) (clk : clock)
    (self : t) :
  let start := new_session scenario agents clk in
  let turns := turn_order scenario agents in
  (camel_ai_enabled self = false
   /\ create_multi_agent_scenario json_dumps scenario agents net clk self
      = (self,
         Ok (Session.complete (clk (2 + length turns)%nat)
               (with_messages (imap (local_message clk) turns) start))))
  \/ (camel_ai_enabled self = true
      /\ exists api' s' new,
           remote_rounds json_dumps scenario agents net clk (self, start)
           = ((api', s'), Ok tt)
           /\ s' = with_messages new start
           /\ map message_turn new = map turn_label turns
           /\ create_multi_agent_scenario json_dumps scenario agents net clk self
              = (api', Ok (Session.complete (clk (2 + length new)%nat) s')))
  \/ (camel_ai_enabled self = true
      /\ exists api' s' new e k,
           remote_rounds json_dumps scenario agents net clk (self, start)
           = ((api', s'), Raise e)
           /\ s' = with_messages new start
           /\ (1 <= k <= length turns)%nat
           /\ map message_turn new = map turn_label (take k turns)
           /\ create_multi_agent_scenario json_dumps scenario agents net clk self
              = (api', Ok (Session.fail e s'))).
Proof.
  intros start turns. unfold create_multi_agent_scenario.
  destruct (camel_ai_enabled self) eqn:Hflag; cbn [negb].
  - right.
    destruct (remote_rounds json_dumps scenario agents net clk (self, start))
      as [[api' s'] res] eqn:Hrun.
    pose proof Hrun as Hloop. unfold remote_rounds in Hloop.
    rewrite nested_loops_flatten in Hloop.
    apply remote_loop_run in Hloop as (k & new & Hs' & Hnew & Hres).
    change (Session.messages start) with (@nil Message.t) in Hs'.
    cbn [app] in Hs'. fold start. rewrite Hrun.
    destruct res as [[]|e].
    + left. split; [done|]. exists api', s', new. subst k.
      rewrite firstn_all in Hnew. do 3 (split; [done|]).
      subst s'. reflexivity.
    + right. split; [done|]. exists api', s', new, e, k.
      do 4 (split; [done|]). reflexivity.
  - left. split; [done|]. unfold simulate_local_scenario, local_rounds.
    rewrite nested_loops_flatten, local_loop_run. fold start turns.
    change (Session.messages start) with (@nil Message.t). cbn [app length].
    rewrite messages_with_messages, length_imap. reflexivity.
Qed.

(** The local simulation cannot raise partway. *)
Lemma local_rounds_returns (scenario : Scenario) (agents : list Participant)
    (clk : clock) (s : Session.t) :
  ~ raises (local_rounds scenario agents clk) s.
Proof.
  intros [e He]. unfold local_rounds in He.
  by rewrite nested_loops_flatten, local_loop_run in He.
Qed.

(** ** Scenarios: the sessions *)

(** On participants that have their name and their role a scenario always
    returns a session. When the remote loop raises partway through the
    rounds, the session has status [error], carries the exception text, and
    its transcript is the one the loop had built when the exception was
    raised: the messages of the turns up to the one that raised, in order.
    When the rounds complete, the status is [completed], an end time is
    recorded, and the transcript has every turn. *)
Theorem scenario_exception_keeps_transcript
    (json_dumps : list Message.t -> string) (scenario : Scenario)
    (agents : list Participant) (net : nat -> remote_outcome) (clk : clock)
    (self : t) :
  let start := new_session scenario agents clk in
  let turns := turn_order scenario agents in
  exists self' session,
    create_multi_agent_scenario json_dumps scenario agents net clk self
    = (self', Ok session)
    /\ (forall st e,
          camel_ai_enabled self = true ->
          remote_rounds json_dumps scenario agents net clk (self, start)
          = (st, Raise e) ->
          Session.status session = "error"
          /\ Session.error session = Some (str_exn e)
          /\ Session.messages session = Session.messages (snd st)
          /\ exists k,
               (1 <= k <= length turns)%nat
               /\ map message_turn (Session.messages session)
                  = map turn_label (take k turns))
    /\ (camel_ai_enabled self = false
        \/ ~ raises (remote_rounds json_dumps scenario agents net clk) (self, start) ->
        Session.status session = "completed"
        /\ is_Some (Session.end_time session)
        /\ Session.error session = None
        /\ map message_turn (Session.messages session) = map turn_label turns).
Proof.
  intros start turns.
  destruct (scenario_run json_dumps scenario agents net clk self)
    as [(Hflag & E)|[(Hflag & api' & s' & new & Hrun & -> & Hnew & E)
                    |(Hflag & api' & s' & new & e & k & Hrun & -> & Hk & Hnew & E)]];
    rewrite E; eexists _, _; (split; [reflexivity|]); split.
  - intros st e Ht. congruence.
  - intros _. cbn. split; [done|]. split; [eauto|]. split; [done|].
    apply (local_messages_turns clk 0).
  - intros st e _ Hraise. unfold start in Hraise. rewrite Hrun in Hraise. done.
  - intros _. cbn. split; [done|]. split; [eauto|]. by split.
  - intros st e0 _ Hraise. unfold start in Hraise. rewrite Hrun in Hraise.
    simplify_eq. cbn.
    split; [done|]. split; [done|]. split; [done|]. by exists k.
  - intros [Hoff|Hnot]; [congruence|]. destruct Hnot. exists e.
    unfold start. by rewrite Hrun.
Qed.

Lemma scenario_exception_keeps_transcript_witness :
  let scenario :=
    mkScenario "AI Development Team Collaboration"
      "Collaborate to design and implement a new AI application" (Some 3) in
  let agents :=
    [mkParticipant "Lead Developer" "Technical Leadership" None
       (Some ["architecture"; "coding"]);
     mkParticipant "UI Designer" "User Experience" None
       (Some ["design"; "user_research"]);
     mkParticipant "Security Expert" "Security Review" None
       (Some ["security"; "testing"])] in
  let null_body :=
    VDict {[ "choices" :=
               VList [VDict {[ "message" := VDict {[ "content" := VNone ]} ]}] ]} in
  let net := fun _ : nat => Response 200 (Ok null_body) in
  let clk := fun n : nat => Z.of_nat n in
  let reachable :=
    mkAPI true false (mkTierStats 0 0 0) (mkTierStats 0 0 0) (mkTierStats 0 0 0) in
  (exists self' session,
      create_multi_agent_scenario (fun _ => "[]") scenario agents net clk reachable
      = (self', Ok session)
      /\ Session.status session = "error"
      /\ Session.error session = Some "'NoneType' object is not subscriptable"
      /\ map message_turn (Session.messages session)
         = [(1%nat, "Lead Developer", "Technical Leadership")])
  /\ (exists self' session,
        create_multi_agent_scenario (fun _ => "[]") scenario agents net clk init
        = (self', Ok session)
        /\ Session.status session = "completed"
        /\ is_Some (Session.end_time session)
        /\ length (map message_turn (Session.messages session)) = 9%nat).
Proof.
  intros scenario agents null_body net clk reachable. split.
  - destruct (scenario_exception_keeps_transcript (fun _ => "[]") scenario agents
                net clk reachable) as (self' & session & E & Herr & _).
    pose (out := remote_rounds (fun _ => "[]") scenario agents net clk
                   (reachable, new_session scenario agents clk)).
    destruct (Herr (fst out) (TypeError "'NoneType' object is not subscriptable")
                eq_refl) as (Hs & He & Hm & _).
    { vm_compute. reflexivity. }
    exists self', session. split; [exact E|]. split; [exact Hs|].
    split; [exact He|]. rewrite Hm. vm_compute. reflexivity.
  - destruct (scenario_exception_keeps_transcript (fun _ => "[]") scenario agents
                net clk init) as (self' & session & E & _ & Hok).
    destruct (Hok (or_introl eq_refl)) as (Hs & Ht & _ & Hm).
    exists self', session. split; [exact E|]. split; [exact Hs|].
    split; [exact Ht|]. rewrite Hm. reflexivity.
Defined.

(** ** Scenarios on participant dicts *)

(** A loop whose body commutes with a translation of the state commutes
    with it as a whole. *)
Lemma for_each_sim {S S' A A'} (f : S -> S') (g : A -> A')
    (body : A -> M S unit) (body' : A' -> M S' unit) (xs : list A) :
  (forall x s, body' (g x) (f s) = (f (fst (body x s)), snd (body x s))) ->
  forall s,
    for_each (map g xs) body' (f s)
    = (f (fst (for_each xs body s)), snd (for_each xs body s)).
Proof.
  intros Hbody. induction xs as [|x xs IH]; intros s; [done|].
  cbn [map for_each]. unfold bind. rewrite Hbody.
  destruct (body x s) as [s1 [[]|e]]; cbn [fst snd]; [apply IH|done].
Qed.

Lemma dict_local_turn_agrees (clk : clock) (round_num : nat) (a : Participant)
    (s : Session.t) :
  Dicts.local_turn clk round_num (Dicts.of_participant a) (Dicts.of_session s)
  = (Dicts.of_session (fst (local_turn clk round_num a s)),
     snd (local_turn clk round_num a s)).
Proof. by destruct s. Qed.

Lemma dict_remote_turn_agrees (json_dumps : list Message.t -> string)
    (scenario : Scenario) (net : nat -> remote_outcome) (clk : clock)
    (round_num : nat) (a : Participant) (st : t * Session.t) :
  Dicts.remote_turn json_dumps scenario net clk round_num (Dicts.of_participant a)
    (fst st, Dicts.of_session (snd st))
  = ((fst (fst (remote_turn json_dumps scenario net clk round_num a st)),
      Dicts.of_session
        (snd (fst (remote_turn json_dumps scenario net clk round_num a st)))),
     snd (remote_turn json_dumps scenario net clk round_num a st)).
Proof.
  destruct st as [api s], a as [n r ty caps].
  unfold Dicts.remote_turn, remote_turn, bind, gets, lift, zoom, modify, ret.
  cbn [fst snd Dicts.of_participant Dicts.of_session Dicts.subscript
       Dicts.pd_name Dicts.pd_role Dicts.pd_type Dicts.pd_capabilities
       Dicts.messages agent_name agent_role agent_type agent_capabilities].
  destruct (generate_response _ _ _ api) as [api' [response|e]]; cbn [fst snd];
    [|done].
  destruct (slice_to 100 (content response)); by destruct s.
Qed.

(** On participants that have their name and their role the functions on
    dicts do what the functions on participants do. *)
Lemma dict_scenario_agrees (json_dumps : list Message.t -> string)
    (scenario : Scenario) (agents : list Participant)
    (net : nat -> remote_outcome) (clk : clock) (self : t) :
  Dicts.create_multi_agent_scenario json_dumps scenario
    (map Dicts.of_participant agents) net clk self
  = (fst (create_multi_agent_scenario json_dumps scenario agents net clk self),
     match snd (create_multi_agent_scenario json_dumps scenario agents net clk self)
     with
     | Ok session => Ok (Dicts.of_session session)
     | Raise e => Raise e
     end).
Proof.
  unfold Dicts.create_multi_agent_scenario, create_multi_agent_scenario.
  destruct (camel_ai_enabled self); cbn [negb].
  - unfold Dicts.remote_rounds, remote_rounds.
    change (Dicts.new_session scenario (map Dicts.of_participant agents) clk)
      with (Dicts.of_session (new_session scenario agents clk)).
    pose proof (for_each_sim
                  (fun st : t * Session.t => (fst st, Dicts.of_session (snd st)))
                  (fun r : nat => r)
                  (fun round_num =>
                     for_each agents (remote_turn json_dumps scenario net clk round_num))
                  (fun round_num =>
                     for_each (map Dicts.of_participant agents)
                       (Dicts.remote_turn json_dumps scenario net clk round_num))
                  (round_range scenario)) as Hsim.
    rewrite map_id in Hsim.
    specialize (Hsim ltac:(intros r st;
                           apply (for_each_sim
                                    (fun st : t * Session.t =>
                                       (fst st, Dicts.of_session (snd st)))
                                    Dicts.of_participant);
                           intros a st'; apply dict_remote_turn_agrees)
                  (self, new_session scenario agents clk)).
    cbn [fst snd] in Hsim. rewrite Hsim.
    destruct (for_each (round_range scenario) _ (self, new_session scenario agents clk))
      as [[api' s'] [[]|e]]; cbn [fst snd]; by destruct s'.
  - unfold Dicts.simulate_local_scenario, simulate_local_scenario,
      Dicts.local_rounds, local_rounds.
    change (Dicts.new_session scenario (map Dicts.of_participant agents) clk)
      with (Dicts.of_session (new_session scenario agents clk)).
    pose proof (for_each_sim Dicts.of_session (fun r : nat => r)
                  (fun round_num => for_each agents (local_turn clk round_num))
                  (fun round_num =>
                     for_each (map Dicts.of_participant agents)
                       (Dicts.local_turn clk round_num))
                  (round_range scenario)) as Hsim.
    rewrite map_id in Hsim.
    rewrite (Hsim ltac:(intros r s;
                        apply (for_each_sim Dicts.of_session Dicts.of_participant);
                        intros a s'; apply dict_local_turn_agrees)
               (new_session scenario agents clk)).
    destruct (for_each (round_range scenario) _ (new_session scenario agents clk))
      as [s' [[]|e]]; cbn [fst snd]; by destruct s'.
Qed.

(** C7. The local path loses the session on an exception. The second of
    two participants has no [role]. With the primary tier disabled the
    local simulation appends the first participant's message and then
    raises [KeyError] out of [create_multi_agent_scenario]: no session is
    returned and the message is lost. With the primary tier enabled the
    same call returns the session with status [error], the exception text
    and the message appended before the exception. *)
Theorem local_scenario_exception_escapes (json_dumps : list Message.t -> string) :
  let scenario :=
    mkScenario "Design review" "Review the design of the new application"
      (Some 3) in
  let agents :=
    [Dicts.mkParticipantDict (Some "Lead Developer") (Some "Technical Leadership")
       None None;
     Dicts.mkParticipantDict (Some "UI Designer") None None None] in
  let body :=
    VDict {[ "choices" :=
               VList [VDict {[ "message" :=
                                 VDict {[ "content" := VStr "Agreed." ]} ]}] ]} in
  let net := fun _ : nat => Response 200 (Ok body) in
  let clk := fun n : nat => Z.of_nat n in
  (Dicts.create_multi_agent_scenario json_dumps scenario agents net clk init
   = (init, Raise (KeyError "'role'"))
   /\ length (Dicts.messages
                (fst (Dicts.local_rounds scenario agents clk
                        (Dicts.new_session scenario agents clk))))
      = 1%nat)
  /\ exists api' session,
       Dicts.create_multi_agent_scenario json_dumps scenario agents net clk
         (enable_camel_ai init)
       = (api', Ok session)
       /\ Dicts.status session = "error"
       /\ Dicts.error session = Some "'role'"
       /\ Dicts.messages session
          = [Message.mk 1 "Lead Developer" "Technical Leadership" (VStr "Agreed.")
               "camel_ai" 2].
Proof.
  intros scenario agents body net clk. split.
  - split; reflexivity.
  - eexists _, _. split; [reflexivity|]. by repeat split.
Qed.




(** * Further properties *)

(** ** The router: startup probe *)

Lemma test_camel_ai_run (config : APIConfig) (reply : remote_outcome) (self : t) :
  test_camel_ai config reply self
  = (if probe_ok (camel_ai_key config) reply then enable_camel_ai self else self,
     Ok tt).
Proof.
  unfold test_camel_ai, probe_ok, try_except, modify, ret, raise.
  destruct reply; repeat case_bool_decide; done.
Qed.

Lemma test_llm7_run (config : APIConfig) (reply : remote_outcome) (self : t) :
  test_llm7 config reply self
  = (if probe_ok (llm7_key config) reply then enable_llm7 self else self, Ok tt).
Proof.
  unfold test_llm7, probe_ok, try_except, modify, ret, raise.
  destruct reply; repeat case_bool_decide; done.
Qed.

Lemma probe_ok_spec (key : string) (reply : remote_outcome) :
  probe_ok key reply = true
  <-> key <> "demo_key" /\ exists body, reply = Response 200 body.
Proof.
  unfold probe_ok. destruct reply as [e|status body]; repeat case_bool_decide;
    cbn; split; try done; try (intros [? [? ?]]; by simplify_eq).
  intros _. subst. eauto.
Qed.

(** X1. Starting from a fresh router, [initialize] never raises, leaves
    every counter at zero, and enables a tier exactly when its key is not
    the placeholder and its probe was answered with status 200, whatever
    the body. In particular a placeholder key leaves the tier disabled
    whatever the network would have answered. *)
Theorem initialize_enables (config : APIConfig)
    (reply_camel_ai reply_llm7 : remote_outcome) :
  exists self',
    initialize config reply_camel_ai reply_llm7 init = (self', Ok tt)
    /\ (camel_ai_enabled self' = true
        <-> camel_ai_key config <> "demo_key"
            /\ exists body, reply_camel_ai = Response 200 body)
    /\ (llm7_enabled self' = true
        <-> llm7_key config <> "demo_key"
            /\ exists body, reply_llm7 = Response 200 body)
    /\ forall k, stats k self' = mkTierStats 0 0 0.
Proof.
  unfold initialize, bind. rewrite test_camel_ai_run, test_llm7_run.
  eexists. split; [reflexivity|].
  rewrite <- !probe_ok_spec.
  destruct (probe_ok (camel_ai_key config) reply_camel_ai),
    (probe_ok (llm7_key config) reply_llm7); cbn;
    (split; [done|]); (split; [done|]); by intros [].
Qed.

(** The probe never switches a tier off. *)
Lemma initialize_keeps_enabled (config : APIConfig)
    (reply_camel_ai reply_llm7 : remote_outcome) (self : t) :
  let self' := fst (initialize config reply_camel_ai reply_llm7 self) in
  (camel_ai_enabled self = true -> camel_ai_enabled self' = true)
  /\ (llm7_enabled self = true -> llm7_enabled self' = true).
Proof.
  unfold initialize, bind. rewrite test_camel_ai_run, test_llm7_run.
  destruct (probe_ok (camel_ai_key config) reply_camel_ai),
    (probe_ok (llm7_key config) reply_llm7); cbn; by split.
Qed.

(** ** The router: sequences of calls *)

Lemma run_calls_app (calls calls' : list (string * AgentConfig * remote_outcome))
    (self : t) :
  run_calls (calls ++ calls') self = run_calls calls' (run_calls calls self).
Proof.
  revert self. induction calls as [|[[p c] r] rest IH]; intros self; [done|].
  cbn. apply IH.
Qed.

Lemma run_calls_flags (calls : list (string * AgentConfig * remote_outcome))
    (self : t) :
  camel_ai_enabled (run_calls calls self) = camel_ai_enabled self
  /\ llm7_enabled (run_calls calls self) = llm7_enabled self.
Proof.
  revert self. induction calls as [|[[p c] r] rest IH]; intros self; [done|].
  cbn [run_calls]. destruct (IH (fst (generate_response p c r self))) as [-> ->].
  apply generate_response_flags.
Qed.

Lemma select_api_enabled (self : t) (preference : string) (k : tier) :
  select_api self preference = tier_name k ->
  match k with
  | camel_ai => camel_ai_enabled self = true
  | llm7 => llm7_enabled self = true
  | local => True
  end.
Proof.
  unfold select_api.
  destruct (camel_ai_enabled self), (llm7_enabled self), k;
    repeat case_bool_decide; cbn; try done.
Qed.

(** A call changes the counters of the selected tier and of the local
    tier only. *)
Lemma generate_response_other_tier (k j : tier) (prompt : string)
    (cfg : AgentConfig) (reply : remote_outcome) (self : t) :
  select_api self (api_preference cfg) = tier_name k ->
  j <> k -> j <> local ->
  stats j (fst (generate_response prompt cfg reply self)) = stats j self.
Proof.
  intros Hsel Hjk Hjl.
  destruct (generate_response_cases k prompt cfg reply self Hsel)
    as (r & _ & [(_ & -> & _)|[(_ & -> & _)|(_ & (ok & ->) & _)]]); cbn [fst];
    by rewrite !stats_set_stats_ne.
Qed.

(** X2. A tier that the startup probe left disabled is never called: over
    any sequence of calls, with any preferences and any replies, its three
    counters stay what they were. *)
Theorem disabled_tier_never_called
    (calls : list (string * AgentConfig * remote_outcome)) (self : t) :
  (camel_ai_enabled self = false ->
   stats camel_ai (run_calls calls self) = stats camel_ai self)
  /\ (llm7_enabled self = false ->
      stats llm7 (run_calls calls self) = stats llm7 self).
Proof.
  revert self. induction calls as [|[[p c] r] rest IH]; intros self; [done|].
  cbn [run_calls].
  destruct (generate_response_flags p c r self) as [Hc Hl].
  destruct (IH (fst (generate_response p c r self))) as [IHc IHl].
  destruct (select_api_tier self (api_preference c)) as [k Hsel].
  pose proof (select_api_enabled _ _ _ Hsel) as Hen.
  split; intros Hoff.
  - rewrite IHc by congruence.
    apply (generate_response_other_tier k); [done| |done].
    intros <-. cbn in Hen. congruence.
  - rewrite IHl by congruence.
    apply (generate_response_other_tier k); [done| |done].
    intros <-. cbn in Hen. congruence.
Qed.

Lemma disabled_tier_never_called_witness :
  let self := mkAPI true false (mkTierStats 2 2 0) (mkTierStats 0 0 0)
                (mkTierStats 0 0 0) in
  let calls :=
    [("one", agent_config "ui_designer" "designer" ["ui_design"] "llm7",
      Response 200 (Ok (VDict ∅)));
     ("two", agent_config "cybershell" "dev_engine" ["shell"] "auto",
      Response 500 (Raise (ClientError "no body")))] in
  stats llm7 (run_calls calls self) = stats llm7 self.
Proof.
  intros self calls.
  apply (proj2 (disabled_tier_never_called calls self)). reflexivity.
Defined.

(** What one call does to the local tier: it is left alone, or it counts
    one request and one success. *)
Lemma generate_response_local (prompt : string) (cfg : AgentConfig)
    (reply : remote_outcome) (self : t) :
  let self' := fst (generate_response prompt cfg reply self) in
  stats local self' = stats local self
  \/ stats local self' = counted true false (stats local self).
Proof.
  destruct (select_api_tier self (api_preference cfg)) as [k Hsel].
  destruct (generate_response_cases k prompt cfg reply self Hsel)
    as (r & _ & [(_ & -> & _)|[(Hk & -> & _)|(Hk & (ok & ->) & _)]]); cbn [fst].
  - right. by rewrite stats_set_stats.
  - left. by rewrite stats_set_stats_ne.
  - right. by rewrite stats_set_stats, stats_set_stats_ne.
Qed.

(** X3. The local tier never fails: over any sequence of calls, also
    those whose remote replies are malformed, its error counter stays what
    it was and its requests and successes grow by the same amount. *)
Theorem local_tier_never_fails
    (calls : list (string * AgentConfig * remote_outcome)) (self : t) :
  errors (stats local (run_calls calls self)) = errors (stats local self)
  /\ (requests (stats local (run_calls calls self))
      + success (stats local self)
      = success (stats local (run_calls calls self))
        + requests (stats local self))%nat.
Proof.
  revert self. induction calls as [|[[p c] r] rest IH]; intros self;
    [cbn; split; [done|lia]|].
  cbn [run_calls].
  destruct (IH (fst (generate_response p c r self))) as [-> IHr].
  destruct (generate_response_local p c r self) as [E|E];
    cbv zeta in E; rewrite E in IHr |- *; cbn in *; split; lia.
Qed.

(** What one call does to the totals of [get_stats]. *)
Lemma generate_response_totals (prompt : string) (cfg : AgentConfig)
    (reply : remote_outcome) (self : t) :
  let self' := fst (generate_response prompt cfg reply self) in
  (total_requests self + 1 <= total_requests self' <= total_requests self + 2
   /\ total_success self + 1 <= total_success self'
   /\ total_errors self' <= total_errors self + 1)%nat.
Proof.
  destruct (select_api_tier self (api_preference cfg)) as [k Hsel].
  destruct (generate_response_cases k prompt cfg reply self Hsel)
    as (r & _ & [(Hk & -> & _)|[(Hk & -> & _)|(Hk & (ok & ->) & _)]]); cbn [fst];
    unfold total_requests, total_success, total_errors;
    destruct self as [fc fl [rc sc ec] [rl sl el] [ro so eo]];
    destruct k; try done; try destruct ok; cbn; lia.
Qed.

(** X4. The totals reported by [get_stats] after a sequence of [n] calls:
    between [n] and [2n] more requests (a fallback makes two), at least [n]
    more successes (every call ends in one), at most [n] more errors. *)
Theorem totals_after_calls
    (calls : list (string * AgentConfig * remote_outcome)) (self : t) :
  let self' := run_calls calls self in
  (total_requests self + length calls <= total_requests self'
   /\ total_requests self' <= total_requests self + 2 * length calls
   /\ total_success self + length calls <= total_success self'
   /\ total_errors self' <= total_errors self + length calls)%nat.
Proof.
  revert self. induction calls as [|[[p c] r] rest IH]; intros self.
  - cbn. lia.
  - cbn [run_calls length]. cbv zeta in IH |- *.
    pose proof (IH (fst (generate_response p c r self))) as H.
    pose proof (generate_response_totals p c r self) as H1.
    cbv zeta in H1. lia.
Qed.

(** ** The router: a remote answer *)

(** X5. When the selected remote tier answers 200 with a body of the
    expected shape, [generate_response] returns the text found in the body
    under that tier's name, with the body's [usage] (an empty dict when the
    body has none), and counts one request and one success for that tier and
    nothing else. The primary tier reads [choices[0].message.content], the
    secondary [choices[0].text]. *)
Theorem remote_answer_returned (prompt : string) (cfg : AgentConfig) (self : t)
    (body choice message : gmap string value) (others : list value) (text : value) :
  body !! "choices" = Some (VList (VDict choice :: others)) ->
  (select_api self (api_preference cfg) = "camel_ai" ->
   choice !! "message" = Some (VDict message) ->
   message !! "content" = Some text ->
   generate_response prompt cfg (Response 200 (Ok (VDict body))) self
   = (set_stats camel_ai (counted true false) self,
      Ok (mkResponse true text "camel_ai" "gpt-3.5-turbo"
            (default (VDict ∅) (body !! "usage")))))
  /\ (select_api self (api_preference cfg) = "llm7" ->
      choice !! "text" = Some text ->
      generate_response prompt cfg (Response 200 (Ok (VDict body))) self
      = (set_stats llm7 (counted true false) self,
         Ok (mkResponse true text "llm7" "llm7-medium"
               (default (VDict ∅) (body !! "usage"))))).
Proof.
  intros Hchoices. split.
  - intros Hsel Hmessage Hcontent.
    rewrite (generate_response_dispatch camel_ai) by done.
    unfold try_except, tier_call, use_camel_ai, bind, try_except, count_request,
      count_success, modify, lift, ret.
    cbn. rewrite Hchoices. cbn. rewrite Hmessage. cbn. rewrite Hcontent.
    reflexivity.
  - intros Hsel Htext.
    rewrite (generate_response_dispatch llm7) by done.
    unfold try_except, tier_call, use_llm7, bind, try_except, count_request,
      count_success, modify, lift, ret.
    cbn. rewrite Hchoices. cbn. rewrite Htext. reflexivity.
Qed.

Lemma remote_answer_returned_witness :
  let cfg := agent_config "commander_agi" "commander" ["coordination"] "auto" in
  let choice : gmap string value :=
    {[ "message" := VDict {[ "content" := VStr "Plan ready." ]};
       "text" := VStr "Plan ready." ]} in
  let body : gmap string value :=
    {[ "choices" := VList [VDict choice];
       "usage" := VDict {[ "total_tokens" := VInt 12 ]} ]} in
  let primary := mkAPI true true (mkTierStats 0 0 0) (mkTierStats 0 0 0)
                   (mkTierStats 0 0 0) in
  let secondary := mkAPI false true (mkTierStats 0 0 0) (mkTierStats 0 0 0)
                     (mkTierStats 0 0 0) in
  generate_response "plan" cfg (Response 200 (Ok (VDict body))) primary
  = (set_stats camel_ai (counted true false) primary,
     Ok (mkResponse true (VStr "Plan ready.") "camel_ai" "gpt-3.5-turbo"
           (VDict {[ "total_tokens" := VInt 12 ]})))
  /\ generate_response "plan" cfg (Response 200 (Ok (VDict body))) secondary
     = (set_stats llm7 (counted true false) secondary,
        Ok (mkResponse true (VStr "Plan ready.") "llm7" "llm7-medium"
              (VDict {[ "total_tokens" := VInt 12 ]}))).
Proof.
  intros cfg choice body primary secondary. split.
  - apply (proj1 (remote_answer_returned "plan" cfg primary body choice
                    {[ "content" := VStr "Plan ready." ]} [] (VStr "Plan ready.")
                    eq_refl)); reflexivity.
  - apply (proj2 (remote_answer_returned "plan" cfg secondary body choice
                    ∅ [] (VStr "Plan ready.") eq_refl)); reflexivity.
Defined.

(** ** Scenarios: further properties *)

Lemma turn_order_length (scenario : Scenario) (agents : list Participant) :
  length (turn_order scenario agents)
  = (Z.to_nat (default 3%Z (rounds scenario)) * length agents)%nat.
Proof.
  unfold turn_order, round_range.
  generalize (Z.to_nat (default 3 (rounds scenario))) as n.
  intros n. generalize 0%nat as start.
  induction n as [|n IH]; intros start; [done|].
  cbn [seq flat_map]. rewrite length_app, length_map, IH. lia.
Qed.



(** X7. A scenario without turns, because there are no participants or
    because [rounds] is zero or negative, completes at once on either
    path: empty transcript, router untouched, no request sent. *)
Theorem scenario_without_turns (json_dumps : list Message.t -> string)
    (scenario : Scenario) (agents : list Participant)
    (net : nat -> remote_outcome) (clk : clock) (self : t) :
  agents = [] \/ (exists r, rounds scenario = Some r /\ r <= 0) ->
  create_multi_agent_scenario json_dumps scenario agents net clk self
  = (self,
     Ok (Session.complete (clk 2%nat) (new_session scenario agents clk))).
Proof.
  intros Hempty.
  assert (turn_order scenario agents = []) as Hturns.
  { apply length_zero_iff_nil. rewrite turn_order_length.
    destruct Hempty as [->|(r & -> & Hr)]; cbn; [lia|].
    replace (Z.to_nat r) with 0%nat by lia. done. }
  unfold create_multi_agent_scenario, simulate_local_scenario, local_rounds,
    remote_rounds.
  rewrite !nested_loops_flatten, Hturns.
  by destruct (camel_ai_enabled self).
Qed.

Lemma scenario_without_turns_witness :
  let scenario := mkScenario "Review" "Review the release plan" (Some (-2)) in
  let agents := [mkParticipant "Ann" "Lead" None None] in
  let reachable :=
    mkAPI true true (mkTierStats 0 0 0) (mkTierStats 0 0 0) (mkTierStats 0 0 0) in
  create_multi_agent_scenario (fun _ => "[]") scenario agents
    (fun _ => Response 200 (Ok VNone)) (fun n => Z.of_nat n) reachable
  = (reachable,
     Ok (Session.complete 2 (new_session scenario agents (fun n => Z.of_nat n)))).
Proof.
  intros scenario agents reachable.
  apply (scenario_without_turns (fun _ => "[]") scenario agents
           (fun _ => Response 200 (Ok VNone)) (fun n => Z.of_nat n) reachable).
  right. exists (-2). split; [reflexivity|lia].
Defined.

(** One call with preference [camel] on a router whose primary tier is
    reachable: one more request for the primary tier, none for the
    secondary, and an answer from the primary or the local tier. *)
Lemma generate_response_camel (prompt : string) (cfg : AgentConfig)
    (reply : remote_outcome) (self : t) :
  camel_ai_enabled self = true ->
  api_preference cfg = "camel" ->
  exists self' r,
    generate_response prompt cfg reply self = (self', Ok r)
    /\ camel_ai_enabled self' = true
    /\ requests (stats camel_ai self') = S (requests (stats camel_ai self))
    /\ stats llm7 self' = stats llm7 self
    /\ (api_used r = "camel_ai" \/ api_used r = "local").
Proof.
  intros Hon Hpref.
  assert (select_api self (api_preference cfg) = tier_name camel_ai) as Hsel.
  { rewrite Hpref. unfold select_api. by rewrite Hon. }
  destruct (generate_response_cases camel_ai prompt cfg reply self Hsel)
    as (r & _ & [(? & _)|[(_ & E & Hu & _)|(_ & (ok & E) & Hu & _)]]); [done|..];
    rewrite E; eexists _, r; (split; [reflexivity|]); cbn; destruct ok || idtac;
    repeat split; auto.
Qed.

Lemma remote_turn_router (json_dumps : list Message.t -> string)
    (scenario : Scenario) (net : nat -> remote_outcome) (clk : clock)
    (r : nat) (a : Participant) (api : t) (s : Session.t) :
  camel_ai_enabled api = true ->
  exists api' m res,
    remote_turn json_dumps scenario net clk r a (api, s)
    = ((api', Session.append m s), res)
    /\ camel_ai_enabled api' = true
    /\ requests (stats camel_ai api') = S (requests (stats camel_ai api))
    /\ stats llm7 api' = stats llm7 api
    /\ (Message.api_used m = "camel_ai" \/ Message.api_used m = "local").
Proof.
  intros Hon.
  unfold remote_turn, bind, gets, zoom, modify, lift, ret. cbn [fst snd].
  destruct (generate_response_camel
              (scenario_prompt json_dumps scenario a r (Session.messages s))
              (agent_config (agent_name a) (default "collaborator" (agent_type a))
                 (default [] (agent_capabilities a)) "camel")
              (net (length (Session.messages s))) api Hon eq_refl)
    as (api' & response & -> & Hon' & Hreq & Hllm & Hused).
  cbn [fst snd].
  destruct (slice_to 100 (content response)); eexists api', _, _;
    (split; [reflexivity|]); done.
Qed.

Lemma remote_loop_router (json_dumps : list Message.t -> string)
    (scenario : Scenario) (net : nat -> remote_outcome) (clk : clock)
    (turns : list (nat * Participant)) (api api' : t) (s s' : Session.t)
    (res : res unit) :
  camel_ai_enabled api = true ->
  for_each turns (fun t => remote_turn json_dumps scenario net clk (fst t) (snd t))
    (api, s) = ((api', s'), res) ->
  exists new,
    s' = with_messages (Session.messages s ++ new) s
    /\ requests (stats camel_ai api')
       = (requests (stats camel_ai api) + length new)%nat
    /\ stats llm7 api' = stats llm7 api
    /\ Forall (fun m => Message.api_used m = "camel_ai"
                        \/ Message.api_used m = "local") new.
Proof.
  revert api s. induction turns as [|[r a] turns IH]; intros api s Hon Hrun.
  - cbn in Hrun. unfold ret in Hrun. simplify_eq. exists []. cbn.
    rewrite app_nil_r, with_messages_id. split; [done|].
    split; [by rewrite Nat.add_0_r|]. split; [done|constructor].
  - cbn [for_each fst snd] in Hrun. unfold bind in Hrun.
    destruct (remote_turn_router json_dumps scenario net clk r a api s Hon)
      as (api1 & m & res1 & E & Hon1 & Hreq & Hllm & Hused).
    rewrite E in Hrun. destruct res1 as [[]|e].
    + apply IH in Hrun as (new & -> & Hreq' & Hllm' & Hall); [|done].
      exists (m :: new). rewrite with_messages_append. cbn [Session.messages
        Session.append length].
      rewrite <- app_assoc. split; [done|]. split; [rewrite Hreq', Hreq; lia|].
      split; [congruence|by constructor].
    + simplify_eq. exists [m]. split; [done|]. cbn [length].
      split; [rewrite Hreq; lia|]. split; [done|].
      constructor; [exact Hused|constructor].
Qed.

(** X8. While the primary tier is reachable, a scenario sends it exactly
    one request per message of the returned transcript, whether the run
    completed or was cut short; the secondary tier is never called; and
    every message was answered by the primary tier or, after its failure,
    by the local tier. *)
Theorem remote_scenario_requests (json_dumps : list Message.t -> string)
    (scenario : Scenario) (agents : list Participant)
    (net : nat -> remote_outcome) (clk : clock) (self : t) :
  camel_ai_enabled self = true ->
  exists self' session,
    create_multi_agent_scenario json_dumps scenario agents net clk self
    = (self', Ok session)
    /\ requests (stats camel_ai self')
       = (requests (stats camel_ai self) + length (Session.messages session))%nat
    /\ stats llm7 self' = stats llm7 self
    /\ Forall (fun m => Message.api_used m = "camel_ai"
                        \/ Message.api_used m = "local")
         (Session.messages session).
Proof.
  intros Hon. unfold create_multi_agent_scenario. rewrite Hon. cbn [negb].
  destruct (remote_rounds json_dumps scenario agents net clk
              (self, new_session scenario agents clk))
    as [[api' s'] res] eqn:Hrun.
  unfold remote_rounds in Hrun. rewrite nested_loops_flatten in Hrun.
  apply remote_loop_router in Hrun as (new & -> & Hreq & Hllm & Hall); [|done].
  destruct res as [[]|e]; eexists _, _; (split; [reflexivity|]); done.
Qed.

Lemma remote_scenario_requests_witness :
  let scenario := mkScenario "Review" "Review the release plan" (Some 2) in
  let agents := [mkParticipant "Ann" "Lead" None (Some ["coding"]);
                 mkParticipant "Bob" "Tester" None None] in
  let reachable :=
    mkAPI true true (mkTierStats 5 4 1) (mkTierStats 0 0 0) (mkTierStats 1 1 0) in
  exists self' session,
    create_multi_agent_scenario (fun _ => "[]") scenario agents
      (fun _ => Response 502 (Raise (ClientError "bad gateway")))
      (fun n => Z.of_nat n) reachable
    = (self', Ok session)
    /\ requests (stats camel_ai self')
       = (requests (stats camel_ai reachable)
          + length (Session.messages session))%nat
    /\ stats llm7 self' = stats llm7 reachable
    /\ Forall (fun m => Message.api_used m = "camel_ai"
                        \/ Message.api_used m = "local")
         (Session.messages session).
Proof.
  intros scenario agents reachable.
  apply (remote_scenario_requests (fun _ => "[]") scenario agents
           (fun _ => Response 502 (Raise (ClientError "bad gateway")))
           (fun n => Z.of_nat n) reachable).
  reflexivity.
Defined.

(** ** The memory store: further properties *)

Lemma last_write_snoc (key : string) (writes : list (Z * string * value))
    (now : Z) (k : string) (v : value) :
  MemoryBus.last_write key (writes ++ [(now, k, v)])
  = if decide (k = key) then Some v else MemoryBus.last_write key writes.
Proof.
  unfold MemoryBus.last_write. rewrite filter_app, filter_cons, filter_nil. cbn.
  destruct (decide (k = key)); [by rewrite last_snoc|by rewrite app_nil_r].
Qed.

(** X9. After any sequence of [store] calls, [retrieve] of a key gives
    the value of the last call that wrote that key, whatever was written
    under other keys in between, and what it gave before if no call wrote
    it: None for a key that was never stored. *)
Theorem retrieve_after_stores (writes : list (Z * string * value))
    (key : string) (bus : MemoryBus.t) :
  MemoryBus.retrieve key (MemoryBus.store_all writes bus)
  = default (MemoryBus.retrieve key bus) (MemoryBus.last_write key writes)
  /\ MemoryBus.retrieve key (MemoryBus.store_all writes MemoryBus.init)
     = default VNone (MemoryBus.last_write key writes).
Proof.
  assert (forall b,
            MemoryBus.retrieve key (MemoryBus.store_all writes b)
            = default (MemoryBus.retrieve key b) (MemoryBus.last_write key writes))
    as H; [|by split; rewrite H].
  induction writes as [|[[now k] v] writes IH] using rev_ind; intros b; [done|].
  unfold MemoryBus.store_all. rewrite foldl_app. cbn [foldl fst snd].
  fold (MemoryBus.store_all writes b). rewrite last_write_snoc.
  destruct (decide (k = key)) as [->|Hne].
  - apply retrieve_store.
  - rewrite retrieve_store_ne by done. apply IH.
Qed.

(** ** The memory store: publishing *)

(** X10. [publish] never raises. Every subscriber of the topic runs once,
    in registration order, each on the world as the one before left it, also
    after subscribers that raised; a topic without subscribers changes
    nothing. *)
Theorem publish_delivers_to_all {S}
    (subscribers : gmap string (list (value -> M S unit)))
    (topic : string) (message : value) (world : S) :
  MemoryBus.publish subscribers topic message world
  = (foldl (fun w callback => fst (callback message w)) world
       (default [] (subscribers !! topic)),
     Ok tt).
Proof.
  unfold MemoryBus.publish.
  destruct (subscribers !! topic) as [callbacks|]; [|done].
  change (default [] (Some callbacks)) with callbacks.
  revert world. induction callbacks as [|callback rest IH]; intros world; [done|].
  cbn [for_each foldl]. unfold bind, try_except at 1.
  destruct (callback message world) as [w' [[]|e]] eqn:E; cbn [fst];
    [|unfold ret at 1]; apply IH.
Qed.

(** ** Agents: further properties *)



(** What one [execute_task] call does to the agent's books. *)
Lemma execute_task_books (py_str : value -> string) (cls : BaseAgent.AgentClass)
    (task : BaseAgent.Task) (reply : remote_outcome) (clk : clock)
    (st : t * BaseAgent.t) :
  let agent := snd st in
  let agent' := snd (fst (BaseAgent.execute_task py_str cls task reply clk st)) in
  (BaseAgent.tasks_completed agent' + length (BaseAgent.errors agent')
   = BaseAgent.tasks_completed agent + length (BaseAgent.errors agent) + 1)%nat
  /\ (length (BaseAgent.conversations agent') + BaseAgent.tasks_completed agent
      = length (BaseAgent.conversations agent)
        + BaseAgent.tasks_completed agent')%nat
  /\ (BaseAgent.tasks_completed agent <= BaseAgent.tasks_completed agent')%nat
  /\ BaseAgent.status agent' = BaseAgent.status agent
  /\ BaseAgent.config agent' = BaseAgent.config agent
  /\ BaseAgent.attrs agent' = BaseAgent.attrs agent.
Proof.
  destruct st as [api agent0]. cbn [snd].
  destruct (execute_task_cases py_str cls task reply clk api agent0)
    as (api' & result & _ & E).
  rewrite E.
  destruct (BaseAgent._process_task_result cls task result); cbn;
    rewrite ?length_app; cbn; repeat split; lia.
Qed.

(** X12. Over any sequence of [execute_task] calls on an agent every call
    is accounted for once: completed tasks plus logged errors grow by the
    number of calls, the conversation history grows exactly with the
    completed tasks, and neither the status nor the configuration changes. *)
Theorem tasks_accounted (py_str : value -> string) (cls : BaseAgent.AgentClass)
    (calls : list (BaseAgent.Task * remote_outcome * clock))
    (st : t * BaseAgent.t) :
  let agent := snd st in
  let agent' := snd (BaseAgent.run_tasks py_str cls calls st) in
  (BaseAgent.tasks_completed agent' + length (BaseAgent.errors agent')
   = BaseAgent.tasks_completed agent + length (BaseAgent.errors agent)
     + length calls)%nat
  /\ (length (BaseAgent.conversations agent') + BaseAgent.tasks_completed agent
      = length (BaseAgent.conversations agent)
        + BaseAgent.tasks_completed agent')%nat
  /\ (BaseAgent.tasks_completed agent <= BaseAgent.tasks_completed agent')%nat
  /\ BaseAgent.status agent' = BaseAgent.status agent
  /\ BaseAgent.config agent' = BaseAgent.config agent.
Proof.
  revert st. induction calls as [|[[task reply] clk] rest IH]; intros st.
  - cbn. repeat split; lia.
  - cbn [BaseAgent.run_tasks length]. cbv zeta in IH |- *.
    pose proof (IH (fst (BaseAgent.execute_task py_str cls task reply clk st)))
      as (H1 & H2 & H3 & H4 & H5).
    pose proof (execute_task_books py_str cls task reply clk st)
      as (K1 & K2 & K3 & K4 & K5 & _).
    cbv zeta in K1, K2, K3, K4, K5.
    repeat split; [lia|lia|lia|congruence|congruence].
Qed.

(** ** Agents: projects of the development agent *)

(** X13. On an agent whose project list exists, [create_nextjs_project]
    returns a [success] project named as asked, whose package file is the
    template with its [name] replaced by the project name (version 1.0.0
    kept), stamped with the backend that answered, and appends exactly that
    project to the list; it is not a task: neither [tasks_completed] nor the
    logs change. *)
Theorem create_nextjs_project_recorded (project_name : string)
    (reply : remote_outcome) (clk : clock) (api : t) (agent : BaseAgent.t)
    (projects : list value) :
  BaseAgent.attrs agent !! "projects" = Some (VList projects) ->
  exists api' agent' project package_json result,
    BaseAgent.create_nextjs_project project_name reply clk (api, agent)
    = ((api', agent'), Ok (VDict project))
    /\ generate_response
         ("Create a comprehensive Next.js project structure for '" +:+ project_name
          +:+ "' with modern best practices, TypeScript, and responsive design.")
         (BaseAgent.config agent) reply api = (api', Ok result)
    /\ project !! "status" = Some (VStr "success")
    /\ project !! "project_name" = Some (VStr project_name)
    /\ project !! "api_used" = Some (VStr (api_used result))
    /\ project !! "ai_recommendations" = Some (content result)
    /\ project !! "package_json" = Some (VDict package_json)
    /\ package_json !! "name" = Some (VStr project_name)
    /\ package_json !! "version" = Some (VStr "1.0.0")
    /\ BaseAgent.attrs agent' !! "projects"
       = Some (VList (projects ++ [VDict project]))
    /\ BaseAgent.tasks_completed agent' = BaseAgent.tasks_completed agent
    /\ BaseAgent.errors agent' = BaseAgent.errors agent
    /\ BaseAgent.conversations agent' = BaseAgent.conversations agent.
Proof.
  intros Hprojects.
  destruct (generate_response_returns
              ("Create a comprehensive Next.js project structure for '"
               +:+ project_name
               +:+ "' with modern best practices, TypeScript, and responsive design.")
              (BaseAgent.config agent) reply api)
    as (api' & result & E & _).
  eexists api', _, _,
    (<["name" := VStr project_name]> BaseAgent._get_nextjs_package_json), result.
  split.
  - unfold BaseAgent.create_nextjs_project, try_except, bind, gets, zoom, ret,
      BaseAgent.append_project.
    cbn [fst snd]. rewrite E. cbn [fst snd]. rewrite Hprojects. reflexivity.
  - split; [exact E|].
    do 7 (split; [vm_compute; reflexivity|]).
    split; [apply lookup_insert_eq|done].
Qed.

Lemma create_nextjs_project_recorded_witness :
  let cfg := agent_config "dev_engine" "developer" ["coding"; "nextjs"; "react"]
               "auto" in
  let agent := BaseAgent.mk cfg "active" 0 0 [] [] {[ "projects" := VList [] ]} in
  exists api' agent' project,
    BaseAgent.create_nextjs_project "shop" (TransportFailure (ClientError "down"))
      (fun n => Z.of_nat n) (init, agent)
    = ((api', agent'), Ok (VDict project))
    /\ project !! "project_name" = Some (VStr "shop")
    /\ BaseAgent.attrs agent' !! "projects" = Some (VList [VDict project]).
Proof.
  intros cfg agent.
  destruct (create_nextjs_project_recorded "shop"
              (TransportFailure (ClientError "down")) (fun n => Z.of_nat n)
              init agent [] eq_refl)
    as (api' & agent' & project & pj & result & E & _ & _ & Hn & _ & _ & _ & _
        & _ & Hp & _).
  exists api', agent', project. split; [exact E|]. split; [exact Hn|exact Hp].
Defined.

(** X14. On an agent that has no project list, because [_setup] never
    ran, [create_nextjs_project] does not raise: it returns an [error] dict
    with the attribute error's text and leaves the agent as it was, but the
    router has already answered the request and counted it. *)
Theorem create_nextjs_project_unset (project_name : string)
    (reply : remote_outcome) (clk : clock) (api : t) (agent : BaseAgent.t) :
  BaseAgent.attrs agent !! "projects" = None ->
  exists api',
    BaseAgent.create_nextjs_project project_name reply clk (api, agent)
    = ((api', agent),
       Ok (VDict {[ "status" := VStr "error";
                    "error" :=
                      VStr "'DevEngineAgent' object has no attribute 'projects'" ]}))
    /\ (total_requests api < total_requests api')%nat.
Proof.
  intros Hprojects.
  pose proof (generate_response_totals
                ("Create a comprehensive Next.js project structure for '"
                 +:+ project_name
                 +:+ "' with modern best practices, TypeScript, and responsive design.")
                (BaseAgent.config agent) reply api) as Htot.
  cbv zeta in Htot.
  destruct (generate_response _ (BaseAgent.config agent) reply api)
    as [api' [result|e]] eqn:E.
  - exists api'. cbn [fst] in Htot. split; [|lia].
    unfold BaseAgent.create_nextjs_project, try_except, bind, gets, zoom, ret,
      BaseAgent.append_project.
    cbn [fst snd]. rewrite E. cbn [fst snd]. rewrite Hprojects.
    by destruct agent.
  - destruct (generate_response_returns
                ("Create a comprehensive Next.js project structure for '"
                 +:+ project_name
                 +:+ "' with modern best practices, TypeScript, and responsive design.")
                (BaseAgent.config agent) reply api) as (? & ? & E' & _).
    congruence.
Qed.

Lemma create_nextjs_project_unset_witness :
  let cfg := agent_config "dev_engine" "developer" ["coding"; "nextjs"; "react"]
               "auto" in
  let agent := BaseAgent.init cfg 0 in
  exists api',
    BaseAgent.create_nextjs_project "shop" (TransportFailure (ClientError "down"))
      (fun n => Z.of_nat n) (init, agent)
    = ((api', agent),
       Ok (VDict {[ "status" := VStr "error";
                    "error" :=
                      VStr "'DevEngineAgent' object has no attribute 'projects'" ]}))
    /\ (total_requests init < total_requests api')%nat.
Proof.
  intros cfg agent.
  apply (create_nextjs_project_unset "shop" (TransportFailure (ClientError "down"))
           (fun n => Z.of_nat n) init agent).
  reflexivity.
Defined.

(** X15. Initialising a development agent always succeeds and starts its
    project list afresh: whatever projects an earlier initialisation had
    collected are gone after [initialize] runs again. *)
Theorem initialize_resets_projects (agent : BaseAgent.t) :
  exists agent',
    BaseAgent.initialize BaseAgent.DevEngineAgent agent = (agent', Ok true)
    /\ BaseAgent.status agent' = "active"
    /\ BaseAgent.attrs agent' !! "projects" = Some (VList [])
    /\ BaseAgent.tasks_completed agent' = BaseAgent.tasks_completed agent
    /\ BaseAgent.errors agent' = BaseAgent.errors agent
    /\ BaseAgent.conversations agent' = BaseAgent.conversations agent.
Proof.
  eexists. split; [reflexivity|]. cbn. by rewrite lookup_insert_eq.
Qed.

(** ** The enhanced system: maintenance *)

Lemma enhanced_maintain_short (agent : BaseAgent.t) :
  (length (BaseAgent.conversations agent) <= 20)%nat ->
  EnhancedAgenticAISystem.maintain agent = agent.
Proof.
  intros H. unfold EnhancedAgenticAISystem.maintain.
  rewrite bool_decide_eq_false_2; [done|lia].
Qed.

Lemma enhanced_maintain_bound (agent : BaseAgent.t) :
  (length (BaseAgent.conversations (EnhancedAgenticAISystem.maintain agent))
   <= 20)%nat.
Proof.
  unfold EnhancedAgenticAISystem.maintain. case_bool_decide as Hlen.
  - cbn [BaseAgent.conversations]. rewrite last_n_length; lia.
  - lia.
Qed.

Lemma enhanced_maintain_status (agent : BaseAgent.t) :
  BaseAgent.status (EnhancedAgenticAISystem.maintain agent)
  = BaseAgent.status agent.
Proof. unfold EnhancedAgenticAISystem.maintain. by case_bool_decide. Qed.

(** X16. After maintenance an agent holds at most 20 conversations, all of
    them the most recent ones it had, and a second maintenance changes
    nothing. *)
Theorem maintenance_bounds_history (agent : BaseAgent.t) :
  let agent' := EnhancedAgenticAISystem.maintain agent in
  (length (BaseAgent.conversations agent') <= 20)%nat
  /\ (exists front,
        BaseAgent.conversations agent
        = (front ++ BaseAgent.conversations agent')%list)
  /\ EnhancedAgenticAISystem.maintain agent' = agent'.
Proof.
  cbv zeta. split; [apply enhanced_maintain_bound|]. split.
  - unfold EnhancedAgenticAISystem.maintain. case_bool_decide.
    + apply last_n_suffix.
    + by exists [].
  - apply enhanced_maintain_short, enhanced_maintain_bound.
Qed.

(** X17. After the maintenance of the base system an agent's error log has
    at most 10 entries, all of them the most recent ones, and a second
    maintenance changes nothing. *)
Theorem main_maintenance_bounds_errors (agent : Main.Agent) :
  let agent' := Main.maintain agent in
  (length (Main.errors agent') <= 10)%nat
  /\ (exists front, Main.errors agent = (front ++ Main.errors agent')%list)
  /\ Main.maintain agent' = agent'.
Proof.
  cbv zeta.
  assert (length (Main.errors (Main.maintain agent)) <= 10)%nat as Hb.
  { unfold Main.maintain. case_bool_decide as Hlen.
    - cbn [Main.errors]. rewrite last_n_length; lia.
    - lia. }
  split; [exact Hb|]. split.
  - unfold Main.maintain. case_bool_decide.
    + apply last_n_suffix.
    + by exists [].
  - unfold Main.maintain at 1. rewrite bool_decide_eq_false_2; [done|lia].
Qed.
(** ** The enhanced system: start-up *)

Lemma dict_set_fresh {A} (key : string) (v : A) (d : list (string * A)) :
  key ∉ map fst d -> EnhancedAgenticAISystem.dict_set key v d = (d ++ [(key, v)])%list.
Proof.
  induction d as [|[k x] rest IH]; intros Hfresh; [done|].
  cbn in *. apply not_elem_of_cons in Hfresh as [Hne Hrest].
  rewrite decide_False by done. by rewrite IH.
Qed.

(** The two classes [agent_class] chooses from have hooks that never
    raise: the new agent comes up active, with empty books. *)
Lemma new_agent_active (now : Z) (config : AgentConfig) :
  let out := EnhancedAgenticAISystem.new_agent now config in
  snd out = Ok true
  /\ EnhancedAgenticAISystem.managed_class (fst out)
     = EnhancedAgenticAISystem.agent_class config
  /\ BaseAgent.config (EnhancedAgenticAISystem.managed_agent (fst out)) = config
  /\ BaseAgent.status (EnhancedAgenticAISystem.managed_agent (fst out)) = "active"
  /\ BaseAgent.tasks_completed (EnhancedAgenticAISystem.managed_agent (fst out)) = 0%nat
  /\ BaseAgent.errors (EnhancedAgenticAISystem.managed_agent (fst out)) = []
  /\ BaseAgent.conversations (EnhancedAgenticAISystem.managed_agent (fst out)) = []
  /\ BaseAgent.last_activity (EnhancedAgenticAISystem.managed_agent (fst out)) = now.
Proof.
  unfold EnhancedAgenticAISystem.new_agent, EnhancedAgenticAISystem.agent_class.
  destruct (_ || _); cbn; done.
Qed.

Lemma register_agent_run (now : Z) (config : AgentConfig)
    (self : EnhancedAgenticAISystem.t) :
  EnhancedAgenticAISystem.register_agent now config self
  = (EnhancedAgenticAISystem.set_agents
       (EnhancedAgenticAISystem.dict_set (name config)
          (fst (EnhancedAgenticAISystem.new_agent now config))
          (EnhancedAgenticAISystem.agents self))
       self,
     Ok tt).
Proof.
  unfold EnhancedAgenticAISystem.register_agent, try_except, bind, lift, modify.
  destruct (new_agent_active now config) as (-> & _). reflexivity.
Qed.

Lemma initialize_agents_from_run (configs : list AgentConfig) (clk : clock)
    (self : EnhancedAgenticAISystem.t) :
  NoDup (map fst (EnhancedAgenticAISystem.agents self) ++ map name configs) ->
  EnhancedAgenticAISystem.initialize_agents_from configs clk self
  = (EnhancedAgenticAISystem.set_agents
       (EnhancedAgenticAISystem.agents self
        ++ imap (fun i config =>
                   (name config,
                    fst (EnhancedAgenticAISystem.new_agent (clk i) config)))
             configs)
       self,
     Ok tt).
Proof.
  unfold EnhancedAgenticAISystem.initialize_agents_from.
  revert clk self. induction configs as [|config rest IH]; intros clk self Hnodup.
  - cbn. rewrite app_nil_r. by destruct self.
  - cbn [imap for_each]. unfold bind at 1. cbn [fst snd].
    rewrite register_agent_run. cbn [fst snd].
    assert (name config ∉ map fst (EnhancedAgenticAISystem.agents self)) as Hfresh.
    { intros Hin. apply NoDup_app in Hnodup as (_ & Hdisj & _).
      apply (Hdisj _ Hin). cbn. left. }
    rewrite dict_set_fresh by done.
    specialize (IH (fun i => clk (S i))
                  (EnhancedAgenticAISystem.set_agents
                     (EnhancedAgenticAISystem.agents self
                      ++ [(name config,
                           fst (EnhancedAgenticAISystem.new_agent (clk 0%nat) config))])
                     self)).
    cbn [EnhancedAgenticAISystem.agents EnhancedAgenticAISystem.set_agents] in IH.
    etrans; [apply IH|].
    + rewrite map_app. cbn [map fst]. rewrite <- app_assoc. exact Hnodup.
    + rewrite <- app_assoc. reflexivity.
Qed.

(** X18. Start-up over configurations with distinct names, on a system
    that has no agent yet: the loop never raises and the agent dict then
    holds one entry per configuration, in the order of the configurations,
    each under its configuration's name, of the class chosen from its
    type, active and with empty books. *)
Theorem initialize_agents_registers (configs : list AgentConfig) (clk : clock)
    (self : EnhancedAgenticAISystem.t) :
  EnhancedAgenticAISystem.agents self = [] ->
  NoDup (map name configs) ->
  exists ags,
    EnhancedAgenticAISystem.initialize_agents_from configs clk self
    = (EnhancedAgenticAISystem.set_agents ags self, Ok tt)
    /\ map fst ags = map name configs
    /\ forall i config,
         configs !! i = Some config ->
         exists agent,
           ags !! i
           = Some (name config,
                   EnhancedAgenticAISystem.mkManaged
                     (EnhancedAgenticAISystem.agent_class config) agent)
           /\ BaseAgent.config agent = config
           /\ BaseAgent.status agent = "active"
           /\ BaseAgent.tasks_completed agent = 0%nat
           /\ BaseAgent.errors agent = []
           /\ BaseAgent.conversations agent = []
           /\ BaseAgent.last_activity agent = clk i.
Proof.
  intros Hempty Hnodup. eexists. split; [|split].
  - rewrite initialize_agents_from_run by (by rewrite Hempty).
    rewrite Hempty. reflexivity.
  - cbn [app]. clear. revert clk.
    induction configs as [|c rest IH]; intros clk; [done|].
    cbn. f_equal. apply (IH (fun i => clk (S i))).
  - intros i config Hi. cbn [app].
    destruct (new_agent_active (clk i) config)
      as (_ & Hcls & Hcfg & Hst & Ht & He & Hc & Hl).
    exists (EnhancedAgenticAISystem.managed_agent
              (fst (EnhancedAgenticAISystem.new_agent (clk i) config))).
    split; [|done].
    rewrite list_lookup_imap, Hi. cbn. rewrite <- Hcls.
    by destruct (fst (EnhancedAgenticAISystem.new_agent (clk i) config)).
Qed.

Lemma initialize_agents_registers_witness :
  exists ags,
    EnhancedAgenticAISystem.initialize_agents (fun n => Z.of_nat n)
      EnhancedAgenticAISystem.init
    = (EnhancedAgenticAISystem.set_agents ags EnhancedAgenticAISystem.init, Ok tt)
    /\ map fst ags
       = ["cybershell"; "agent_maker"; "ui_designer"; "dev_engine"; "data_sync";
          "fullstack_dev"; "commander_agi"; "quality_control"; "bug_hunter";
          "money_maker"; "backup_colony"; "authentication"; "knowledge_manager";
          "marketing"].
Proof.
  destruct (initialize_agents_registers EnhancedAgenticAISystem.agent_configs
              (fun n => Z.of_nat n) EnhancedAgenticAISystem.init eq_refl)
    as (ags & E & Hkeys & _).
  - apply (bool_decide_unpack (NoDup _)). vm_compute. reflexivity.
  - exists ags. split; [exact E|exact Hkeys].
Defined.
(** ** The enhanced system: autonomous tasks *)

Lemma execute_task_returns (py_str : value -> string) (cls : BaseAgent.AgentClass)
    (task : BaseAgent.Task) (reply : remote_outcome) (clk : clock)
    (st : t * BaseAgent.t) :
  exists result, snd (BaseAgent.execute_task py_str cls task reply clk st) = Ok result.
Proof.
  destruct st as [api agent].
  destruct (execute_task_cases py_str cls task reply clk api agent)
    as (api' & result & _ & E).
  rewrite E. destruct (BaseAgent._process_task_result cls task result); eauto.
Qed.

Lemma list_find_first {A} (P : A -> Prop) `{forall x, Decision (P x)}
    (before after : list A) (x : A) :
  Forall (fun y => ~ P y) before -> P x ->
  list_find P (before ++ x :: after) = Some (length before, x).
Proof.
  intros Hbefore Hx. apply list_find_Some. split; [|split; [done|]].
  - by rewrite list_lookup_middle.
  - intros j y Hj Hlt. rewrite lookup_app_l in Hj by done.
    rewrite Forall_lookup in Hbefore. by eapply Hbefore.
Qed.

Lemma execute_enhanced_autonomous_tasks_idle (py_str : value -> string)
    (reply : remote_outcome) (clk : clock) (self : EnhancedAgenticAISystem.t) :
  Forall (fun entry =>
            BaseAgent.status (EnhancedAgenticAISystem.managed_agent (snd entry))
            <> "active")
    (EnhancedAgenticAISystem.agents self) ->
  EnhancedAgenticAISystem.execute_enhanced_autonomous_tasks py_str reply clk self
  = (self, Ok tt).
Proof.
  intros Hnone. unfold EnhancedAgenticAISystem.execute_enhanced_autonomous_tasks.
  by rewrite (proj2 (list_find_None _ _) Hnone).
Qed.

Lemma execute_enhanced_autonomous_tasks_run (py_str : value -> string)
    (reply : remote_outcome) (clk : clock) (self : EnhancedAgenticAISystem.t)
    (before after : list (string * EnhancedAgenticAISystem.Managed))
    (key : string) (m : EnhancedAgenticAISystem.Managed) :
  EnhancedAgenticAISystem.agents self = (before ++ (key, m) :: after)%list ->
  Forall (fun entry =>
            BaseAgent.status (EnhancedAgenticAISystem.managed_agent (snd entry))
            <> "active") before ->
  BaseAgent.status (EnhancedAgenticAISystem.managed_agent m) = "active" ->
  let out :=
    BaseAgent.execute_task py_str (EnhancedAgenticAISystem.managed_class m)
      (EnhancedAgenticAISystem.autonomous_task
         (EnhancedAgenticAISystem.managed_agent m) (clk 0%nat))
      reply (fun n => clk (S n))
      (EnhancedAgenticAISystem.api_integration self,
       EnhancedAgenticAISystem.managed_agent m) in
  EnhancedAgenticAISystem.execute_enhanced_autonomous_tasks py_str reply clk self
  = (EnhancedAgenticAISystem.set_agents
       (before
        ++ (key,
            EnhancedAgenticAISystem.mkManaged
              (EnhancedAgenticAISystem.managed_class m) (snd (fst out)))
           :: after)
       (EnhancedAgenticAISystem.set_api_integration (fst (fst out)) self),
     Ok tt).
Proof.
  intros Hags Hbefore Hactive out.
  unfold EnhancedAgenticAISystem.execute_enhanced_autonomous_tasks.
  rewrite Hags.
  rewrite (list_find_first _ before after (key, m)) by done.
  fold out.
  destruct (execute_task_returns py_str (EnhancedAgenticAISystem.managed_class m)
              (EnhancedAgenticAISystem.autonomous_task
                 (EnhancedAgenticAISystem.managed_agent m) (clk 0%nat))
              reply (fun n => clk (S n))
              (EnhancedAgenticAISystem.api_integration self,
               EnhancedAgenticAISystem.managed_agent m)) as [result Hres].
  fold out in Hres. destruct out as [[api' agent'] r]. cbn in Hres. subst r.
  cbn [fst snd].
  rewrite insert_app_r_alt by done. rewrite Nat.sub_diag. reflexivity.
Qed.

(** X19. A round of autonomous tasks gives one task to the first active
    agent of the dict, whatever agents follow it: that agent's
    [execute_task] runs on the shared router, every other agent is left as
    it was, and the round does not raise. *)
Theorem autonomous_task_first_active (py_str : value -> string)
    (reply : remote_outcome) (clk : clock) (self : EnhancedAgenticAISystem.t)
    (before after : list (string * EnhancedAgenticAISystem.Managed))
    (key : string) (m : EnhancedAgenticAISystem.Managed) :
  EnhancedAgenticAISystem.agents self = (before ++ (key, m) :: after)%list ->
  Forall (fun entry =>
            BaseAgent.status (EnhancedAgenticAISystem.managed_agent (snd entry))
            <> "active") before ->
  BaseAgent.status (EnhancedAgenticAISystem.managed_agent m) = "active" ->
  exists api' agent' result,
    BaseAgent.execute_task py_str (EnhancedAgenticAISystem.managed_class m)
      (EnhancedAgenticAISystem.autonomous_task
         (EnhancedAgenticAISystem.managed_agent m) (clk 0%nat))
      reply (fun n => clk (S n))
      (EnhancedAgenticAISystem.api_integration self,
       EnhancedAgenticAISystem.managed_agent m)
    = ((api', agent'), Ok result)
    /\ EnhancedAgenticAISystem.execute_enhanced_autonomous_tasks py_str reply clk self
       = (EnhancedAgenticAISystem.set_agents
            (before
             ++ (key,
                 EnhancedAgenticAISystem.mkManaged
                   (EnhancedAgenticAISystem.managed_class m) agent')
                :: after)
            (EnhancedAgenticAISystem.set_api_integration api' self),
          Ok tt).
Proof.
  intros Hags Hbefore Hactive.
  pose proof (execute_enhanced_autonomous_tasks_run py_str reply clk self
                before after key m Hags Hbefore Hactive) as Hrun.
  cbv zeta in Hrun.
  destruct (execute_task_returns py_str (EnhancedAgenticAISystem.managed_class m)
              (EnhancedAgenticAISystem.autonomous_task
                 (EnhancedAgenticAISystem.managed_agent m) (clk 0%nat))
              reply (fun n => clk (S n))
              (EnhancedAgenticAISystem.api_integration self,
               EnhancedAgenticAISystem.managed_agent m)) as [result Hres].
  destruct (BaseAgent.execute_task _ _ _ _ _ _) as [[api' agent'] r] eqn:E.
  cbn in Hres. subst r. by exists api', agent', result.
Qed.
Lemma autonomous_task_first_active_witness :
  let cfg := agent_config "data_sync" "data_manager" ["sync"; "storage"] "local" in
  let idle :=
    EnhancedAgenticAISystem.mkManaged BaseAgent.BaseAgent (BaseAgent.init cfg 0) in
  let worker :=
    EnhancedAgenticAISystem.mkManaged BaseAgent.BaseAgent
      (BaseAgent.set_status "active" (BaseAgent.init cfg 0)) in
  let self :=
    EnhancedAgenticAISystem.set_agents
      [("first", idle); ("second", worker); ("third", worker)]
      EnhancedAgenticAISystem.init in
  exists api' agent',
    EnhancedAgenticAISystem.execute_enhanced_autonomous_tasks type_name
      (TransportFailure (Exception "unreachable")) (fun n => Z.of_nat n) self
    = (EnhancedAgenticAISystem.set_agents
         [("first", idle);
          ("second", EnhancedAgenticAISystem.mkManaged BaseAgent.BaseAgent agent');
          ("third", worker)]
         (EnhancedAgenticAISystem.set_api_integration api' self),
       Ok tt).
Proof.
  intros cfg idle worker self.
  destruct (autonomous_task_first_active type_name
              (TransportFailure (Exception "unreachable")) (fun n => Z.of_nat n)
              self [("first", idle)] [("third", worker)] "second" worker)
    as (api' & agent' & result & _ & E).
  - reflexivity.
  - repeat constructor. vm_compute. discriminate.
  - reflexivity.
  - exists api', agent'. exact E.
Defined.

(** ** The enhanced system: the operation loop *)

Lemma maintain_agents_app (xs ys : list (string * EnhancedAgenticAISystem.Managed)) :
  EnhancedAgenticAISystem.maintain_agents (xs ++ ys)
  = (EnhancedAgenticAISystem.maintain_agents xs
     ++ EnhancedAgenticAISystem.maintain_agents ys)%list.
Proof. apply map_app. Qed.

Lemma maintain_agents_idem (xs : list (string * EnhancedAgenticAISystem.Managed)) :
  EnhancedAgenticAISystem.maintain_agents
    (EnhancedAgenticAISystem.maintain_agents xs)
  = EnhancedAgenticAISystem.maintain_agents xs.
Proof.
  unfold EnhancedAgenticAISystem.maintain_agents. rewrite map_map.
  apply map_ext. intros [k [cls a]]. cbn.
  by rewrite enhanced_maintain_short by apply enhanced_maintain_bound.
Qed.

Lemma maintain_agents_inactive (xs : list (string * EnhancedAgenticAISystem.Managed)) :
  Forall (fun entry =>
            BaseAgent.status (EnhancedAgenticAISystem.managed_agent (snd entry))
            <> "active") xs ->
  Forall (fun entry =>
            BaseAgent.status (EnhancedAgenticAISystem.managed_agent (snd entry))
            <> "active") (EnhancedAgenticAISystem.maintain_agents xs).
Proof.
  intros H. unfold EnhancedAgenticAISystem.maintain_agents.
  apply Forall_map. eapply Forall_impl; [exact H|].
  intros [k [cls a]]. cbn. by rewrite enhanced_maintain_status.
Qed.

Lemma enhanced_maintain_tasks (agent : BaseAgent.t) :
  BaseAgent.tasks_completed (EnhancedAgenticAISystem.maintain agent)
  = BaseAgent.tasks_completed agent.
Proof. unfold EnhancedAgenticAISystem.maintain. by case_bool_decide. Qed.

(** One cycle on a system whose first active agent is [m]. *)
Lemma cycle_run (py_str : value -> string)
    (reply : remote_outcome) (clk : clock) (self : EnhancedAgenticAISystem.t)
    (before after : list (string * EnhancedAgenticAISystem.Managed))
    (key : string) (m : EnhancedAgenticAISystem.Managed) :
  EnhancedAgenticAISystem.agents self = (before ++ (key, m) :: after)%list ->
  Forall (fun entry =>
            BaseAgent.status (EnhancedAgenticAISystem.managed_agent (snd entry))
            <> "active") before ->
  BaseAgent.status (EnhancedAgenticAISystem.managed_agent m) = "active" ->
  exists api' agent',
    EnhancedAgenticAISystem.cycle py_str reply clk self
    = (EnhancedAgenticAISystem.set_agents
         (EnhancedAgenticAISystem.maintain_agents before
          ++ (key,
              EnhancedAgenticAISystem.mkManaged
                (EnhancedAgenticAISystem.managed_class m) agent')
             :: EnhancedAgenticAISystem.maintain_agents after)
         (EnhancedAgenticAISystem.set_api_integration api' self),
       Ok tt)
    /\ (BaseAgent.tasks_completed agent' + length (BaseAgent.errors agent')
        = BaseAgent.tasks_completed (EnhancedAgenticAISystem.managed_agent m)
          + length (BaseAgent.errors (EnhancedAgenticAISystem.managed_agent m))
          + 1)%nat
    /\ (length (BaseAgent.conversations agent') <= 20)%nat
    /\ BaseAgent.status agent' = "active".
Proof.
  intros Hags Hbefore Hactive.
  pose proof (execute_enhanced_autonomous_tasks_run py_str reply clk self
                before after key m Hags Hbefore Hactive) as Hrun.
  cbv zeta in Hrun.
  pose proof (execute_task_books py_str (EnhancedAgenticAISystem.managed_class m)
                (EnhancedAgenticAISystem.autonomous_task
                   (EnhancedAgenticAISystem.managed_agent m) (clk 0%nat))
                reply (fun n => clk (S n))
                (EnhancedAgenticAISystem.api_integration self,
                 EnhancedAgenticAISystem.managed_agent m))
    as (Hbooks & _ & _ & Hstatus & _).
  cbv zeta in Hbooks, Hstatus. cbn [snd] in Hbooks, Hstatus.
  destruct (BaseAgent.execute_task _ _ _ _ _ _) as [[api' agent1] r].
  cbn [fst snd] in Hrun, Hbooks, Hstatus.
  exists api', (EnhancedAgenticAISystem.maintain agent1). split; [|split; [|split]].
  - unfold EnhancedAgenticAISystem.cycle, bind. rewrite Hrun. cbn [fst snd].
    unfold EnhancedAgenticAISystem.system_maintenance_step, modify.
    destruct self. cbn. rewrite maintain_agents_app. reflexivity.
  - rewrite enhanced_maintain_tasks, enhanced_maintain_errors. exact Hbooks.
  - apply enhanced_maintain_bound.
  - rewrite enhanced_maintain_status. congruence.
Qed.

Lemma system_loop_run (py_str : value -> string) (net : nat -> remote_outcome)
    (clks : nat -> clock) (n : nat) :
  forall (fuel attempt loop_count : nat) (self : EnhancedAgenticAISystem.t)
         (before after : list (string * EnhancedAgenticAISystem.Managed))
         (key : string) (m : EnhancedAgenticAISystem.Managed),
    (loop_count + S n = 10)%nat -> (S n <= fuel)%nat ->
    EnhancedAgenticAISystem.agents self = (before ++ (key, m) :: after)%list ->
    Forall (fun entry =>
              BaseAgent.status (EnhancedAgenticAISystem.managed_agent (snd entry))
              <> "active") before ->
    BaseAgent.status (EnhancedAgenticAISystem.managed_agent m) = "active" ->
    exists api' agent',
      EnhancedAgenticAISystem.system_loop py_str fuel attempt loop_count net clks self
      = (EnhancedAgenticAISystem.set_agents
           (EnhancedAgenticAISystem.maintain_agents before
            ++ (key,
                EnhancedAgenticAISystem.mkManaged
                  (EnhancedAgenticAISystem.managed_class m) agent')
               :: EnhancedAgenticAISystem.maintain_agents after)
           (EnhancedAgenticAISystem.set_api_integration api' self),
         Ok (Some 10%nat))
      /\ (BaseAgent.tasks_completed agent' + length (BaseAgent.errors agent')
          = BaseAgent.tasks_completed (EnhancedAgenticAISystem.managed_agent m)
            + length (BaseAgent.errors (EnhancedAgenticAISystem.managed_agent m))
            + S n)%nat
      /\ (length (BaseAgent.conversations agent') <= 20)%nat
      /\ BaseAgent.status agent' = "active".
Proof.
  induction n as [|n IH];
    intros fuel attempt loop_count self before after key m Hcount Hfuel Hags
      Hbefore Hactive.
  - destruct fuel as [|fuel]; [lia|].
    destruct (cycle_run py_str (net attempt) (clks attempt) self before after
                key m Hags Hbefore Hactive) as (api' & agent' & E & Hb & Hc & Hs).
    exists api', agent'. split; [|done].
    cbn [EnhancedAgenticAISystem.system_loop].
    rewrite bool_decide_eq_true_2 by lia.
    unfold bind at 1, try_except, bind at 1. rewrite E. cbn [fst snd]. unfold ret at 1.
    cbn [fst snd].
    destruct fuel; cbn [EnhancedAgenticAISystem.system_loop];
      (rewrite bool_decide_eq_false_2 by lia);
      unfold ret; repeat f_equal; lia.
  - destruct fuel as [|fuel]; [lia|].
    destruct (cycle_run py_str (net attempt) (clks attempt) self before after
                key m Hags Hbefore Hactive) as (api1 & agent1 & E & Hb & Hc & Hs).
    cbn [EnhancedAgenticAISystem.system_loop].
    rewrite bool_decide_eq_true_2 by lia.
    unfold bind at 1, try_except, bind at 1. rewrite E. cbn [fst snd]. unfold ret at 1.
    cbn [fst snd].
    destruct (IH fuel (S attempt) (S loop_count)
                (EnhancedAgenticAISystem.set_agents
                   (EnhancedAgenticAISystem.maintain_agents before
                    ++ (key,
                        EnhancedAgenticAISystem.mkManaged
                          (EnhancedAgenticAISystem.managed_class m) agent1)
                       :: EnhancedAgenticAISystem.maintain_agents after)
                   (EnhancedAgenticAISystem.set_api_integration api1 self))
                (EnhancedAgenticAISystem.maintain_agents before)
                (EnhancedAgenticAISystem.maintain_agents after)
                key
                (EnhancedAgenticAISystem.mkManaged
                   (EnhancedAgenticAISystem.managed_class m) agent1))
      as (api' & agent' & E' & Hb' & Hc' & Hs');
      [lia|lia|reflexivity|by apply maintain_agents_inactive|exact Hs|].
    exists api', agent'. split; [|split; [|done]].
    + rewrite E'. rewrite !maintain_agents_idem. by destruct self.
    + cbn [EnhancedAgenticAISystem.managed_agent] in Hb'. lia.
Qed.

(** X20. The operation loop on a system with an active agent: given fuel
    for ten attempts it ends after exactly ten cycles, none of which
    raises. All ten tasks go to the first active agent of the dict, which
    ends with ten more completed tasks or logged errors and at most 20
    conversations; every other agent only goes through maintenance. *)
Theorem system_loop_one_worker (py_str : value -> string)
    (net : nat -> remote_outcome) (clks : nat -> clock) (fuel : nat)
    (self : EnhancedAgenticAISystem.t)
    (before after : list (string * EnhancedAgenticAISystem.Managed))
    (key : string) (m : EnhancedAgenticAISystem.Managed) :
  (10 <= fuel)%nat ->
  EnhancedAgenticAISystem.agents self = (before ++ (key, m) :: after)%list ->
  Forall (fun entry =>
            BaseAgent.status (EnhancedAgenticAISystem.managed_agent (snd entry))
            <> "active") before ->
  BaseAgent.status (EnhancedAgenticAISystem.managed_agent m) = "active" ->
  exists api' agent',
    EnhancedAgenticAISystem.system_loop py_str fuel 0 0 net clks self
    = (EnhancedAgenticAISystem.set_agents
         (EnhancedAgenticAISystem.maintain_agents before
          ++ (key,
              EnhancedAgenticAISystem.mkManaged
                (EnhancedAgenticAISystem.managed_class m) agent')
             :: EnhancedAgenticAISystem.maintain_agents after)
         (EnhancedAgenticAISystem.set_api_integration api' self),
       Ok (Some 10%nat))
    /\ (BaseAgent.tasks_completed agent' + length (BaseAgent.errors agent')
        = BaseAgent.tasks_completed (EnhancedAgenticAISystem.managed_agent m)
          + length (BaseAgent.errors (EnhancedAgenticAISystem.managed_agent m))
          + 10)%nat
    /\ (length (BaseAgent.conversations agent') <= 20)%nat
    /\ BaseAgent.status agent' = "active".
Proof.
  intros Hfuel. apply (system_loop_run py_str net clks 9); lia.
Qed.
Lemma system_loop_one_worker_witness :
  let cfg := agent_config "data_sync" "data_manager" ["sync"; "storage"] "local" in
  let idle :=
    EnhancedAgenticAISystem.mkManaged BaseAgent.BaseAgent (BaseAgent.init cfg 0) in
  let worker :=
    EnhancedAgenticAISystem.mkManaged BaseAgent.BaseAgent
      (BaseAgent.set_status "active" (BaseAgent.init cfg 0)) in
  let self :=
    EnhancedAgenticAISystem.set_agents
      [("first", idle); ("second", worker); ("third", worker)]
      EnhancedAgenticAISystem.init in
  exists api' agent',
    EnhancedAgenticAISystem.system_loop type_name 10 0 0
      (fun _ => TransportFailure (Exception "unreachable"))
      (fun _ n => Z.of_nat n) self
    = (EnhancedAgenticAISystem.set_agents
         [("first", idle);
          ("second", EnhancedAgenticAISystem.mkManaged BaseAgent.BaseAgent agent');
          ("third", worker)]
         (EnhancedAgenticAISystem.set_api_integration api' self),
       Ok (Some 10%nat))
    /\ (BaseAgent.tasks_completed agent' + length (BaseAgent.errors agent')
        = 10)%nat.
Proof.
  intros cfg idle worker self.
  destruct (system_loop_one_worker type_name
              (fun _ => TransportFailure (Exception "unreachable"))
              (fun _ n => Z.of_nat n) 10 self
              [("first", idle)] [("third", worker)] "second" worker)
    as (api' & agent' & E & Hbooks & _).
  - lia.
  - reflexivity.
  - repeat constructor. vm_compute. discriminate.
  - reflexivity.
  - exists api', agent'. split; [exact E|exact Hbooks].
Defined.

(** ** The enhanced system: shutdown and status *)

Lemma count_active_le (ags : list (string * EnhancedAgenticAISystem.Managed)) :
  (EnhancedAgenticAISystem.count_active ags <= length ags)%nat.
Proof. apply length_filter. Qed.

Lemma count_active_none (ags : list (string * EnhancedAgenticAISystem.Managed)) :
  Forall (fun entry =>
            BaseAgent.status (EnhancedAgenticAISystem.managed_agent (snd entry))
            <> "active") ags ->
  EnhancedAgenticAISystem.count_active ags = 0%nat.
Proof.
  unfold EnhancedAgenticAISystem.count_active.
  induction 1 as [|entry rest Hentry _ IH]; [done|].
  by rewrite filter_cons_False.
Qed.

(** X21. After [shutdown] every agent is marked terminated, under the same
    keys and with the same task counts; a round of autonomous tasks then
    does nothing at all: no agent runs and the router sees no request. *)
Theorem shutdown_stops_work (py_str : value -> string) (reply : remote_outcome)
    (clk : clock) (self : EnhancedAgenticAISystem.t) :
  let self' := EnhancedAgenticAISystem.shutdown self in
  map fst (EnhancedAgenticAISystem.agents self')
  = map fst (EnhancedAgenticAISystem.agents self)
  /\ Forall (fun entry =>
               BaseAgent.status (EnhancedAgenticAISystem.managed_agent (snd entry))
               = "terminated")
       (EnhancedAgenticAISystem.agents self')
  /\ EnhancedAgenticAISystem.count_active (EnhancedAgenticAISystem.agents self') = 0%nat
  /\ EnhancedAgenticAISystem.sum_tasks (EnhancedAgenticAISystem.agents self')
     = EnhancedAgenticAISystem.sum_tasks (EnhancedAgenticAISystem.agents self)
  /\ EnhancedAgenticAISystem.execute_enhanced_autonomous_tasks py_str reply clk self'
     = (self', Ok tt).
Proof.
  cbv zeta.
  assert (Forall (fun entry =>
                    BaseAgent.status
                      (EnhancedAgenticAISystem.managed_agent (snd entry))
                    = "terminated")
            (EnhancedAgenticAISystem.agents (EnhancedAgenticAISystem.shutdown self)))
    as Hterm.
  { destruct self as [bus api ags st ss]. cbn.
    apply Forall_map. by apply Forall_true. }
  split; [|split; [exact Hterm|split; [|split]]].
  - destruct self as [bus api ags st ss]. cbn. rewrite map_map. by apply map_ext.
  - apply count_active_none.
    eapply Forall_impl; [exact Hterm|]. intros entry ->. discriminate.
  - clear Hterm. destruct self as [bus api ags st ss]. cbn.
    induction ags as [|[k [cls a]] rest IH]; [done|]. cbn. by rewrite IH.
  - apply execute_enhanced_autonomous_tasks_idle.
    eapply Forall_impl; [exact Hterm|]. intros entry ->. discriminate.
Qed.

(** X22. The status report needs the start time in the memory store: on a
    system where [initialize_components] has not stored it, the report
    raises a [TypeError] instead of returning. *)
Theorem status_needs_start_time (clk : clock) (self : EnhancedAgenticAISystem.t) :
  MemoryBus.data (EnhancedAgenticAISystem.memory_bus self) !! "system_start_time"
  = None ->
  EnhancedAgenticAISystem.get_enhanced_system_status clk self
  = Raise (TypeError
             "unsupported operand type(s) for -: 'datetime.datetime' and 'NoneType'").
Proof.
  intros Hunset.
  unfold EnhancedAgenticAISystem.get_enhanced_system_status, MemoryBus.retrieve.
  by rewrite Hunset.
Qed.

Lemma status_needs_start_time_witness :
  EnhancedAgenticAISystem.get_enhanced_system_status (fun n => Z.of_nat n)
    EnhancedAgenticAISystem.init
  = Raise (TypeError
             "unsupported operand type(s) for -: 'datetime.datetime' and 'NoneType'").
Proof.
  apply (status_needs_start_time (fun n => Z.of_nat n) EnhancedAgenticAISystem.init).
  reflexivity.
Defined.

(** X23. Once [initialize_components] has run, which it does without
    raising whatever the probes answer, the status report returns: its
    uptime is the time since the stored start, it counts the agents of the
    dict with the active ones among them, and the probes have not been
    counted as requests. *)
Theorem status_after_startup (config : APIConfig)
    (reply_camel_ai reply_llm7 : remote_outcome) (start clk : clock)
    (self : EnhancedAgenticAISystem.t) :
  exists self' st,
    EnhancedAgenticAISystem.initialize_components config reply_camel_ai reply_llm7
      start self
    = (self', Ok tt)
    /\ EnhancedAgenticAISystem.get_enhanced_system_status clk self' = Ok st
    /\ EnhancedAgenticAISystem.system_uptime st = clk 1%nat - start 0%nat
    /\ EnhancedAgenticAISystem.st_timestamp st = clk 0%nat
    /\ EnhancedAgenticAISystem.total_agents st
       = length (EnhancedAgenticAISystem.agents self)
    /\ (EnhancedAgenticAISystem.active_agents st
        <= EnhancedAgenticAISystem.total_agents st)%nat
    /\ EnhancedAgenticAISystem.st_total_requests st
       = total_requests (EnhancedAgenticAISystem.api_integration self).
Proof.
  unfold EnhancedAgenticAISystem.initialize_components, bind, zoom, modify,
    initialize, bind.
  rewrite test_camel_ai_run. cbn [fst snd]. rewrite test_llm7_run. cbn [fst snd].
  eexists _, _. split; [reflexivity|].
  unfold EnhancedAgenticAISystem.get_enhanced_system_status, MemoryBus.retrieve.
  cbn [EnhancedAgenticAISystem.memory_bus EnhancedAgenticAISystem.set_memory_bus
       EnhancedAgenticAISystem.set_api_integration MemoryBus.store MemoryBus.data].
  rewrite lookup_insert_eq.
  cbn [MemoryBus.entry_value EnhancedAgenticAISystem.since].
  split; [reflexivity|].
  cbn [EnhancedAgenticAISystem.system_uptime EnhancedAgenticAISystem.st_timestamp
       EnhancedAgenticAISystem.total_agents EnhancedAgenticAISystem.active_agents
       EnhancedAgenticAISystem.st_total_requests EnhancedAgenticAISystem.agents
       EnhancedAgenticAISystem.api_integration].
  split; [done|]. split; [done|]. split; [done|].
  split; [apply count_active_le|].
  by destruct (probe_ok _ reply_camel_ai), (probe_ok _ reply_llm7).
Qed.

(** ** The enhanced system: the demonstration *)

(** X24. The demonstration never raises and appends exactly one session
    to the system's list, after those already there. The session is either
    completed with the nine messages of three rounds of three participants,
    or marked as failed with between one and nine messages; with the first
    remote tier disabled it is completed and the router is not touched. *)
Theorem run_enhanced_demo_appends (json_dumps : list Message.t -> string)
    (net : nat -> remote_outcome) (clk : clock)
    (self : EnhancedAgenticAISystem.t) :
  exists api' session,
    EnhancedAgenticAISystem.run_enhanced_demo json_dumps net clk self
    = (EnhancedAgenticAISystem.add_session session
         (EnhancedAgenticAISystem.set_api_integration api' self),
       Ok tt)
    /\ (Session.status session = "completed"
        /\ length (Session.messages session) = 9%nat
        \/ Session.status session = "error"
           /\ (1 <= length (Session.messages session) <= 9)%nat)
    /\ (camel_ai_enabled (EnhancedAgenticAISystem.api_integration self) = false ->
        api' = EnhancedAgenticAISystem.api_integration self
        /\ Session.status session = "completed").
Proof.
  unfold EnhancedAgenticAISystem.run_enhanced_demo, bind, zoom, modify.
  pose proof (scenario_run json_dumps EnhancedAgenticAISystem.demo_scenario
                EnhancedAgenticAISystem.demo_agents net clk
                (EnhancedAgenticAISystem.api_integration self)) as Hrun.
  cbv zeta in Hrun.
  assert (length (turn_order EnhancedAgenticAISystem.demo_scenario
                    EnhancedAgenticAISystem.demo_agents) = 9%nat) as Hturns
    by reflexivity.
  destruct Hrun as [(Hoff & E)|[(Hon & api' & s' & new & _ & -> & Hnew & E)
                               |(Hon & api' & s' & new & e & k & _ & -> & Hk & Hnew & E)]];
    rewrite E; cbn [fst snd]; eexists _, _; (split; [reflexivity|]).
  - split; [left; split; [done|]|done].
    cbn [Session.complete Session.messages with_messages].
    by rewrite length_imap.
  - split; [left; split; [done|]|intros; congruence].
    cbn [Session.complete Session.messages with_messages].
    apply (f_equal length) in Hnew. rewrite !length_map in Hnew. congruence.
  - split; [right; split; [done|]|intros; congruence].
    cbn [Session.fail Session.messages with_messages].
    apply (f_equal length) in Hnew.
    rewrite !length_map, length_take in Hnew. lia.
Qed.

(** ** The base system: model selection *)

Lemma py_max_spec {A} (key : A -> Z) (rest : list A) :
  forall best,
    Main.py_max key best rest ∈ best :: rest
    /\ forall x, x ∈ best :: rest -> key x <= key (Main.py_max key best rest).
Proof.
  induction rest as [|y rest IH]; intros best.
  - cbn. split; [left|]. intros x Hx. apply list_elem_of_singleton in Hx. subst. lia.
  - cbn [Main.py_max].
    destruct (IH (if bool_decide (key best < key y) then y else best))
      as [Hin Hmax].
    split.
    + apply elem_of_cons in Hin as [->|Hin].
      * case_bool_decide; [right; left|left].
      * right. by right.
    + intros x Hx.
      assert (key best <= key (if bool_decide (key best < key y) then y else best)
              /\ key y <= key (if bool_decide (key best < key y) then y else best))
        as [Hb Hy] by (case_bool_decide; lia).
      pose proof (Hmax _ (list_elem_of_here _ _)) as Hcur.
      apply elem_of_cons in Hx as [->|Hx]; [lia|].
      apply elem_of_cons in Hx as [->|Hx]; [lia|].
      apply Hmax. by right.
Qed.

(** X25. Model selection returns the name of an available model of the
    table whose priority no other available model exceeds; when no model
    of the table is available it answers [local-llm], whether or not the
    table has a model of that name. *)
Theorem select_best_model_best (models : list (string * Main.Model)) :
  (Forall (fun entry => Main.available (snd entry) = false) models ->
   Main.select_best_model models = "local-llm")
  /\ (forall name m,
        (name, m) ∈ models -> Main.available m = true ->
        exists best,
          (Main.select_best_model models, best) ∈ models
          /\ Main.available best = true
          /\ Main.priority m <= Main.priority best).
Proof.
  unfold Main.select_best_model. split.
  - intros Hnone.
    assert (filter (fun entry => Main.available (snd entry) = true) models = [])
      as ->; [|done].
    induction Hnone as [|entry rest Hentry _ IH]; [done|].
    rewrite filter_cons_False by congruence. exact IH.
  - intros name m Hin Havail.
    assert ((name, m) ∈ filter (fun entry => Main.available (snd entry) = true) models)
      as Hfin by (by apply list_elem_of_filter).
    destruct (filter _ models) as [|first rest] eqn:Hf.
    { by apply not_elem_of_nil in Hfin. }
    destruct (py_max_spec (fun entry => Main.priority (snd entry)) rest first)
      as [Hbest Hmax].
    rewrite <- Hf in Hbest. apply list_elem_of_filter in Hbest as [Hbavail Hbin].
    exists (snd (Main.py_max (fun entry => Main.priority (snd entry)) first rest)).
    split; [|split; [done|]].
    + by destruct (Main.py_max _ first rest).
    + apply (Hmax (name, m)). exact Hfin.
Qed.

Lemma select_best_model_best_witness :
  let remote_only := [("gpt-4", Main.mkModel 10 false)] in
  let table := [("small", Main.mkModel 3 true); ("large", Main.mkModel 7 true);
                ("remote", Main.mkModel 9 false)] in
  Main.select_best_model remote_only = "local-llm"
  /\ (exists best,
        (Main.select_best_model Main.models, best) ∈ Main.models
        /\ Main.available best = true
        /\ 5 <= Main.priority best)
  /\ exists best,
       (Main.select_best_model table, best) ∈ table
       /\ Main.available best = true
       /\ 3 <= Main.priority best.
Proof.
  intros remote_only table. split; [|split].
  - apply (proj1 (select_best_model_best remote_only)).
    repeat constructor.
  - apply (proj2 (select_best_model_best Main.models)
             "local-llm" (Main.mkModel 5 true)).
    + do 3 right. left.
    + reflexivity.
  - apply (proj2 (select_best_model_best table) "small" (Main.mkModel 3 true)).
    + left.
    + reflexivity.
Defined.

(** ** The base system: the operation loop *)

Lemma main_maintain_bound (agent : Main.Agent) :
  (length (Main.errors (Main.maintain agent)) <= 10)%nat.
Proof.
  unfold Main.maintain. case_bool_decide as Hlen.
  - cbn [Main.errors]. rewrite last_n_length; lia.
  - lia.
Qed.

Lemma main_maintain_books (agent : Main.Agent) :
  Main.status (Main.maintain agent) = Main.status agent
  /\ Main.tasks_completed (Main.maintain agent) = Main.tasks_completed agent
  /\ Main.agent_name (Main.maintain agent) = Main.agent_name agent.
Proof. unfold Main.maintain. by case_bool_decide. Qed.

Lemma main_execute_task_books
    (process_task : Main.Agent -> gmap string value -> res value)
    (task : gmap string value) (now : Z) (agent : Main.Agent) :
  let agent' := fst (Main.execute_task process_task task now agent) in
  Main.status agent' = Main.status agent
  /\ Main.agent_name agent' = Main.agent_name agent
  /\ (Main.tasks_completed agent' + length (Main.errors agent')
      = Main.tasks_completed agent + length (Main.errors agent) + 1)%nat
  /\ (Main.tasks_completed agent <= Main.tasks_completed agent')%nat.
Proof.
  unfold Main.execute_task. destruct (process_task _ task); cbn;
    rewrite ?length_app; cbn; repeat split; lia.
Qed.

(** What a cycle does to the agent at one position of the dict. *)
Lemma main_cycle_lookup (clk : clock) (clks : nat -> clock) (self : Main.System)
    (i : nat) (key : string) (m : Main.Managed) :
  Main.agents self !! i = Some (key, m) ->
  Main.agents (Main.cycle clk clks self) !! i
  = Some (key,
          Main.mkManaged (Main.process_task m)
            (Main.maintain
               (if bool_decide (Main.status (Main.managed_agent m) = "active")
                then fst (Main.execute_task (Main.process_task m)
                            (Main.autonomous_task (Main.managed_agent m)
                               (clks i 0%nat))
                            (clks i 1%nat) (Main.managed_agent m))
                else Main.managed_agent m))).
Proof.
  intros Hi. unfold Main.cycle, Main.maintain_agents, Main.execute_autonomous_tasks.
  cbn [Main.agents Main.monitor_agents].
  rewrite list_lookup_fmap, list_lookup_imap, Hi. cbn.
  by case_bool_decide.
Qed.

Lemma main_cycle_keys (clk : clock) (clks : nat -> clock) (self : Main.System) :
  map fst (Main.agents (Main.cycle clk clks self)) = map fst (Main.agents self).
Proof.
  apply list_eq. intros i. rewrite !list_lookup_fmap.
  destruct (Main.agents self !! i) as [[key m]|] eqn:Hi.
  - by rewrite (main_cycle_lookup clk clks self i key m Hi).
  - cbn. unfold Main.cycle, Main.maintain_agents, Main.execute_autonomous_tasks.
    cbn [Main.agents Main.monitor_agents].
    by rewrite list_lookup_fmap, list_lookup_imap, Hi.
Qed.

Lemma base_cycle_spec (clk : clock) (clks : nat -> clock) (self : Main.System) :
  map fst (Main.agents (Main.cycle clk clks self)) = map fst (Main.agents self)
  /\ forall i key m,
       Main.agents self !! i = Some (key, m) ->
       exists agent',
         Main.agents (Main.cycle clk clks self) !! i
         = Some (key, Main.mkManaged (Main.process_task m) agent')
         /\ Main.status agent' = Main.status (Main.managed_agent m)
         /\ (length (Main.errors agent') <= 10)%nat
         /\ (Main.tasks_completed (Main.managed_agent m)
             <= Main.tasks_completed agent'
             <= S (Main.tasks_completed (Main.managed_agent m)))%nat
         /\ (Main.status (Main.managed_agent m) <> "active" ->
             agent' = Main.maintain (Main.managed_agent m)).
Proof.
  split; [apply main_cycle_keys|].
  intros i key m Hi. eexists. split; [by apply main_cycle_lookup|].
  destruct (main_maintain_books
              (if bool_decide (Main.status (Main.managed_agent m) = "active")
               then fst (Main.execute_task (Main.process_task m)
                           (Main.autonomous_task (Main.managed_agent m)
                              (clks i 0%nat))
                           (clks i 1%nat) (Main.managed_agent m))
               else Main.managed_agent m)) as (Hs & Ht & _).
  rewrite Hs, Ht.
  pose proof (main_execute_task_books (Main.process_task m)
                (Main.autonomous_task (Main.managed_agent m) (clks i 0%nat))
                (clks i 1%nat) (Main.managed_agent m)) as (Ks & _ & Kb & Kt).
  cbv zeta in Ks, Kb, Kt.
  split; [by case_bool_decide|]. split; [apply main_maintain_bound|].
  split.
  - case_bool_decide; [|lia]. unfold Main.execute_task in *.
    destruct (Main.process_task m _ _); cbn in *; lia.
  - intros Hidle. by rewrite bool_decide_eq_false_2.
Qed.

(** X26. One pass of the loop of the base system. The memory store then
    holds the number of active agents and the total of completed tasks as
    they were before the pass. Every agent keeps its key, its class and
    its status; its count of completed tasks grows by at most one; an
    agent that is not active gets no task, only maintenance; and no error
    log is left longer than 10 entries. *)
Theorem base_cycle (clk : clock) (clks : nat -> clock) (self : Main.System) :
  let self' := Main.cycle clk clks self in
  MemoryBus.retrieve "active_agents" (Main.memory_bus self')
  = VInt (Z.of_nat (Main.count_active (Main.agents self)))
  /\ MemoryBus.retrieve "total_tasks_completed" (Main.memory_bus self')
     = VInt (Z.of_nat (Main.sum_tasks (Main.agents self)))
  /\ map fst (Main.agents self') = map fst (Main.agents self)
  /\ forall i key m,
       Main.agents self !! i = Some (key, m) ->
       exists agent',
         Main.agents self' !! i = Some (key, Main.mkManaged (Main.process_task m) agent')
         /\ Main.status agent' = Main.status (Main.managed_agent m)
         /\ (length (Main.errors agent') <= 10)%nat
         /\ (Main.tasks_completed (Main.managed_agent m)
             <= Main.tasks_completed agent'
             <= S (Main.tasks_completed (Main.managed_agent m)))%nat
         /\ (Main.status (Main.managed_agent m) <> "active" ->
             agent' = Main.maintain (Main.managed_agent m)).
Proof.
  cbv zeta. split; [|split; [|split]].
  - unfold Main.cycle, Main.monitor_agents, MemoryBus.retrieve, MemoryBus.store.
    cbn [Main.memory_bus MemoryBus.data].
    rewrite lookup_insert_ne by done. by rewrite lookup_insert_eq.
  - unfold Main.cycle, Main.monitor_agents, MemoryBus.retrieve, MemoryBus.store.
    cbn [Main.memory_bus MemoryBus.data].
    by rewrite lookup_insert_eq.
  - apply base_cycle_spec.
  - apply base_cycle_spec.
Qed.

(** X27. However many passes the loop of the base system makes, and
    however many tasks fail, after at least one pass every agent still has
    its key and status and an error log of at most 10 entries. *)
Theorem base_loop_bounds_errors (n : nat) :
  forall (clk : nat -> clock) (clks : nat -> nat -> clock) (self : Main.System),
    (1 <= n)%nat ->
    let self' := Main.run_cycles n clk clks self in
    map (fun entry => (fst entry, Main.status (Main.managed_agent (snd entry))))
      (Main.agents self')
    = map (fun entry => (fst entry, Main.status (Main.managed_agent (snd entry))))
        (Main.agents self)
    /\ Forall (fun entry =>
                 (length (Main.errors (Main.managed_agent (snd entry))) <= 10)%nat)
         (Main.agents self').
Proof.
  assert (forall clk clks self,
             map (fun entry => (fst entry, Main.status (Main.managed_agent (snd entry))))
               (Main.agents (Main.cycle clk clks self))
             = map (fun entry => (fst entry, Main.status (Main.managed_agent (snd entry))))
                 (Main.agents self)
             /\ Forall (fun entry =>
                          (length (Main.errors (Main.managed_agent (snd entry)))
                           <= 10)%nat)
                  (Main.agents (Main.cycle clk clks self))) as Hcycle.
  { intros clk clks self.
    destruct (base_cycle_spec clk clks self) as (Hkeys & Hat).
    split.
    - apply list_eq. intros i. rewrite !list_lookup_fmap.
      destruct (Main.agents self !! i) as [[key m]|] eqn:Hi.
      + destruct (Hat i key m Hi) as (agent' & -> & Hs & _). cbn. by rewrite Hs.
      + apply (f_equal (fun l => l !! i)) in Hkeys.
        rewrite !list_lookup_fmap, Hi in Hkeys.
        by destruct (Main.agents (Main.cycle clk clks self) !! i).
    - apply Forall_lookup. intros i [key' m'] Hi'.
      destruct (Main.agents self !! i) as [[key m]|] eqn:Hi.
      + destruct (Hat i key m Hi) as (agent' & E & _ & Hb & _).
        rewrite E in Hi'. by simplify_eq.
      + apply (f_equal (fun l => l !! i)) in Hkeys.
        by rewrite !list_lookup_fmap, Hi, Hi' in Hkeys. }
  induction n as [|n IH]; intros clk clks self Hn; [lia|].
  cbn [Main.run_cycles]. cbv zeta.
  destruct (Hcycle (clk 0%nat) (clks 0%nat) self) as [Hst Hb].
  destruct n as [|n].
  - cbn [Main.run_cycles]. done.
  - destruct (IH (fun k => clk (S k)) (fun k => clks (S k))
                (Main.cycle (clk 0%nat) (clks 0%nat) self)) as [Hst' Hb']; [lia|].
    split; [by rewrite Hst'|exact Hb'].
Qed.

Lemma base_loop_bounds_errors_witness :
  let failing :=
    Main.mkManaged (fun _ _ => Raise (Exception "no tool"))
      (Main.mkAgent "bug_hunter" "active" 0 0 []) in
  let idle :=
    Main.mkManaged Main.base_process_task
      (Main.mkAgent "marketing" "error" 0 0 ["setup failed"]) in
  let self := Main.mkSystem MemoryBus.init [("bug_hunter", failing); ("marketing", idle)] in
  let self' := Main.run_cycles 12 (fun _ n => Z.of_nat n) (fun _ _ n => Z.of_nat n) self in
  map (fun entry => (fst entry, Main.status (Main.managed_agent (snd entry))))
    (Main.agents self')
  = [("bug_hunter", "active"); ("marketing", "error")]
  /\ Forall (fun entry =>
               (length (Main.errors (Main.managed_agent (snd entry))) <= 10)%nat)
       (Main.agents self').
Proof.
  intros failing idle self.
  apply (base_loop_bounds_errors 12 (fun _ n => Z.of_nat n)
           (fun _ _ n => Z.of_nat n) self).
  lia.
Defined.

(** ** The router: counters over sequences of calls *)

(** X28. Over any sequence of calls no counter of any tier ever goes down,
    and the reachability flags stay as the start-up probe left them: a
    tier that was disabled stays disabled. *)
Theorem counters_never_decrease
    (calls : list (string * AgentConfig * remote_outcome)) (self : t) :
  (forall j, stats_le (stats j self) (stats j (run_calls calls self)))
  /\ camel_ai_enabled (run_calls calls self) = camel_ai_enabled self
  /\ llm7_enabled (run_calls calls self) = llm7_enabled self.
Proof.
  split; [intros j; apply run_calls_monotone|apply run_calls_flags].
Qed.

(** X29. Starting from counters that add up, a sequence of calls in which
    no 200 response carries a body that makes its tier raise keeps, for
    every tier and for the totals of [get_stats], the number of requests
    equal to successes plus errors. *)
Theorem counters_balanced_when_clean
    (calls : list (string * AgentConfig * remote_outcome)) (self : t) :
  clean_calls calls self ->
  (forall j, balanced (stats j self)) ->
  (forall j, balanced (stats j (run_calls calls self)))
  /\ total_requests (run_calls calls self)
     = (total_success (run_calls calls self)
        + total_errors (run_calls calls self))%nat.
Proof.
  intros Hclean Hbal.
  pose proof (run_calls_balanced calls self Hclean Hbal) as H.
  split; [exact H|by apply totals_balanced].
Qed.

Lemma counters_balanced_when_clean_witness :
  let cfg := agent_config "ui_designer" "designer" ["ui_design"; "ux"] "camel" in
  let calls :=
    [("draw", cfg, TransportFailure (ClientError "connection refused"));
     ("draw", cfg, Response 500 (Ok VNone))] in
  let self := run_calls calls (enable_camel_ai init) in
  (forall j, balanced (stats j self))
  /\ total_requests self = (total_success self + total_errors self)%nat.
Proof.
  intros cfg calls self.
  apply (counters_balanced_when_clean calls (enable_camel_ai init)).
  - split; [|split; [|exact I]]; intros k data _ Hreply; discriminate.
  - intros j. destruct j; reflexivity.
Defined.
